(** * mbed-flasher: the FlasherMbed flashing sequence

    A shallow embedding of [mbed_flasher/flashers/FlasherMbed.py] and the
    properties of its flashing sequence: the serial reset, the identity
    re-resolution ([check_points_unchanged]), the remount watch loop
    ([runner]) and the orchestration and verification in [flash].

    Conventions of the embedding.
    - The source is Python 2 code ([e.message] on an exception, line 56):
      [str] is a byte string, modelled by [string]; [IOError] and [OSError]
      are distinct exception classes.
    - A descriptor ([target], [new_target]) is a Python dict from field name
      to string, modelled by [gmap string string]; [d[k]] on a missing key
      raises [KeyError].
    - Everything outside the process (file system, device tables, serial
      lines, the board) is the environment [Env]: a state [Sys] for every
      instant.  The program observes the state at its current clock value;
      the clock (milliseconds) advances at [sleep] and never runs backwards.
    - Code with effects is written in the monad [M]: state (clock and event
      trace) plus Python exceptions.  Every call to the outside leaves an
      event in the trace, newest first.
    - Library calls keep to their contract: a shell command returns its
      output, [sleep(d)] returns no earlier than [d] later, [isfile] does
      not raise.  The watch thread is the only thread besides its waiting
      caller, so it is run in sequence; an exception inside it ends the
      thread only. *)

From Stdlib Require Import ZArith String Ascii List.
From Stdlib Require OrdersEx.
From stdpp Require Import base gmap strings list sorting.

Open Scope Z_scope.
Open Scope string_scope.

(** ** Python string methods used by the source *)

Module PyStr.

(** [s.find(sub)]: index of the first occurrence, or -1. *)
Fixpoint find_at (sub s : string) (i : Z) : Z :=
  if String.prefix sub s then i
  else match s with
       | EmptyString => -1
       | String _ s' => find_at sub s' (i + 1)
       end.

Definition find (s sub : string) : Z := find_at sub s 0.

(** [s.find(sub) != -1] *)
Definition found (s sub : string) : bool := negb (Z.eqb (find s sub) (-1)).

(** [s.split(sep)] for a non-empty [sep]: [skip] counts the characters of
    the separator occurrence still to be passed over, [cur] is the piece
    being collected. *)
Fixpoint split_go (sep s : string) (skip : nat) (cur : string) : list string :=
  match s with
  | EmptyString => [cur]
  | String c s' =>
      match skip with
      | S k => split_go sep s' k cur
      | O =>
          if String.prefix sep s
          then cur :: split_go sep s' (String.length sep - 1) ""
          else split_go sep s' O (cur ++ String c "")
      end
  end.

Definition split (s sep : string) : list string := split_go sep s O "".

(** [l[-1]] on the result of a split (never empty). *)
Definition last_piece (l : list string) : string := List.last l "".

(** [s.splitlines()]: lines end at LF, CR or CR LF; no empty last line. *)
Definition is_lf (c : ascii) : bool := Ascii.eqb c "010"%char.
Definition is_cr (c : ascii) : bool := Ascii.eqb c "013"%char.

Fixpoint splitlines_go (s cur : string) : list string :=
  match s with
  | EmptyString => match cur with EmptyString => [] | _ => [cur] end
  | String c s' =>
      if is_lf c then cur :: splitlines_go s' ""
      else if is_cr c then
        match s' with
        | String c' s'' =>
            if is_lf c' then cur :: splitlines_go s'' ""
            else cur :: splitlines_go s' ""
        | EmptyString => cur :: splitlines_go s' ""
        end
      else splitlines_go s' (cur ++ String c "")
  end.

Definition splitlines (s : string) : list string := splitlines_go s "".

(** [s.strip()]: the whitespace of a Python 2 [str]. *)
Definition is_space (c : ascii) : bool :=
  let n := N_of_ascii c in
  ((9 <=? n) && (n <=? 13))%N || (n =? 32)%N.

Fixpoint lstrip (s : string) : string :=
  match s with
  | String c s' => if is_space c then lstrip s' else s
  | EmptyString => EmptyString
  end.

Fixpoint rstrip (s : string) : string :=
  match s with
  | EmptyString => EmptyString
  | String c s' =>
      match rstrip s' with
      | EmptyString => if is_space c then EmptyString else String c EmptyString
      | r => String c r
      end
  end.

Definition strip (s : string) : string := rstrip (lstrip s).

(** [s.startswith(p)], [s.endswith("/")] *)
Definition startswith (s p : string) : bool := String.prefix p s.

Fixpoint ends_with_slash (s : string) : bool :=
  match s with
  | EmptyString => false
  | String c EmptyString => Ascii.eqb c "/"%char
  | String _ s' => ends_with_slash s'
  end.

(** [sep.join(l)] *)
Fixpoint join (sep : string) (l : list string) : string :=
  match l with
  | [] => ""
  | [x] => x
  | x :: l' => x ++ sep ++ join sep l'
  end.

End PyStr.

(** ** [os.path]

    The path functions depend on the platform ([posixpath] or [ntpath]); the
    flasher takes them from the environment.  [posixpath] is given below and
    is the instance used on the by-id platform family. *)

Record OsPath := {
  os_abspath : string -> string;
  os_join : string -> string -> string;
  os_split : string -> string * string
}.

Module PosixPath.

Definition join (a b : string) : string :=
  if PyStr.startswith b "/" then b
  else if String.eqb a "" || PyStr.ends_with_slash a then a ++ b
  else a ++ "/" ++ b.

Fixpoint all_slashes (s : string) : bool :=
  match s with
  | EmptyString => true
  | String c s' => Ascii.eqb c "/"%char && all_slashes s'
  end.

Fixpoint rstrip_slash (s : string) : string :=
  match s with
  | EmptyString => EmptyString
  | String c s' =>
      match rstrip_slash s' with
      | EmptyString => if Ascii.eqb c "/"%char then EmptyString else String c EmptyString
      | r => String c r
      end
  end.

(** [split]: head is everything up to the last slash, tail what follows. *)
Definition split (p : string) : string * string :=
  let pieces := PyStr.split p "/" in
  let tail := PyStr.last_piece pieces in
  let head := String.substring 0 (String.length p - String.length tail) p in
  (if negb (String.eqb head "") && negb (all_slashes head)
   then rstrip_slash head else head, tail).

Definition norm_step (initial : bool) (acc : list string) (comp : string) : list string :=
  if String.eqb comp "" || String.eqb comp "." then acc
  else if negb (String.eqb comp "..")
          || (negb initial && bool_decide (acc = []))
          || bool_decide (List.last acc "" = ".." /\ acc <> [])
       then (acc ++ [comp])%list
       else List.removelast acc.

Definition normpath (p : string) : string :=
  if String.eqb p "" then "."
  else
    let initial := PyStr.startswith p "/" in
    let double := PyStr.startswith p "//" && negb (PyStr.startswith p "///") in
    let comps := fold_left (norm_step initial) (PyStr.split p "/") [] in
    let body := PyStr.join "/" comps in
    let path := (if double then "//" else if initial then "/" else "") ++ body in
    if String.eqb path "" then "." else path.

Definition abspath (cwd p : string) : string :=
  normpath (if PyStr.startswith p "/" then p else join cwd p).

Definition os_path (cwd : string) : OsPath :=
  {| os_abspath := abspath cwd; os_join := join; os_split := split |}.

End PosixPath.


(** ** Exceptions, events and the environment *)

Inductive Exn :=
| KeyError (key : string)        (* [d[key]] on a dict without [key] *)
| IndexError                     (* [l[i]] out of range *)
| IOError (path : string)        (* [open(path)] or its [read()] failed *)
| OSError (path : string)        (* [os.open], [os.write], [os.close], [os.listdir] failed *)
| AttributeError                 (* raised inside the pyOCD session *)
| ProbeFailure.                  (* any other exception of the pyOCD collaborator *)

Inductive Level := DEBUG | INFO | ERROR.

(** The arguments of a log format string, kept unformatted. *)
Inductive Arg :=
| AStr (s : string)
| AInt (n : Z)
| ADict (d : gmap string string)
| ASha1 (data : string)          (* [hashlib.sha1(data).hexdigest()] *)
| AExn (e : Exn).

(** What the flasher does to the outside, newest event first in a trace. *)
Inductive Event :=
| Log (lvl : Level) (fmt : string) (args : list Arg)
| Print (msg : string)
| Sleep (ms : Z)
| ResetBoard (serial_port : string)            (* a call of [reset_board] *)
| SerialOpen (serial_port : string)
| SendBreak (serial_port : string)
| SerialClose (serial_port : string)
| ReadBinary (path : string)                   (* [open(path, 'rb').read()] *)
| ReadText (path : string)                     (* [open(path, 'r').read()] *)
| IsFile (path : string)
| WriteFile (path : string) (flags : list string) (data : string)
| SystemCmd (cmd : string)                     (* [os.system] *)
| Command (cmd : string)                       (* [os.popen], [Popen] *)
| ListDir (path : string)
| ComPortQuery (target_id : string)
| ThreadStart (drive : string * string)
| ProbeSession (target_id source : string).

Record File := { contents : string; readable : bool }.

Inductive ProbeOutcome := ProbeDone | ProbeAttributeError | ProbeOtherError.

(** The state of the outside world at one instant. *)
Record Sys := {
  files : gmap string File;                 (* the regular files, by the path given to the OS *)
  writable : string -> bool;                (* [os.open]/[os.write]/[os.close] on the path succeed *)
  stdout_of : string -> string;             (* what a shell command prints *)
  listdir : string -> option (list string); (* [os.listdir]; [None]: it raises *)
  serial_error : string -> option string;   (* [EnhancedSerial(port)]: the message of its
                                               SerialException, [None] when the line opens *)
  break_sent : string -> bool;              (* [port.safe_sendBreak()] *)
  mbed_com_port : string -> string;         (* [mbed_lstools]' [get_mbed_com_port] *)
  probe : string -> string -> ProbeOutcome; (* the pyOCD session on a board and an image *)
  latency : N                               (* by how much a [sleep] started now oversleeps *)
}.

Record Env := {
  platform_system : string;                 (* [platform.system()] *)
  os_path : OsPath;
  pyocd_installed : bool;                   (* [from pyOCD.board import MbedBoard] succeeds *)
  sys_at : Z -> Sys                         (* the outside world at every instant (ms) *)
}.

Record World := { now : Z; trace : list Event }.

(** ** The monad of the flasher: clock, trace and exceptions *)

Inductive Result (A : Type) :=
| Ret (a : A)
| Raise (e : Exn).
Arguments Ret {A} a.
Arguments Raise {A} e.

Definition M (A : Type) : Type := World -> Result A * World.

Definition ret {A} (a : A) : M A := fun w => (Ret a, w).

Definition raise {A} (e : Exn) : M A := fun w => (Raise e, w).

Definition bind {A B} (m : M A) (k : A -> M B) : M B :=
  fun w =>
    match m w with
    | (Ret a, w') => k a w'
    | (Raise e, w') => (Raise e, w')
    end.

Declare Scope py_scope.
Delimit Scope py_scope with py.
Notation "x <- m ;; k" := (bind m (fun x => k))
  (at level 100, m at next level, right associativity) : py_scope.
Notation "m ;; k" := (bind m (fun _ => k))
  (at level 100, right associativity) : py_scope.
Open Scope py_scope.

Definition emit (ev : Event) : M unit :=
  fun w => (Ret tt, {| now := now w; trace := ev :: trace w |}).

(** [try: body except ...]: [handler e] is the matching clause, if any. *)
Definition try_except {A} (body : M A) (handler : Exn -> option (M A)) : M A :=
  fun w =>
    match body w with
    | (Raise e, w') =>
        match handler e with
        | Some h => h w'
        | None => (Raise e, w')
        end
    | r => r
    end.

(** An early [return code] inside a block, or falling through to the next
    statement. *)
Inductive Flow (A : Type) :=
| Return (code : Z)
| Next (a : A).
Arguments Return {A} code.
Arguments Next {A} a.

(** [d[key]] *)
Definition getitem (d : gmap string string) (key : string) : M string :=
  match d !! key with
  | Some v => ret v
  | None => raise (KeyError key)
  end.

(** [key in d] *)
Definition has_key (d : gmap string string) (key : string) : bool :=
  bool_decide (is_Some (d !! key)).

(** [l[i]] *)
Definition getindex (l : list string) (i : nat) : M string :=
  match l !! i with
  | Some v => ret v
  | None => raise IndexError
  end.

Section Flasher.

Variable env : Env.

(** Reading the outside world at the current instant. *)
Definition observe {A} (f : Sys -> A) : M A :=
  fun w => (Ret (f (sys_at env (now w))), w).

(** [time()], in milliseconds *)
Definition time : M Z := fun w => (Ret (now w), w).

(** [sleep(ms / 1000)]: returns no earlier than [ms] later. *)
Definition sleep (ms : Z) : M unit :=
  fun w => (Ret tt, {| now := now w + ms + Z.of_N (latency (sys_at env (now w)));
                       trace := Sleep ms :: trace w |}).

Definition log (lvl : Level) (fmt : string) (args : list Arg) : M unit :=
  emit (Log lvl fmt args).

Definition on_windows : bool := String.eqb (platform_system env) "Windows".
Definition on_darwin : bool := String.eqb (platform_system env) "Darwin".

(** [os.popen(cmd).read()], and [Popen(cmd, ...).stdout.read()] *)
Definition command (cmd : string) : M string :=
  emit (Command cmd);;
  observe (fun s => stdout_of s cmd).

(** [os.path.isfile(path)] *)
Definition isfile (path : string) : M bool :=
  emit (IsFile path);;
  observe (fun s => bool_decide (is_Some (files s !! path))).

(** [with open(path, mode) as f: f.read()] *)
Definition read_file (ev : Event) (path : string) : M string :=
  emit ev;;
  f <- observe (fun s => files s !! path);;
  match f with
  | Some file => if readable file then ret (contents file) else raise (IOError path)
  | None => raise (IOError path)
  end.

Definition read_binary (path : string) : M string := read_file (ReadBinary path) path.
Definition read_text (path : string) : M string := read_file (ReadText path) path.

(** [fd = os.open(path, flags); os.write(fd, data); os.close(fd)] *)
Definition write_file (path : string) (flags : list string) (data : string) : M unit :=
  emit (WriteFile path flags data);;
  ok <- observe (fun s => writable s path);;
  if ok then ret tt else raise (OSError path).

(** *** [reset_board] (lines 50-73)

    The result is Python's [None] or [-6]. *)
Definition reset_board (serial_port : string) : M (option Z) :=
  emit (ResetBoard serial_port);;
  emit (SerialOpen serial_port);;
  err <- observe (fun s => serial_error s serial_port);;
  match err with
  | Some message =>
      log INFO "reset could not be sent" [];;
      log ERROR "%s" [AStr message];;
      (if PyStr.found message "could not open port"
       then emit (Print "Reset could not be given. Close your Serial connection to device.")
       else ret tt);;
      ret (Some (-6))
  | None =>
      (* baudrate 115200, timeout 1, no flow control, buffers flushed;
         the open port object is true *)
      log INFO "sendBreak to device to reboot" [];;
      emit (SendBreak serial_port);;
      result <- observe (fun s => break_sent s serial_port);;
      (if result then log INFO "reset completed" [] else log INFO "reset failed" []);;
      emit (SerialClose serial_port);;
      ret None
  end.

(** *** [auxiliary_drive_check] (lines 75-83)

    The result is [True], [False] or, falling off the end, [None]. *)
Definition auxiliary_drive_check (drive : string * string) : M (option bool) :=
  emit (ListDir (fst drive));;
  listing <- observe (fun s => listdir s (fst drive));;
  match listing with
  | None => raise (OSError (fst drive))
  | Some out =>
      if existsb (fun item => PyStr.found item ".HTM") out
      then if negb (bool_decide (snd drive ∈ out)) then ret (Some true) else ret None
      else ret (Some false)
  end.

Definition truthy (v : option bool) : bool :=
  match v with Some b => b | None => false end.

(** *** [runner] (lines 85-104) *)

Definition FLASHING_VERIFICATION_TIMEOUT : Z := 100.

Inductive RunnerExit := Settled | TimedOut.

(** One pass over lines 88-101: sleep, list the drive, and tell whether
    one of the two [break]s before the timeout test is taken. *)
Definition runner_poll (drive : string * string) : M bool :=
  sleep 2000;;
  out <- command ((if on_windows then "dir " else "ls ") ++ fst drive);;
  if PyStr.found out ".HTM" && negb (PyStr.found out (snd drive))
  then ret true
  else if on_windows && String.eqb out ""
       then v <- auxiliary_drive_check drive;; ret (truthy v)
       else ret false.

(** The [while True] loop.  [fuel] bounds the number of polls: [None] is
    the loop still running when the fuel is spent. *)
Fixpoint runner_loop (fuel : nat) (drive : string * string) (start_time : Z)
  : M (option RunnerExit) :=
  match fuel with
  | O => ret None
  | S fuel' =>
      settled <- runner_poll drive;;
      if settled then ret (Some Settled)
      else
        t <- time;;
        if t - start_time >? FLASHING_VERIFICATION_TIMEOUT * 1000
        then log DEBUG "re-mount check timed out for %s" [AStr (fst drive)];;
             ret (Some TimedOut)
        else runner_loop fuel' drive start_time
  end.

(** Every poll sleeps two seconds, so the timeout test succeeds at the
    51st poll at the latest. *)
Definition max_polls : nat := Z.to_nat (FLASHING_VERIFICATION_TIMEOUT * 1000 / 2000) + 1.

Definition runner (drive : string * string) : M (option RunnerExit) :=
  start_time <- time;;
  runner_loop max_polls drive start_time.

(** [t = Thread(target=self.runner, args=(drive,)); t.start();
    while t.is_alive(): t.join(2.5)]: the caller only waits, so the thread
    runs to its end in sequence; an exception ends the thread, not the
    caller. *)
Definition run_thread (drive : string * string) : M unit :=
  emit (ThreadStart drive);;
  fun w => (Ret tt, snd (runner drive w)).

(** *** [check_points_unchanged] (lines 106-168)

    The result is an [int] error code or a descriptor. *)
Inductive Resolved :=
| Code (n : Z)
| Descriptor (d : gmap string string).

(** Lines 115-123: the loop over the lines of [ls -oA /dev/serial/by-id/]. *)
Fixpoint scan_serial_by_id (target : gmap string string) (lines : list string)
    (new_target : gmap string string) : M (Flow (gmap string string)) :=
  match lines with
  | [] => ret (Next new_target)
  | line :: rest =>
      target_id <- getitem target "target_id";;
      if PyStr.found line target_id then
        serial_port <- getitem target "serial_port";;
        if negb (String.eqb (PyStr.last_piece (PyStr.split serial_port "/"))
                            (PyStr.last_piece (PyStr.split line "/")))
        then
          if negb (has_key new_target "serial_port")
          then scan_serial_by_id target rest
                 (<["serial_port" := "/dev/" ++ PyStr.last_piece (PyStr.split line "/")]> new_target)
          else
            log ERROR "target_id %s has more than 1 serial port in the system" [AStr target_id];;
            ret (Return (-10))
        else scan_serial_by_id target rest new_target
      else scan_serial_by_id target rest new_target
  end.

(** Lines 125-132: the loop over the lines of [ls -oA /dev/disk/by-id/]. *)
Fixpoint scan_disk_by_id (target : gmap string string) (lines : list string)
    (new_target : gmap string string) : M (Flow (gmap string string)) :=
  match lines with
  | [] => ret (Next new_target)
  | dev_line :: rest =>
      target_id <- getitem target "target_id";;
      if PyStr.found dev_line target_id then
        if negb (has_key new_target "dev_point")
        then scan_disk_by_id target rest
               (<["dev_point" := "/dev/" ++ PyStr.last_piece (PyStr.split dev_line "/")]> new_target)
        else
          log ERROR "target_id %s has more than 1 device point in the system" [AStr target_id];;
          ret (Return (-11))
      else scan_disk_by_id target rest new_target
  end.

(** [mount.split('on')[1].split('type')[0].strip()] *)
Definition mounted_on (mount : string) : M string :=
  after_on <- getindex (PyStr.split mount "on") 1;;
  before_type <- getindex (PyStr.split after_on "type") 0;;
  ret (PyStr.strip before_type).

(** Lines 137-146: the loop over the lines of the mount table.  [Some d] is
    leaving with [for_break] set and [new_target] equal to [d]; [None] is
    the loop running to its end. *)
Fixpoint scan_mounts (target new_target : gmap string string) (mounts : list string)
    : M (option (gmap string string)) :=
  match mounts with
  | [] => ret None
  | mount :: rest =>
      dev_point <- getitem new_target "dev_point";;
      if PyStr.found mount dev_point then
        mount_point <- getitem target "mount_point";;
        place <- mounted_on mount;;
        if String.eqb mount_point place
        then ret (Some new_target)
        else ret (Some (<["mount_point" := place]> new_target))
      else
        sleep 1000;;
        scan_mounts target new_target rest
  end.

(** Lines 134-152: [for i in range(attempts): ... else: return -12]. *)
Fixpoint poll_mounts (attempts : nat) (target new_target : gmap string string)
    : M (Flow (gmap string string)) :=
  match attempts with
  | O =>
      target_id <- getitem target "target_id";;
      log ERROR "vfat mount point for %s did not re-appear in the system in 10 seconds"
          [AStr target_id];;
      ret (Return (-12))
  | S attempts' =>
      out <- command "mount |grep vfat";;
      found <- scan_mounts target new_target (PyStr.splitlines out);;
      match found with
      | Some new_target' => ret (Next new_target')
      | None => poll_mounts attempts' target new_target
      end
  end.

(** Lines 108-111. *)
Definition com_port_resolution (target : gmap string string) : M (Flow (gmap string string)) :=
  serial_port <- getitem target "serial_port";;
  target_id <- getitem target "target_id";;
  emit (ComPortQuery target_id);;
  port <- observe (fun s => mbed_com_port s target_id);;
  if negb (String.eqb serial_port port)
  then
    emit (ComPortQuery target_id);;
    port' <- observe (fun s => mbed_com_port s target_id);;
    ret (Next (<["serial_port" := port']> ∅))
  else ret (Next ∅).

(** Lines 115-152.  [dev_points] is the list of line 124, which nothing
    ever appends to. *)
Definition by_id_resolution (target : gmap string string) : M (Flow (gmap string string)) :=
  serial_out <- command "ls -oA /dev/serial/by-id/";;
  r <- scan_serial_by_id target (PyStr.splitlines serial_out) ∅;;
  match r with
  | Return code => ret (Return code)
  | Next new_target =>
      let dev_points : list string := [] in
      disk_out <- command "ls -oA /dev/disk/by-id/";;
      r <- scan_disk_by_id target (PyStr.splitlines disk_out) new_target;;
      match r with
      | Return code => ret (Return code)
      | Next new_target =>
          if negb (bool_decide (dev_points = []))
          then poll_mounts 10 target new_target
          else ret (Next new_target)
      end
  end.

(** Lines 154-168. *)
Definition report_points (target new_target : gmap string string) : M Resolved :=
  if negb (bool_decide (new_target = ∅)) then
    (if has_key new_target "serial_port"
     then old <- getitem target "serial_port";;
          new <- getitem new_target "serial_port";;
          log DEBUG "serial port %s has changed to %s" [AStr old; AStr new]
     else old <- getitem target "serial_port";;
          log DEBUG "serial port %s has not changed" [AStr old]);;
    (if has_key new_target "mount_point"
     then old <- getitem target "mount_point";;
          new <- getitem new_target "mount_point";;
          log DEBUG "mount point %s has changed to %s" [AStr old; AStr new]
     else old <- getitem target "mount_point";;
          log DEBUG "mount point %s has not changed" [AStr old]);;
    target_id <- getitem target "target_id";;
    ret (Descriptor (<["target_id" := target_id]> new_target))
  else ret (Descriptor target).

Definition check_points_unchanged (target : gmap string string) : M Resolved :=
  r <- (if on_windows then com_port_resolution target
        else if on_darwin then ret (Next ∅)
        else by_id_resolution target);;
  match r with
  | Return code => ret (Code code)
  | Next new_target => report_points target new_target
  end.

(** *** [flash] (lines 170-286) *)

(** Lines 193-209: the pyOCD collaborator resets the board, flashes the
    image and resets again; the session is one step of the environment. *)
Definition flash_pyocd (source : string) (target : gmap string string) : M Z :=
  try_except
    (target_id <- getitem target "target_id";;
     emit (ProbeSession target_id source);;
     outcome <- observe (fun s => probe s target_id source);;
     match outcome with
     | ProbeDone => ret 0
     | ProbeAttributeError => raise AttributeError
     | ProbeOtherError => raise ProbeFailure
     end)
    (fun e =>
       match e with
       | AttributeError =>
           Some (target_id <- getitem target "target_id";;
                 log ERROR "Flashing failed: %s. tid=%s" [AExn e; AStr target_id];;
                 ret (-4))
       | _ => None
       end).

(** Lines 212-214. *)
Definition pre_reset (target : gmap string string) (no_reset : bool) : M unit :=
  if has_key target "serial_port" && negb no_reset
  then serial_port <- getitem target "serial_port";;
       reset_board serial_port;;
       sleep 100
  else ret tt.

(** Lines 231-235: the flags of [get_me_file]. *)
Definition open_flags : list string :=
  if on_darwin then ["O_CREAT"; "O_TRUNC"; "O_RDWR"; "O_SYNC"]
  else ["O_CREAT"; "O_DIRECT"; "O_TRUNC"; "O_RDWR"].

(** Lines 215-239. *)
Definition write_image (source destination : string) : M (Flow unit) :=
  if on_windows then
    aux_source <- read_binary source;;
    log DEBUG "SHA1: %s" [ASha1 aux_source];;
    log DEBUG "copying file: %s to %s" [AStr source; AStr destination];;
    emit (SystemCmd ("copy " ++ os_abspath (os_path env) source ++ " " ++ destination));;
    log DEBUG "copy finished" [];;
    ret (Next tt)
  else
    log DEBUG "read source file" [];;
    aux_source <- read_binary source;;
    if String.eqb aux_source "" then
      log ERROR "File couldn't be read" [];;
      ret (Return (-7))
    else
      log DEBUG "SHA1: %s" [ASha1 aux_source];;
      log DEBUG "writing binary: %s (size=%i bytes)"
          [AStr destination; AInt (Z.of_nat (String.length aux_source))];;
      write_file destination open_flags aux_source;;
      log DEBUG "copy finished" [];;
      ret (Next tt).

(** Lines 251-256. *)
Definition post_reset (target new_target : gmap string string) (no_reset : bool) : M unit :=
  if negb no_reset then
    (if has_key new_target "serial_port"
     then serial_port <- getitem new_target "serial_port";;
          reset_board serial_port;;
          ret tt
     else serial_port <- getitem target "serial_port";;
          reset_board serial_port;;
          ret tt);;
    sleep 400
  else ret tt.

(** Lines 258-279: "verify flashing went as planned". *)
Definition verify_flash (target new_target : gmap string string) (tail : string) : M Z :=
  log DEBUG "verifying flash" [];;
  mount <- (if has_key new_target "mount_point"
            then getitem new_target "mount_point"
            else getitem target "mount_point");;
  let join := os_join (os_path env) in
  failed <- isfile (join mount "FAIL.TXT");;
  if failed then
    fault <- read_text (join mount "FAIL.TXT");;
    target_id <- getitem target "target_id";;
    log ERROR "Flashing failed: %s. tid=%s" [AStr (PyStr.strip fault); AStr target_id];;
    ret (-4)
  else
    asserted <- isfile (join mount "ASSERT.TXT");;
    if asserted then
      fault <- read_text (join mount "ASSERT.TXT");;
      log ERROR "Flashing failed: %s. tid=%s" [AStr (PyStr.strip fault); ADict target];;
      ret (-4)
    else
      present <- isfile (join mount tail);;
      if present then
        log ERROR "Flashing failed: File still present in mount point. tid info: %s"
            [ADict target];;
        ret (-15)
      else
        log DEBUG "ready" [];;
        ret 0.

(** Lines 212-240: the reset before the write, the write, and the settle
    delay.  [Return code] is an early [return]. *)
Definition write_phase (source : string) (target : gmap string string) (no_reset : bool)
    (destination : string) : M (Flow unit) :=
  pre_reset target no_reset;;
  written <- write_image source destination;;
  match written with
  | Return code => ret (Return code)
  | Next _ => sleep 4000;; ret (Next tt)
  end.

(** Lines 247-256: the remount watch and the reset after it. *)
Definition watch_and_reset (target new_target : gmap string string) (no_reset : bool)
    (tail : string) : M unit :=
  mount_point <- getitem target "mount_point";;
  run_thread (mount_point, tail);;
  post_reset target new_target no_reset.

(** Lines 212-256: everything of the direct copy before the verification.
    [Return code] is an early [return]; [Next new_target] is reaching the
    verification with the resolver's descriptor. *)
Definition flash_prelude (source : string) (target : gmap string string) (no_reset : bool)
    (tail destination : string) : M (Flow (gmap string string)) :=
  written <- write_phase source target no_reset destination;;
  match written with
  | Return code => ret (Return code)
  | Next _ =>
      resolved <- check_points_unchanged target;;
      match resolved with
      | Code code => ret (Return code)
      | Descriptor new_target =>
          watch_and_reset target new_target no_reset tail;;
          ret (Next new_target)
      end
  end.

(** Lines 280-286: the [except] clauses of the direct copy. *)
Definition copy_handlers (e : Exn) : option (M Z) :=
  match e with
  | IOError _ => Some (log ERROR "%s" [AExn e];; raise e)
  | OSError _ =>
      Some (log ERROR "Write failed due to OSError" [];;
            log ERROR "%s" [AExn e];;
            ret (-14))
  | _ => None
  end.

(** Lines 211-286. *)
Definition flash_copy (source : string) (target : gmap string string) (no_reset : bool)
    (tail destination : string) : M Z :=
  try_except
    (reached <- flash_prelude source target no_reset tail destination;;
     match reached with
     | Return code => ret code
     | Next new_target => verify_flash target new_target tail
     end)
    copy_handlers.

(** Lines 188-190: [tail] and [destination]. *)
Definition tail_of (source : string) : string :=
  snd (os_split (os_path env) (os_abspath (os_path env) source)).

Definition destination_of (mount_point source : string) : string :=
  os_abspath (os_path env)
    (os_join (os_path env) (os_abspath (os_path env) mount_point) (tail_of source)).

(** [source] is a path: a value that is not a string does not get past
    [os.path.abspath] in line 189, so the test of line 192 holds. *)
Definition flash (source : string) (target : gmap string string) (method : string)
    (no_reset : bool) : M Z :=
  probe_ready <-
    (if String.eqb method "pyocd" then
       log DEBUG "pyOCD selected for flashing" [];;
       if pyocd_installed env then ret (Next tt)
       else emit (Print ("pyOCD missing, install" ++ String "010" ""));; ret (Return (-8))
     else ret (Next tt));;
  match probe_ready with
  | Return code => ret code
  | Next _ =>
      if String.eqb method "edbg" then
        log DEBUG "edbg is not supported for Mbed devices" [];;
        ret (-13)
      else
        mount_point <- getitem target "mount_point";;
        let tail := tail_of source in
        let destination := destination_of mount_point source in
        if String.eqb method "pyocd" then flash_pyocd source target
        else flash_copy source target no_reset tail destination
  end.



End Flasher.

(** ** Concrete boards and hosts, for the examples *)

Definition boot (t0 : Z) : World := {| now := t0; trace := [] |}.

Definition LF : string := String "010" "".

Definition plain (text : string) : File := {| contents := text; readable := true |}.

(** A host whose serial lines open, whose writes succeed and whose sleeps
    are exact, with the given files and command outputs. *)
Definition host (fs : gmap string File) (out : string -> string) : Sys :=
  {| files := fs;
     writable := fun _ => true;
     stdout_of := out;
     listdir := fun _ => None;
     serial_error := fun _ => None;
     break_sent := fun _ => true;
     mbed_com_port := fun _ => "COM3";
     probe := fun _ _ => ProbeDone;
     latency := 0 |}.

Definition linux (sys : Z -> Sys) : Env :=
  {| platform_system := "Linux";
     os_path := PosixPath.os_path "/home/user";
     pyocd_installed := false;
     sys_at := sys |}.

Definition board : gmap string string :=
  {[ "target_id" := "0240"; "serial_port" := "/dev/ttyACM0"; "mount_point" := "/media/MBED" ]}.

Definition serial_line (tty : string) : string :=
  "lrwxrwxrwx 1 root 13 Nov  4 10:00 usb-ARM_DAPLink_CMSIS-DAP_0240-if01 -> ../../" ++ tty.

Definition disk_line (dev : string) : string :=
  "lrwxrwxrwx 1 root  9 Nov  4 10:00 usb-MBED_VFS_0240-0:0 -> ../../" ++ dev.

(** The shell of a host with the given by-id entries and drive listing. *)
Definition shell (serial disk : list string) (drive_listing : string) (cmd : string) : string :=
  if String.eqb cmd "ls -oA /dev/serial/by-id/" then PyStr.join LF ("total 0" :: serial) ++ LF
  else if String.eqb cmd "ls -oA /dev/disk/by-id/" then PyStr.join LF ("total 0" :: disk) ++ LF
  else if String.eqb cmd "ls /media/MBED" then drive_listing
  else "".

Definition remounted : string := "DETAILS.TXT" ++ LF ++ "MBED.HTM" ++ LF.

Definition image : gmap string File := {[ "/home/user/fw/image.bin" := plain "FIRMWARE" ]}.

(** The board took the image and remounted with its status page. *)
Definition good_board : Env :=
  linux (fun _ => host image (shell [serial_line "ttyACM0"] [disk_line "sdb"] remounted)).



(** The board reports a failure in [FAIL.TXT]. *)
Definition failing_board (message : string) : Env :=
  linux (fun _ => host (<["/media/MBED/FAIL.TXT" := plain message]> image)
                       (shell [serial_line "ttyACM0"] [disk_line "sdb"] remounted)).

(** The board remounted, and the image is still on the drive. *)
Definition idle_board : Env :=
  linux (fun _ => host (<["/media/MBED/image.bin" := plain "FIRMWARE"]> image)
                       (shell [serial_line "ttyACM0"] [disk_line "sdb"] remounted)).

(** ** What the claims speak about *)

(** The method is neither the debug probe nor the unsupported one. *)
Definition direct_copy (method : string) : Prop :=
  method <> "pyocd" /\ method <> "edbg".

(** A direct-copy flash started in [w] gets to the verification in world
    [wv] with the resolver's descriptor [new_target]. *)
Definition reaches_verification (env : Env) (source : string) (target : gmap string string)
    (method : string) (no_reset : bool) (w : World) (new_target : gmap string string)
    (wv : World) : Prop :=
  direct_copy method /\
  exists mount_point,
    target !! "mount_point" = Some mount_point /\
    flash_prelude env source target no_reset (tail_of env source)
      (destination_of env mount_point source) w = (Ret (Next new_target), wv).

(** Lines 260-263: the mount point the verification looks at. *)
Definition resolved_mount (target new_target : gmap string string) : option string :=
  match new_target !! "mount_point" with
  | Some mount => Some mount
  | None => target !! "mount_point"
  end.

(** The file the OS finds at [path] in world [w]. *)
Definition file_at (env : Env) (w : World) (path : string) : option File :=
  files (sys_at env (now w)) !! path.

(** [join(mount, name)] *)
Definition in_mount (env : Env) (mount name : string) : string :=
  os_join (os_path env) mount name.

(** ** Events of a run *)

(** Every event that [m] adds to the trace satisfies [P]. *)
Definition emits_only {A} (P : Event -> Prop) (m : M A) : Prop :=
  forall w, exists evs, trace (snd (m w)) = (evs ++ trace w)%list /\ Forall P evs.

(** The log line that opens the verification (line 259). *)
Definition verifying_log : Event := Log DEBUG "verifying flash" [].

Definition is_verifying_log (ev : Event) : bool :=
  match ev with
  | Log DEBUG fmt [] => String.eqb fmt "verifying flash"
  | _ => false
  end.

(** Logging (but for the line that opens the verification), printing,
    waiting and querying the host. *)
Definition passive_event (ev : Event) : bool :=
  match ev with
  | Log _ _ _ => negb (is_verifying_log ev)
  | Print _ | Sleep _ | Command _ | ListDir _ | ComPortQuery _ | ThreadStart _ => true
  | _ => false
  end.

(** The world in which the verification looks at the drive: the log line
    is written, the clock has not moved. *)
Definition verifying (wv : World) : World :=
  {| now := now wv; trace := verifying_log :: trace wv |}.

(** What [reset_board] does to a serial line. *)
Definition serial_event (ev : Event) : bool :=
  match ev with
  | ResetBoard _ | SerialOpen _ | SendBreak _ | SerialClose _ => true
  | _ => false
  end.

(** A call of [reset_board]. *)
Definition is_reset (ev : Event) : bool :=
  match ev with ResetBoard _ => true | _ => false end.

(** Writing to the mount point: [os.write], or the [copy] command. *)
Definition is_write (ev : Event) : bool :=
  match ev with WriteFile _ _ _ | SystemCmd _ => true | _ => false end.

(** Looking for, or into, a file of the mount point. *)
Definition is_file_check (ev : Event) : bool :=
  match ev with IsFile _ | ReadText _ => true | _ => false end.

(** An event that is no call of [reset_board]. *)
Definition unreset (ev : Event) : Prop := is_reset ev = false.

(** The number of calls of [reset_board] in a trace. *)
Definition reset_calls (tr : list Event) : nat := length (filter (fun ev => is_reset ev = true) tr).

(** The writes to the mount point in a trace. *)
Definition writes (tr : list Event) : list Event := filter (fun ev => is_write ev = true) tr.

(** C2 as the specification words it: the value that [flash] returns
    carries the contents of [FAIL.TXT]; [carried] reads them off it. *)
Definition failure_carries_contents (carried : Result Z -> string) : Prop :=
  forall env source target method no_reset w new_target wv mount text,
    reaches_verification env source target method no_reset w new_target wv ->
    resolved_mount target new_target = Some mount ->
    file_at env wv (in_mount env mount "FAIL.TXT") = Some (plain text) ->
    carried (fst (flash env source target method no_reset w)) = text.

(** The image is not where the caller says. *)
Definition lost_image : Env :=
  linux (fun _ => host ∅ (shell [serial_line "ttyACM0"] [disk_line "sdb"] remounted)).

(** The image is an empty file. *)
Definition empty_image : Env :=
  linux (fun _ => host {[ "/home/user/fw/image.bin" := plain "" ]}
                       (shell [serial_line "ttyACM0"] [disk_line "sdb"] remounted)).

(** [m], started in [w], adds only events that satisfy [P]. *)
Definition emits_only_from {A} (P : Event -> Prop) (m : M A) (w : World) : Prop :=
  exists evs, trace (snd (m w)) = (evs ++ trace w)%list /\ Forall P evs.



(** ** The by-id listings *)

(** [line.split('/')[-1]]: the device a by-id entry points to, and the
    device of a path. *)
Definition device_of (line : string) : string :=
  PyStr.last_piece (PyStr.split line "/").

(** A serial-by-id entry of the board that points to another device than
    the descriptor's serial port (lines 116-117). *)
Definition moved_serial (target_id serial_port line : string) : bool :=
  PyStr.found line target_id
  && negb (String.eqb (device_of serial_port) (device_of line)).

(** The lines of the two listings in world [w]. *)
Definition serial_lines (env : Env) (w : World) : list string :=
  PyStr.splitlines (stdout_of (sys_at env (now w)) "ls -oA /dev/serial/by-id/").

Definition disk_lines (env : Env) (w : World) : list string :=
  PyStr.splitlines (stdout_of (sys_at env (now w)) "ls -oA /dev/disk/by-id/").

(** The platform family with by-id symlinks: neither Windows nor Darwin. *)
Definition by_id_platform (env : Env) : Prop :=
  on_windows env = false /\ on_darwin env = false.

(** The board has two serial-by-id entries: its current line and one more. *)
Definition twin_serial : Env :=
  linux (fun _ => host image
                    (shell [serial_line "ttyACM0"; serial_line "ttyACM1"] [disk_line "sdb"]
                       remounted)).

(** The board has two serial-by-id entries, none of them its current line. *)
Definition two_moved_serial : Env :=
  linux (fun _ => host image
                    (shell [serial_line "ttyACM1"; serial_line "ttyACM2"] [disk_line "sdb"]
                       remounted)).

(** No slash in a string. *)
Fixpoint slash_free (s : string) : bool :=
  match s with
  | EmptyString => true
  | String c s' => negb (Ascii.eqb c "/"%char) && slash_free s'
  end.

(** What the resolution collects in [new_target]: fields among
    [serial_port], [dev_point] and [mount_point], and a [serial_port] or
    [mount_point] only with a value that differs from the input's. *)
Definition only_changes (target changes : gmap string string) : Prop :=
  (forall key v, changes !! key = Some v ->
                 key = "serial_port" \/ key = "dev_point" \/ key = "mount_point") /\
  (forall key v, key = "serial_port" \/ key = "mount_point" ->
                 changes !! key = Some v -> target !! key <> Some v).

(** The mount table of a board mounted where the descriptor says. *)
Definition mounted (cmd : string) : string :=
  if String.eqb cmd "mount |grep vfat"
  then "/dev/sdb on /media/MBED type vfat (rw,nosuid,nodev)" ++ LF
  else shell [serial_line "ttyACM1"] [disk_line "sdb"] remounted cmd.

(** The board came back on another serial line, on the same mount point. *)
Definition moved_board : Env := linux (fun _ => host image mounted).

(** The board's block device is there, and no vfat mount ever shows up. *)
Definition never_remounted : Env :=
  linux (fun _ => host image (shell [serial_line "ttyACM0"] [disk_line "sdb"] "")).

(** ** The polls of the remount watch *)

(** The world after [k] polls of the drive, the first one started in [w]. *)
Fixpoint after_polls (env : Env) (drive : string * string) (k : nat) (w : World) : World :=
  match k with
  | O => w
  | S k' => snd (runner_poll env drive (after_polls env drive k' w))
  end.

(** What poll number [k + 1] finds: [Ret true] is one of the two success
    conditions, [Raise] the end of the thread. *)
Definition poll_result (env : Env) (drive : string * string) (k : nat) (w : World)
    : Result bool :=
  fst (runner_poll env drive (after_polls env drive k w)).

(** The world after the timeout is logged. *)
Definition timed_out_log (drive : string * string) (w : World) : World :=
  {| now := now w;
     trace := Log DEBUG "re-mount check timed out for %s" [AStr (fst drive)] :: trace w |}.

(** The loop, entered in world [w] with [fuel] polls allowed and started at
    [start_time], leaves at poll [n + 1]: on a success condition, on the
    timeout, or because the thread died. *)
Definition loop_leaves_at (env : Env) (drive : string * string) (fuel : nat) (start_time : Z)
    (w : World) (n : nat) : Prop :=
  (poll_result env drive n w = Ret true /\
   runner_loop env fuel drive start_time w
   = (Ret (Some Settled), after_polls env drive (S n) w)) \/
  (poll_result env drive n w = Ret false /\
   FLASHING_VERIFICATION_TIMEOUT * 1000 < now (after_polls env drive (S n) w) - start_time /\
   runner_loop env fuel drive start_time w
   = (Ret (Some TimedOut), timed_out_log drive (after_polls env drive (S n) w))) \/
  (exists e,
      poll_result env drive n w = Raise e /\
      runner_loop env fuel drive start_time w = (Raise e, after_polls env drive (S n) w)).

(** Poll [j + 1] met no success condition and was within the timeout. *)
Definition poll_goes_on (env : Env) (drive : string * string) (start_time : Z) (w : World)
    (j : nat) : Prop :=
  poll_result env drive j w = Ret false /\
  now (after_polls env drive (S j) w) - start_time <= FLASHING_VERIFICATION_TIMEOUT * 1000.

(** The world in which the watch thread starts. *)
Definition thread_started (drive : string * string) (w : World) : World :=
  {| now := now w; trace := ThreadStart drive :: trace w |}.

(** The drive listing never changes: the image stays, no status page. *)
Definition stuck_board : Env :=
  linux (fun _ => host image
                    (shell [serial_line "ttyACM0"] [disk_line "sdb"] ("image.bin" ++ LF))).

(** A descriptor without [serial_port]. *)
Definition headless_board : gmap string string :=
  {[ "target_id" := "0240"; "mount_point" := "/media/MBED" ]}.

(** A host on which no by-id entry names the board. *)
Definition bare_host : Env :=
  linux (fun _ => host image (shell [] [] remounted)).

(** ** Clock, results and exceptions of a step *)

(** [m] does not sleep: it leaves the clock where it was. *)
Definition timeless {A} (m : M A) : Prop :=
  forall w, now (snd (m w)) = now w.

(** Whatever [m] raises satisfies [E]. *)
Definition raises_only {A} (E : Exn -> Prop) (m : M A) : Prop :=
  forall w e w', m w = (Raise e, w') -> E e.

(** Whatever [m] returns satisfies [Q]. *)
Definition returns_only {A} (Q : A -> Prop) (m : M A) : Prop :=
  forall w a w', m w = (Ret a, w') -> Q a.

(** A missing descriptor field. *)
Definition is_key_error (e : Exn) : Prop :=
  exists key, e = KeyError key.

(** What a direct copy lets through: a missing descriptor field, or a
    file that cannot be read. *)
Definition key_or_io_error (e : Exn) : Prop :=
  (exists key, e = KeyError key) \/ (exists path, e = IOError path).

(** What can be raised inside the [try] block of the direct copy. *)
Definition key_io_or_os_error (e : Exn) : Prop :=
  key_or_io_error e \/ exists path, e = OSError path.

(** Every sleep oversleeps by 150 ms. *)
Definition slow_host : Env :=
  linux (fun _ =>
           {| files := image;
              writable := fun _ => true;
              stdout_of := shell [serial_line "ttyACM0"] [disk_line "sdb"] ("image.bin" ++ LF);
              listdir := fun _ => None;
              serial_error := fun _ => Some "could not open port /dev/ttyACM0";
              break_sent := fun _ => false;
              mbed_com_port := fun _ => "COM3";
              probe := fun _ _ => ProbeDone;
              latency := 150 |}).

(** ** More hosts for the examples *)

(** [ntpath], on paths that are absolute and normalised already. *)
Definition nt_path : OsPath :=
  {| os_abspath := fun p => p;
     os_join := fun a b => a ++ "\" ++ b;
     os_split := fun p =>
       let tail := PyStr.last_piece (PyStr.split p "\") in
       (String.substring 0 (String.length p - String.length tail - 1) p, tail) |}.

Definition windows (sys : Z -> Sys) : Env :=
  {| platform_system := "Windows";
     os_path := nt_path;
     pyocd_installed := true;
     sys_at := sys |}.

Definition darwin (sys : Z -> Sys) : Env :=
  {| platform_system := "Darwin";
     os_path := PosixPath.os_path "/Users/user";
     pyocd_installed := true;
     sys_at := sys |}.

Definition windows_board : gmap string string :=
  {[ "target_id" := "0240"; "serial_port" := "COM3"; "mount_point" := "E:" ]}.

(** A Windows host: the board is drive E:, on COM3, and has remounted. *)
Definition windows_host : Env :=
  windows (fun _ =>
             host {[ "C:\fw\image.bin" := plain "FIRMWARE" ]}
               (fun cmd => if String.eqb cmd "dir E:" then "DETAILS.TXT  MBED.HTM" else "")).

(** The same host with the board back on COM7. *)
Definition windows_moved : Env :=
  windows (fun _ =>
             {| files := {[ "C:\fw\image.bin" := plain "FIRMWARE" ]};
                writable := fun _ => true;
                stdout_of := fun cmd =>
                  if String.eqb cmd "dir E:" then "DETAILS.TXT  MBED.HTM" else "";
                listdir := fun _ => Some ["DETAILS.TXT"; "MBED.HTM"];
                serial_error := fun _ => None;
                break_sent := fun _ => true;
                mbed_com_port := fun _ => "COM7";
                probe := fun _ _ => ProbeDone;
                latency := 0 |}).

(** A Mac: the board is on /Volumes/MBED and has remounted. *)
Definition mac_host : Env :=
  darwin (fun _ =>
            host {[ "/Users/user/fw/image.bin" := plain "FIRMWARE" ]}
              (fun cmd => if String.eqb cmd "ls /Volumes/MBED" then remounted else "")).

Definition mac_board : gmap string string :=
  {[ "target_id" := "0240"; "serial_port" := "/dev/tty.usbmodem1"; "mount_point" := "/Volumes/MBED" ]}.

(** The codes that [flash] returns. *)
Definition flash_codes : list Z := [0; -4; -7; -8; -10; -11; -13; -14; -15].

(** The drive refuses the write. *)
Definition readonly_drive : Env :=
  linux (fun _ =>
           {| files := image;
              writable := fun _ => false;
              stdout_of := shell [serial_line "ttyACM0"] [disk_line "sdb"] remounted;
              listdir := fun _ => None;
              serial_error := fun _ => None;
              break_sent := fun _ => true;
              mbed_com_port := fun _ => "COM3";
              probe := fun _ _ => ProbeDone;
              latency := 0 |}).

(** The board reports an assertion in [ASSERT.TXT]. *)
Definition asserting_board : Env :=
  linux (fun _ => host (<["/media/MBED/ASSERT.TXT" := plain ("hard fault" ++ LF)]> image)
                       (shell [serial_line "ttyACM0"] [disk_line "sdb"] remounted)).

(** A Mac on which the board reports a failure. *)
Definition mac_failing : Env :=
  darwin (fun _ =>
            host {[ "/Users/user/fw/image.bin" := plain "FIRMWARE";
                    "/Volumes/MBED/FAIL.TXT" := plain "bad crc" ]}
              (fun cmd => if String.eqb cmd "ls /Volumes/MBED" then remounted else "")).

(** A descriptor without [target_id]. *)
Definition nameless_board : gmap string string :=
  {[ "serial_port" := "/dev/tty.usbmodem1"; "mount_point" := "/Volumes/MBED" ]}.

(** [FAIL.TXT] is there and cannot be read. *)
Definition locked_marker : Env :=
  linux (fun _ => host (<["/media/MBED/FAIL.TXT" := {| contents := "bad crc"; readable := false |}]>
                          image)
                       (shell [serial_line "ttyACM0"] [disk_line "sdb"] remounted)).


(** The serial port that the reset after the watch uses (lines 252-255). *)
Definition refreshed_port (old : string) (new_target : gmap string string) : string :=
  match new_target !! "serial_port" with
  | Some port => port
  | None => old
  end.

(** The probe fails with an [AttributeError]. *)
Definition broken_probe : Env :=
  darwin (fun _ =>
            {| files := ∅;
               writable := fun _ => true;
               stdout_of := fun _ => "";
               listdir := fun _ => None;
               serial_error := fun _ => None;
               break_sent := fun _ => true;
               mbed_com_port := fun _ => "";
               probe := fun _ _ => ProbeAttributeError;
               latency := 0 |}).

(** ** What the watch and the reset do *)

(** The command by which the watch lists the drive (lines 89-92). *)
Definition listing_command (env : Env) (drive : string * string) : string :=
  (if on_windows env then "dir " else "ls ") ++ fst drive.

(** The events of the watch: its sleeps, its listings, on Windows the
    second look at the drive, and the line logged at the timeout. *)
Definition watch_event (env : Env) (drive : string * string) (ev : Event) : Prop :=
  ev = Sleep 2000 \/
  ev = Command (listing_command env drive) \/
  (on_windows env = true /\ ev = ListDir (fst drive)) \/
  ev = Log DEBUG "re-mount check timed out for %s" [AStr (fst drive)].

(** The hint printed when the serial line is in use. *)
Definition close_hint : Event :=
  Print "Reset could not be given. Close your Serial connection to device.".

(** The drive shows a status page among its entries. *)
Definition status_page (out : list string) : Prop :=
  exists item, In item out /\ PyStr.found item ".HTM" = true.

(** ** The resolution on every input *)

(** The world after the two by-id listings. *)
Definition listed (w : World) : World :=
  {| now := now w;
     trace := Command "ls -oA /dev/disk/by-id/" :: Command "ls -oA /dev/serial/by-id/"
              :: trace w |}.

(** What the resolution does to the outside: the two by-id listings, the
    queries for the COM port, and log lines. *)
Definition resolution_event (ev : Event) : Prop :=
  match ev with
  | Command cmd => cmd = "ls -oA /dev/serial/by-id/" \/ cmd = "ls -oA /dev/disk/by-id/"
  | ComPortQuery _ => True
  | Log _ _ _ => True
  | _ => False
  end.

(** The descriptor of a board that the listings of the hosts above do not
    name. *)
Definition other_board : gmap string string :=
  {[ "target_id" := "0777"; "serial_port" := "/dev/ttyACM5"; "mount_point" := "/media/OTHER" ]}.

(** ** [get_supported_targets] (lines 39-43)

    [sorted(set(mbeds.manufacture_ids.values()))]: the table of the
    mbed-ls collaborator is the argument.  The elements of the set are
    distinct and [<=] on [str] is a total order, so the sorted list does not
    depend on the order in which the set is read. *)

(** [a <= b] on [str]. *)
Definition str_le (a b : string) : Prop := String.leb a b = true.

#[global] Instance str_le_dec : RelDecision str_le :=
  fun a b => decide (String.leb a b = true).

Definition get_supported_targets (manufacture_ids : gmap string string) : list string :=
  merge_sort str_le (remove_dups (snd <$> map_to_list manufacture_ids)).

(** A table in which two ids name the same platform. *)
Definition some_ids : gmap string string :=
  {[ "0240" := "K64F"; "0231" := "FRDM_K22F"; "0241" := "K64F"; "1010" := "LPC1768" ]}.

(** ** The exits of the remount watch (lines 88-104) *)

(** What the listing of the drive prints at instant [t] (lines 89-94). *)
Definition listing_at (env : Env) (drive : string * string) (t : Z) : string :=
  stdout_of (sys_at env t) (listing_command env drive).

(** The first success condition (lines 95-97): the listing shows a status
    page and not the image. *)
Definition page_without_image (env : Env) (drive : string * string) (t : Z) : bool :=
  PyStr.found (listing_at env drive t) ".HTM"
  && negb (PyStr.found (listing_at env drive t) (snd drive)).

(** The second success condition (lines 98-101 and 75-83), on Windows: the
    listing is empty, and among the entries of the drive there is a status
    page and not the image. *)
Definition empty_listing_settled (env : Env) (drive : string * string) (t : Z) : bool :=
  on_windows env && String.eqb (listing_at env drive t) ""
  && match listdir (sys_at env t) (fst drive) with
     | Some entries =>
         existsb (fun item => PyStr.found item ".HTM") entries
         && negb (bool_decide (snd drive ∈ entries))
     | None => false
     end.

Definition success_condition (env : Env) (drive : string * string) (t : Z) : bool :=
  page_without_image env drive t || empty_listing_settled env drive t.

(** The second look is taken and [os.listdir] raises (lines 98-100, 76). *)
Definition second_look_raises (env : Env) (drive : string * string) (t : Z) : bool :=
  negb (page_without_image env drive t)
  && on_windows env && String.eqb (listing_at env drive t) ""
  && match listdir (sys_at env t) (fst drive) with
     | Some _ => false
     | None => true
     end.




(** The sleeps among the events. *)
Definition is_sleep (ev : Event) : bool :=
  match ev with Sleep _ => true | _ => false end.

Definition sleeps (evs : list Event) : nat := length (List.filter is_sleep evs).

(** ** The string and path functions on examples *)

Example find_status_page : PyStr.find "DETAILS.TXT MBED.HTM" ".HTM" = 16.
Proof. reflexivity. Qed.

Example find_nothing : PyStr.find "image.bin" ".HTM" = -1.
Proof. reflexivity. Qed.

Example find_empty : PyStr.find "image.bin" "" = 0.
Proof. reflexivity. Qed.

Example split_on_word : PyStr.split "/dev/sdb on /media/MBED type vfat" "on"
                        = ["/dev/sdb "; " /media/MBED type vfat"].
Proof. reflexivity. Qed.

Example split_overlap : PyStr.split "aXXbXXXc" "XX" = ["a"; "b"; "Xc"].
Proof. reflexivity. Qed.

Example split_at_end : PyStr.split "a/b/" "/" = ["a"; "b"; ""].
Proof. reflexivity. Qed.

Example split_no_separator : PyStr.split "ttyACM0" "/" = ["ttyACM0"].
Proof. reflexivity. Qed.

Example device_of_entry : device_of (serial_line "ttyACM0") = "ttyACM0".
Proof. reflexivity. Qed.

Example mount_of_line :
  fst (mounted_on "/dev/sdb on /media/MBED type vfat (rw)" (boot 0)) = Ret "/media/MBED".
Proof. reflexivity. Qed.

Example mount_of_bad_line : fst (mounted_on "/dev/sdb" (boot 0)) = Raise IndexError.
Proof. reflexivity. Qed.

Example splitlines_mixed :
  PyStr.splitlines ("a" ++ String "013" (String "010" "b") ++ String "013" "c" ++ LF ++ LF)
  = ["a"; "b"; "c"; ""].
Proof. reflexivity. Qed.

Example splitlines_empty : PyStr.splitlines "" = [].
Proof. reflexivity. Qed.

Example strip_both : PyStr.strip ("  bad crc " ++ LF) = "bad crc".
Proof. reflexivity. Qed.

Example posix_split_image : PosixPath.split "/home/user/fw/image.bin" = ("/home/user/fw", "image.bin").
Proof. reflexivity. Qed.

Example posix_split_root : PosixPath.split "/" = ("/", "").
Proof. reflexivity. Qed.

Example posix_split_name : PosixPath.split "image.bin" = ("", "image.bin").
Proof. reflexivity. Qed.

Example posix_split_slash : PosixPath.split "fw/build/" = ("fw/build", "").
Proof. reflexivity. Qed.

Example posix_abspath_relative :
  PosixPath.abspath "/home/user" "../fw/./image.bin" = "/home/fw/image.bin".
Proof. reflexivity. Qed.

Example posix_abspath_above_root : PosixPath.abspath "/home/user" "/a/../../b/" = "/b".
Proof. reflexivity. Qed.

Example posix_normpath_dot : PosixPath.normpath "a/.." = ".".
Proof. reflexivity. Qed.

Example posix_normpath_up : PosixPath.normpath "../a" = "../a".
Proof. reflexivity. Qed.

Example posix_join_marker : PosixPath.join "/media/MBED" "FAIL.TXT" = "/media/MBED/FAIL.TXT".
Proof. reflexivity. Qed.

Example posix_join_absolute : PosixPath.join "/media/MBED" "/tmp/x" = "/tmp/x".
Proof. reflexivity. Qed.

Example posix_join_slash : PosixPath.join "/media/MBED/" "image.bin" = "/media/MBED/image.bin".
Proof. reflexivity. Qed.

(** ** The flasher on examples *)

Example good_flash :
  flash good_board "/home/user/fw/image.bin" board "" false (boot 0)
  = (Ret 0,
     {| now := 6500;
        trace :=
          [ Log DEBUG "ready" [];
            IsFile "/media/MBED/image.bin"; IsFile "/media/MBED/ASSERT.TXT";
            IsFile "/media/MBED/FAIL.TXT";
            Log DEBUG "verifying flash" [];
            Sleep 400;
            SerialClose "/dev/ttyACM0"; Log INFO "reset completed" [];
            SendBreak "/dev/ttyACM0"; Log INFO "sendBreak to device to reboot" [];
            SerialOpen "/dev/ttyACM0"; ResetBoard "/dev/ttyACM0";
            Command "ls /media/MBED"; Sleep 2000;
            ThreadStart ("/media/MBED", "image.bin");
            Log DEBUG "mount point %s has not changed" [AStr "/media/MBED"];
            Log DEBUG "serial port %s has not changed" [AStr "/dev/ttyACM0"];
            Command "ls -oA /dev/disk/by-id/"; Command "ls -oA /dev/serial/by-id/";
            Sleep 4000;
            Log DEBUG "copy finished" [];
            WriteFile "/media/MBED/image.bin" ["O_CREAT"; "O_DIRECT"; "O_TRUNC"; "O_RDWR"]
              "FIRMWARE";
            Log DEBUG "writing binary: %s (size=%i bytes)"
              [AStr "/media/MBED/image.bin"; AInt 8];
            Log DEBUG "SHA1: %s" [ASha1 "FIRMWARE"];
            ReadBinary "/home/user/fw/image.bin";
            Log DEBUG "read source file" [];
            Sleep 100;
            SerialClose "/dev/ttyACM0"; Log INFO "reset completed" [];
            SendBreak "/dev/ttyACM0"; Log INFO "sendBreak to device to reboot" [];
            SerialOpen "/dev/ttyACM0"; ResetBoard "/dev/ttyACM0" ] |}).
Proof. vm_compute. reflexivity. Qed.

Example unsupported_method :
  fst (flash good_board "/home/user/fw/image.bin" board "edbg" false (boot 0)) = Ret (-13).
Proof. reflexivity. Qed.

Example probe_not_installed :
  fst (flash good_board "/home/user/fw/image.bin" board "pyocd" false (boot 0)) = Ret (-8).
Proof. reflexivity. Qed.

Example two_moved_serial_lines :
  fst (check_points_unchanged two_moved_serial board (boot 0)) = Ret (Code (-10)).
Proof. vm_compute. reflexivity. Qed.

Example stuck_board_times_out :
  runner stuck_board ("/media/MBED", "image.bin") (boot 0)
  = (Ret (Some TimedOut),
     timed_out_log ("/media/MBED", "image.bin")
       (after_polls stuck_board ("/media/MBED", "image.bin") 51 (boot 0))) /\
  now (after_polls stuck_board ("/media/MBED", "image.bin") 51 (boot 0)) = 102000.
Proof. split; vm_compute; reflexivity. Qed.

(** ** The monad: unfolding lemmas *)

Lemma bind_ret {A B} (m : M A) (k : A -> M B) (w w' : World) (a : A) :
  m w = (Ret a, w') -> bind m k w = k a w'.
Proof. intros H. unfold bind. now rewrite H. Qed.

Lemma bind_raise {A B} (m : M A) (k : A -> M B) (w w' : World) (e : Exn) :
  m w = (Raise e, w') -> bind m k w = (Raise e, w').
Proof. intros H. unfold bind. now rewrite H. Qed.

(** Run the first action of a sequence, given how it ends. *)
Ltac step tac := erewrite bind_ret by tac; cbv beta iota.
Ltac stop tac := erewrite bind_raise by tac; cbv beta iota.

Lemma getitem_some (d : gmap string string) (key v : string) (w : World) :
  d !! key = Some v -> getitem d key w = (Ret v, w).
Proof. intros H. unfold getitem. now rewrite H. Qed.

Lemma getitem_none (d : gmap string string) (key : string) (w : World) :
  d !! key = None -> getitem d key w = (Raise (KeyError key), w).
Proof. intros H. unfold getitem. now rewrite H. Qed.

Lemma has_key_true (d : gmap string string) (key : string) :
  has_key d key = true <-> is_Some (d !! key).
Proof. unfold has_key. rewrite bool_decide_eq_true. tauto. Qed.

Lemma has_key_false (d : gmap string string) (key : string) :
  has_key d key = false <-> d !! key = None.
Proof.
  unfold has_key. rewrite bool_decide_eq_false, <- eq_None_not_Some. tauto.
Qed.

Lemma eqb_neq (a b : string) : a <> b -> String.eqb a b = false.
Proof. intros H. now apply String.eqb_neq. Qed.

(** ** The direct copy, step by step *)

Lemma flash_direct_copy env source target method no_reset mount_point w :
  direct_copy method ->
  target !! "mount_point" = Some mount_point ->
  flash env source target method no_reset w
  = flash_copy env source target no_reset (tail_of env source)
      (destination_of env mount_point source) w.
Proof.
  intros [Hp He] Hm. unfold flash.
  rewrite (eqb_neq _ _ Hp), (eqb_neq _ _ He).
  change (bind (ret (Next tt)) ?k w) with (k (Next tt) w). cbv beta iota.
  now rewrite (bind_ret _ _ _ _ _ (getitem_some _ _ _ w Hm)).
Qed.

Lemma flash_copy_reached env source target no_reset tail destination w new_target wv :
  flash_prelude env source target no_reset tail destination w = (Ret (Next new_target), wv) ->
  flash_copy env source target no_reset tail destination w
  = try_except (verify_flash env target new_target tail) copy_handlers wv.
Proof.
  intros H. unfold flash_copy, try_except.
  now rewrite (bind_ret _ _ _ _ _ H).
Qed.

Lemma flash_reached env source target method no_reset w new_target wv :
  reaches_verification env source target method no_reset w new_target wv ->
  flash env source target method no_reset w
  = try_except (verify_flash env target new_target (tail_of env source)) copy_handlers wv.
Proof.
  intros (Hd & mp & Hm & Hp).
  rewrite (flash_direct_copy _ _ _ _ _ _ _ Hd Hm).
  now apply flash_copy_reached.
Qed.

Lemma resolved_mount_lookup (target new_target : gmap string string) (mount : string) (w : World) :
  resolved_mount target new_target = Some mount ->
  (if has_key new_target "mount_point"
   then getitem new_target "mount_point"
   else getitem target "mount_point") w = (Ret mount, w).
Proof.
  unfold resolved_mount. intros H.
  destruct (new_target !! "mount_point") as [m|] eqn:E.
  - assert (has_key new_target "mount_point" = true) as ->
      by (apply has_key_true; eauto).
    inversion H; subst. now apply getitem_some.
  - assert (has_key new_target "mount_point" = false) as ->
      by now apply has_key_false.
    now apply getitem_some.
Qed.

(** ** The verification (lines 258-279) *)

Lemma isfile_absent env path w wv :
  now w = now wv ->
  file_at env wv path = None ->
  isfile env path w = (Ret false, {| now := now w; trace := IsFile path :: trace w |}).
Proof.
  unfold file_at. intros Hn H. unfold isfile, bind, emit, observe. cbn.
  rewrite Hn, H. rewrite bool_decide_eq_false_2; [reflexivity | now intros [? ?]].
Qed.

Lemma isfile_present env path w wv :
  now w = now wv ->
  is_Some (file_at env wv path) ->
  isfile env path w = (Ret true, {| now := now w; trace := IsFile path :: trace w |}).
Proof.
  unfold file_at. intros Hn H. unfold isfile, bind, emit, observe. cbn.
  rewrite Hn. now rewrite bool_decide_eq_true_2.
Qed.

Lemma read_text_run env path w wv text :
  now w = now wv ->
  file_at env wv path = Some (plain text) ->
  read_text env path w = (Ret text, {| now := now w; trace := ReadText path :: trace w |}).
Proof.
  unfold file_at. intros Hn H. unfold read_text, read_file, bind, emit, observe. cbn.
  now rewrite Hn, H.
Qed.

Lemma verify_flash_start env target new_target tail mount wv :
  resolved_mount target new_target = Some mount ->
  verify_flash env target new_target tail wv
  = (failed <- isfile env (in_mount env mount "FAIL.TXT");;
     if failed then
       fault <- read_text env (in_mount env mount "FAIL.TXT");;
       target_id <- getitem target "target_id";;
       log ERROR "Flashing failed: %s. tid=%s" [AStr (PyStr.strip fault); AStr target_id];;
       ret (-4)
     else
       asserted <- isfile env (in_mount env mount "ASSERT.TXT");;
       if asserted then
         fault <- read_text env (in_mount env mount "ASSERT.TXT");;
         log ERROR "Flashing failed: %s. tid=%s" [AStr (PyStr.strip fault); ADict target];;
         ret (-4)
       else
         present <- isfile env (in_mount env mount tail);;
         if present then
           log ERROR "Flashing failed: File still present in mount point. tid info: %s"
               [ADict target];;
           ret (-15)
         else
           log DEBUG "ready" [];;
           ret 0) (verifying wv).
Proof.
  intros Hm. unfold verify_flash.
  unfold bind at 1. unfold log at 1. unfold emit at 1.
  unfold bind at 1.
  rewrite (resolved_mount_lookup _ _ _ _ Hm). reflexivity.
Qed.

(** C1.  A direct-copy flash that reaches the verification and finds, in
    the resolved mount point, no [FAIL.TXT], no [ASSERT.TXT] and no file
    with the basename of the source image returns 0 (success). *)
Theorem flash_success env source target method no_reset w new_target wv mount :
  reaches_verification env source target method no_reset w new_target wv ->
  resolved_mount target new_target = Some mount ->
  file_at env wv (in_mount env mount "FAIL.TXT") = None ->
  file_at env wv (in_mount env mount "ASSERT.TXT") = None ->
  file_at env wv (in_mount env mount (tail_of env source)) = None ->
  fst (flash env source target method no_reset w) = Ret 0.
Proof.
  intros Hr Hm Hf Ha Ht.
  rewrite (flash_reached _ _ _ _ _ _ _ _ Hr). unfold try_except.
  rewrite (verify_flash_start _ _ _ _ _ _ Hm).
  step ltac:(now apply isfile_absent with (wv := wv)).
  step ltac:(now apply isfile_absent with (wv := wv)).
  step ltac:(now apply isfile_absent with (wv := wv)).
  reflexivity.
Qed.

Lemma flash_success_witness :
  fst (flash good_board "/home/user/fw/image.bin" board "" false (boot 0)) = Ret 0.
Proof.
  eapply (flash_success good_board "/home/user/fw/image.bin" board "" false (boot 0)
            _ _ "/media/MBED").
  - split; [split; discriminate |].
    exists "/media/MBED". split; [reflexivity | vm_compute; reflexivity].
  - reflexivity.
  - reflexivity.
  - reflexivity.
  - reflexivity.
Defined.

(** C3.  A direct-copy flash that reaches the verification and finds
    neither [FAIL.TXT] nor [ASSERT.TXT] in the resolved mount point, but
    still finds there a file with the basename of the source image, returns
    -15, not 0. *)
Theorem flash_file_still_present env source target method no_reset w new_target wv mount :
  reaches_verification env source target method no_reset w new_target wv ->
  resolved_mount target new_target = Some mount ->
  file_at env wv (in_mount env mount "FAIL.TXT") = None ->
  file_at env wv (in_mount env mount "ASSERT.TXT") = None ->
  is_Some (file_at env wv (in_mount env mount (tail_of env source))) ->
  fst (flash env source target method no_reset w) = Ret (-15) /\
  fst (flash env source target method no_reset w) <> Ret 0.
Proof.
  intros Hr Hm Hf Ha Ht.
  assert (fst (flash env source target method no_reset w) = Ret (-15)) as ->.
  { rewrite (flash_reached _ _ _ _ _ _ _ _ Hr). unfold try_except.
    rewrite (verify_flash_start _ _ _ _ _ _ Hm).
    step ltac:(now apply isfile_absent with (wv := wv)).
    step ltac:(now apply isfile_absent with (wv := wv)).
    step ltac:(now apply isfile_present with (wv := wv)).
    reflexivity. }
  split; [reflexivity | discriminate].
Qed.

Lemma flash_file_still_present_witness :
  fst (flash idle_board "/home/user/fw/image.bin" board "" false (boot 0)) = Ret (-15).
Proof.
  eapply (flash_file_still_present idle_board "/home/user/fw/image.bin" board "" false (boot 0)
            _ _ "/media/MBED").
  - split; [split; discriminate |].
    exists "/media/MBED". split; [reflexivity | vm_compute; reflexivity].
  - reflexivity.
  - reflexivity.
  - reflexivity.
  - vm_compute. eexists. reflexivity.
Defined.

(** ** Which events a step can add to the trace *)

Section Emits.

Variable env : Env.
Variable P : Event -> Prop.

Lemma emits_ret {A} (a : A) : emits_only P (ret a).
Proof. intros w. exists []. split; [reflexivity | constructor]. Qed.

Lemma emits_raise {A} (e : Exn) : emits_only P (@raise A e).
Proof. intros w. exists []. split; [reflexivity | constructor]. Qed.

Lemma emits_observe {A} (f : Sys -> A) : emits_only P (observe env f).
Proof. intros w. exists []. split; [reflexivity | constructor]. Qed.

Lemma emits_time : emits_only P time.
Proof. intros w. exists []. split; [reflexivity | constructor]. Qed.

Lemma emits_getitem d key : emits_only P (getitem d key).
Proof.
  intros w. exists []. split; [| constructor].
  unfold getitem. now destruct (d !! key).
Qed.

Lemma emits_getindex l i : emits_only P (getindex l i).
Proof.
  intros w. exists []. split; [| constructor].
  unfold getindex. now destruct (l !! i).
Qed.

Lemma emits_emit ev : P ev -> emits_only P (emit ev).
Proof. intros H w. exists [ev]. split; [reflexivity | now repeat constructor]. Qed.

Lemma emits_log lvl fmt args : P (Log lvl fmt args) -> emits_only P (log lvl fmt args).
Proof. apply emits_emit. Qed.

Lemma emits_sleep ms : P (Sleep ms) -> emits_only P (sleep env ms).
Proof. intros H w. exists [Sleep ms]. split; [reflexivity | now repeat constructor]. Qed.

Lemma emits_bind {A B} (m : M A) (k : A -> M B) :
  emits_only P m -> (forall a, emits_only P (k a)) -> emits_only P (bind m k).
Proof.
  intros Hm Hk w. unfold bind.
  destruct (Hm w) as (evs & Ht & Hf).
  destruct (m w) as [[a|e] w1]; cbn in Ht.
  - destruct (Hk a w1) as (evs' & Ht' & Hf').
    exists (evs' ++ evs)%list. split.
    + rewrite Ht', Ht. now rewrite app_assoc.
    + now apply Forall_app.
  - exists evs. now split.
Qed.

Lemma emits_try_except {A} (body : M A) handler :
  emits_only P body ->
  (forall e h, handler e = Some h -> emits_only P h) ->
  emits_only P (try_except body handler).
Proof.
  intros Hm Hh w. unfold try_except.
  destruct (Hm w) as (evs & Ht & Hf).
  destruct (body w) as [[a|e] w1]; cbn in Ht.
  - exists evs. now split.
  - destruct (handler e) as [h|] eqn:E.
    + destruct (Hh e h E w1) as (evs' & Ht' & Hf').
      exists (evs' ++ evs)%list. split.
      * rewrite Ht', Ht. now rewrite app_assoc.
      * now apply Forall_app.
    + exists evs. now split.
Qed.

End Emits.

(** Take a program apart along its sequencing and its branches. *)
Ltac emits :=
  repeat match goal with
    | |- emits_only _ (ret _) => apply emits_ret
    | |- emits_only _ (raise _) => apply emits_raise
    | |- emits_only _ (observe _ _) => apply emits_observe
    | |- emits_only _ time => apply emits_time
    | |- emits_only _ (getitem _ _) => apply emits_getitem
    | |- emits_only _ (getindex _ _) => apply emits_getindex
    | |- emits_only _ (emit _) => apply emits_emit
    | |- emits_only _ (log _ _ _) => apply emits_log
    | |- emits_only _ (sleep _ _) => apply emits_sleep
    | |- emits_only _ (bind _ _) => apply emits_bind; [| intros ?]
    | |- emits_only _ (command _ _) => unfold command
    | |- emits_only _ (if ?b then _ else _) => destruct b
    | |- emits_only _ (match ?x with _ => _ end) => destruct x
    end.

(** The steps that only log, wait and query the host. *)
Section Passive.

Variable env : Env.
Variable P : Event -> Prop.
Hypothesis passive : forall ev, passive_event ev = true -> P ev.

Ltac quiet := emits; try (apply passive; reflexivity).

Lemma command_emits cmd : emits_only P (command env cmd).
Proof. unfold command. quiet. Qed.

Lemma auxiliary_drive_check_emits drive : emits_only P (auxiliary_drive_check env drive).
Proof. unfold auxiliary_drive_check. quiet. Qed.

Lemma runner_poll_emits drive : emits_only P (runner_poll env drive).
Proof.
  unfold runner_poll. quiet. all: apply auxiliary_drive_check_emits.
Qed.

Lemma runner_loop_emits fuel drive start_time :
  emits_only P (runner_loop env fuel drive start_time).
Proof.
  induction fuel as [|fuel IH]; cbn [runner_loop]; quiet.
  all: first [apply runner_poll_emits | apply IH].
Qed.

Lemma runner_emits drive : emits_only P (runner env drive).
Proof. unfold runner. quiet. all: apply runner_loop_emits. Qed.

Lemma run_thread_emits drive : emits_only P (run_thread env drive).
Proof.
  unfold run_thread. quiet.
  all: intros w; destruct (runner_emits drive w) as (evs & Ht & Hf).
  all: exists evs; now split.
Qed.

Lemma scan_serial_by_id_emits target lines new_target :
  emits_only P (scan_serial_by_id target lines new_target).
Proof.
  revert new_target. induction lines as [|line rest IH]; intros new_target;
    cbn [scan_serial_by_id]; quiet; try apply IH.
Qed.

Lemma scan_disk_by_id_emits target lines new_target :
  emits_only P (scan_disk_by_id target lines new_target).
Proof.
  revert new_target. induction lines as [|line rest IH]; intros new_target;
    cbn [scan_disk_by_id]; quiet; try apply IH.
Qed.

Lemma scan_mounts_emits target new_target mounts :
  emits_only P (scan_mounts env target new_target mounts).
Proof.
  induction mounts as [|mount rest IH]; cbn [scan_mounts]; unfold mounted_on; quiet.
  all: try apply IH.
Qed.

Lemma poll_mounts_emits attempts target new_target :
  emits_only P (poll_mounts env attempts target new_target).
Proof.
  induction attempts as [|n IH]; cbn [poll_mounts]; quiet.
  all: first [apply scan_mounts_emits | apply IH].
Qed.

Lemma check_points_unchanged_emits target :
  emits_only P (check_points_unchanged env target).
Proof.
  unfold check_points_unchanged, com_port_resolution, by_id_resolution, report_points.
  quiet.
  all: first [ apply scan_serial_by_id_emits | apply scan_disk_by_id_emits
             | apply poll_mounts_emits ].
Qed.

End Passive.

(** ** No look at the drive before the verification *)

Lemma not_file_check_passive (ev : Event) :
  passive_event ev = true -> is_file_check ev = false.
Proof. now destruct ev. Qed.

Lemma reset_board_no_file_check env serial_port :
  emits_only (fun ev => is_file_check ev = false) (reset_board env serial_port).
Proof. unfold reset_board. emits; reflexivity. Qed.

Lemma flash_prelude_no_file_check env source target no_reset tail destination :
  emits_only (fun ev => is_file_check ev = false)
    (flash_prelude env source target no_reset tail destination).
Proof.
  unfold flash_prelude, write_phase, watch_and_reset, pre_reset, post_reset, write_image,
    read_binary, read_file, write_file.
  emits; try reflexivity.
  all: try first [ apply reset_board_no_file_check
             | apply check_points_unchanged_emits, not_file_check_passive
             | apply run_thread_emits, not_file_check_passive ].
Qed.

(** C2, corrected.  A direct-copy flash that reaches the verification and
    finds a readable [FAIL.TXT] in the resolved mount point returns -4 for a
    descriptor with a [target_id]; the contents of the file, stripped of
    surrounding whitespace, go to the error log and not into the returned
    value; the only file looked for or read in the whole flash is
    [FAIL.TXT], so [ASSERT.TXT] is not consulted. *)
Theorem flash_device_failure env source target method no_reset w new_target wv mount
    text target_id :
  reaches_verification env source target method no_reset w new_target wv ->
  resolved_mount target new_target = Some mount ->
  file_at env wv (in_mount env mount "FAIL.TXT") = Some (plain text) ->
  target !! "target_id" = Some target_id ->
  exists before,
    trace wv = (before ++ trace w)%list /\
    Forall (fun ev => is_file_check ev = false) before /\
    flash env source target method no_reset w
    = (Ret (-4),
       {| now := now wv;
          trace := Log ERROR "Flashing failed: %s. tid=%s"
                     [AStr (PyStr.strip text); AStr target_id]
                   :: ReadText (in_mount env mount "FAIL.TXT")
                   :: IsFile (in_mount env mount "FAIL.TXT")
                   :: Log DEBUG "verifying flash" []
                   :: trace wv |}).
Proof.
  intros Hr Hm Hf Hid.
  pose proof Hr as (_ & mp & _ & Hp).
  destruct (flash_prelude_no_file_check env source target no_reset (tail_of env source)
              (destination_of env mp source) w) as (before & Ht & Hb).
  rewrite Hp in Ht. cbn [snd] in Ht.
  exists before. split; [exact Ht | split; [exact Hb |]].
  rewrite (flash_reached _ _ _ _ _ _ _ _ Hr). unfold try_except.
  rewrite (verify_flash_start _ _ _ _ _ _ Hm).
  step ltac:(apply isfile_present with (wv := wv); [reflexivity | rewrite Hf; eauto]).
  step ltac:(apply read_text_run with (wv := wv); [reflexivity | exact Hf]).
  step ltac:(apply getitem_some; exact Hid).
  reflexivity.
Qed.

Lemma flash_device_failure_witness :
  fst (flash (failing_board ("bad crc" ++ LF)) "/home/user/fw/image.bin" board "" false (boot 0))
  = Ret (-4) /\
  In (Log ERROR "Flashing failed: %s. tid=%s" [AStr "bad crc"; AStr "0240"])
     (trace (snd (flash (failing_board ("bad crc" ++ LF)) "/home/user/fw/image.bin" board ""
                    false (boot 0)))).
Proof.
  pose (pre := flash_prelude (failing_board ("bad crc" ++ LF)) "/home/user/fw/image.bin" board
                 false "image.bin" "/media/MBED/image.bin" (boot 0)).
  destruct (flash_device_failure (failing_board ("bad crc" ++ LF)) "/home/user/fw/image.bin"
              board "" false (boot 0)
              (match fst pre with Ret (Next d) => d | _ => board end) (snd pre)
              "/media/MBED" ("bad crc" ++ LF) "0240")
    as (before & _ & _ & Hrun).
  - split; [split; discriminate |].
    exists "/media/MBED". split; [reflexivity | vm_compute; reflexivity].
  - reflexivity.
  - reflexivity.
  - reflexivity.
  - rewrite Hrun. split; [reflexivity | left; reflexivity].
Defined.

(** C2 as worded fails: two boards that report different failures make
    [flash] return the same value, so the returned value carries neither. *)
Lemma fail_contents_not_returned :
  ~ exists carried, failure_carries_contents carried.
Proof.
  intros (carried & H).
  assert (forall text,
             carried (fst (flash (failing_board text) "/home/user/fw/image.bin" board ""
                             false (boot 0))) = text) as Hc.
  { intros text.
    eapply (H (failing_board text) "/home/user/fw/image.bin" board "" false (boot 0)
              _ _ "/media/MBED" text).
    - split; [split; discriminate |].
      exists "/media/MBED". split; [reflexivity | vm_compute; reflexivity].
    - reflexivity.
    - reflexivity. }
  pose proof (Hc "bad crc") as H1. pose proof (Hc "erase failed") as H2.
  vm_compute in H1, H2. congruence.
Qed.

(** ** The resets *)

Lemma not_reset_passive (ev : Event) : passive_event ev = true -> is_reset ev = false.
Proof. now destruct ev. Qed.

Lemma pre_reset_disabled env target : pre_reset env target true = ret tt.
Proof. unfold pre_reset. now rewrite andb_false_r. Qed.

Lemma post_reset_disabled env target new_target : post_reset env target new_target true = ret tt.
Proof. reflexivity. Qed.

Lemma pre_reset_without_port env target no_reset :
  target !! "serial_port" = None -> pre_reset env target no_reset = ret tt.
Proof.
  intros H. unfold pre_reset.
  now rewrite (proj2 (has_key_false _ _) H).
Qed.

Lemma copy_handlers_emit (P : Event -> Prop) e h :
  (forall fmt args, P (Log ERROR fmt args)) ->
  copy_handlers e = Some h -> emits_only P h.
Proof.
  intros HP H. destruct e; cbn in H; inversion H; subst; emits; apply HP.
Qed.

Lemma reset_calls_unchanged (tr evs : list Event) :
  Forall (fun ev => is_reset ev = false) evs ->
  reset_calls (evs ++ tr)%list = reset_calls tr.
Proof.
  intros H. unfold reset_calls. rewrite filter_app, length_app.
  induction H as [|ev evs Hev _ IH]; [reflexivity |].
  rewrite filter_cons_False; [exact IH | congruence].
Qed.

Lemma flash_without_reset env source target method :
  emits_only (fun ev => is_reset ev = false) (flash env source target method true).
Proof.
  unfold flash, flash_pyocd, flash_copy, flash_prelude, write_phase, watch_and_reset,
    verify_flash, write_image, read_binary, read_text, read_file, write_file, isfile.
  emits; try reflexivity.
  all: repeat match goal with
         | |- emits_only _ (try_except _ _) => apply emits_try_except; [| intros ? ? ?]
         | |- emits_only _ (pre_reset _ _ true) => rewrite pre_reset_disabled
         | |- emits_only _ (post_reset _ _ _ true) => rewrite post_reset_disabled
         | |- emits_only _ (check_points_unchanged _ _) =>
             apply check_points_unchanged_emits, not_reset_passive
         | |- emits_only _ (run_thread _ _) => apply run_thread_emits, not_reset_passive
         | H : copy_handlers _ = Some _ |- _ =>
             apply (copy_handlers_emit _ _ _ (fun _ _ => eq_refl) H)
         | H : (match ?e with AttributeError => _ | _ => _ end) = Some _ |- _ =>
             destruct e; inversion H; subst; clear H
         | _ => progress (emits; try reflexivity)
         end.
Qed.

(** C4.  With [no_reset] set, a flash (direct-copy in particular) never
    calls [reset_board]: the trace holds as many calls after the flash as
    before it, so none before the write and none after the remount wait. *)
Theorem no_reset_never_resets env source target method w :
  reset_calls (trace (snd (flash env source target method true w))) = reset_calls (trace w).
Proof.
  destruct (flash_without_reset env source target method w) as (evs & -> & H).
  now apply reset_calls_unchanged.
Qed.

Example resets_of_a_flash :
  reset_calls (trace (snd (flash good_board "/home/user/fw/image.bin" board "" false (boot 0)))) = 2%nat.
Proof. reflexivity. Qed.

(** ** Reading the image and writing it (lines 215-239) *)

Lemma emits_from_all {A} (P : Event -> Prop) (m : M A) :
  emits_only P m <-> forall w, emits_only_from P m w.
Proof. reflexivity. Qed.

Lemma emits_from_any {A} (P : Event -> Prop) (m : M A) (w : World) :
  emits_only P m -> emits_only_from P m w.
Proof. intros H. apply H. Qed.

Lemma emits_from_bind {A B} (P : Event -> Prop) (m : M A) (k : A -> M B) w :
  emits_only_from P m w ->
  (forall a w', m w = (Ret a, w') -> emits_only_from P (k a) w') ->
  emits_only_from P (bind m k) w.
Proof.
  intros (evs & Ht & Hf) Hk. unfold emits_only_from, bind.
  destruct (m w) as [[a|e] w1] eqn:E; cbn in Ht.
  - destruct (Hk a w1 eq_refl) as (evs' & Ht' & Hf').
    exists (evs' ++ evs)%list. split.
    + rewrite Ht', Ht. now rewrite app_assoc.
    + now apply Forall_app.
  - exists evs. now split.
Qed.

Lemma emits_from_try_except {A} (P : Event -> Prop) (body : M A) handler w :
  emits_only_from P body w ->
  (forall e h, handler e = Some h -> emits_only P h) ->
  emits_only_from P (try_except body handler) w.
Proof.
  intros (evs & Ht & Hf) Hh. unfold emits_only_from, try_except.
  destruct (body w) as [[a|e] w1]; cbn in Ht.
  - exists evs. now split.
  - destruct (handler e) as [h|] eqn:E.
    + destruct (Hh e h E w1) as (evs' & Ht' & Hf').
      exists (evs' ++ evs)%list. split.
      * rewrite Ht', Ht. now rewrite app_assoc.
      * now apply Forall_app.
    + exists evs. now split.
Qed.


Lemma reset_board_returns env serial_port w :
  exists v, fst (reset_board env serial_port w) = Ret v.
Proof.
  unfold reset_board, bind, emit, observe, log. cbn.
  destruct (serial_error _ serial_port) as [message|]; cbn.
  - destruct (PyStr.found message "could not open port"); cbn; eauto.
  - destruct (break_sent _ serial_port); cbn; eauto.
Qed.

Lemma pre_reset_returns env target no_reset w :
  fst (pre_reset env target no_reset w) = Ret tt.
Proof.
  unfold pre_reset.
  destruct (has_key target "serial_port") eqn:E; [| reflexivity].
  destruct no_reset; [reflexivity |]. cbn [andb negb].
  apply has_key_true in E as [port E].
  step ltac:(apply getitem_some; exact E).
  unfold bind.
  destruct (reset_board_returns env port w) as [v Hv].
  destruct (reset_board env port w) as [r w1]. cbn in Hv. subst r. reflexivity.
Qed.

Lemma pre_reset_run env target no_reset w :
  pre_reset env target no_reset w = (Ret tt, snd (pre_reset env target no_reset w)).
Proof.
  pose proof (pre_reset_returns env target no_reset w) as H.
  destruct (pre_reset env target no_reset w) as [r w1]. cbn in *. now subst.
Qed.

(** Everything in the direct copy but [write_image] leaves the drive
    unwritten. *)
Section Unwritten.

Variable env : Env.
Variable P : Event -> Prop.
Hypothesis unwritten : forall ev, is_write ev = false -> P ev.








End Unwritten.

Lemma writes_unchanged (tr evs : list Event) :
  Forall (fun ev => is_write ev = false) evs -> writes (evs ++ tr)%list = writes tr.
Proof.
  intros H. unfold writes. rewrite filter_app.
  induction H as [|ev evs Hev _ IH]; [reflexivity |].
  rewrite filter_cons_False; [exact IH | congruence].
Qed.

Lemma writes_cons (ev : Event) (tr : list Event) :
  is_write ev = false -> writes (ev :: tr) = writes tr.
Proof. intros H. apply (writes_unchanged tr [ev]). now repeat constructor. Qed.


(** The direct copy is the reset, then [write_image], then the rest. *)
Lemma flash_copy_sequence env source target no_reset tail destination w :
  flash_copy env source target no_reset tail destination w
  = try_except
      (written <- write_image env source destination;;
       reached <-
         (written' <-
            match written with
            | Return code => ret (Return code)
            | Next _ => sleep env 4000;; ret (Next tt)
            end;;
          match written' with
          | Return code => ret (Return code)
          | Next _ =>
              resolved <- check_points_unchanged env target;;
              match resolved with
              | Code code => ret (Return code)
              | Descriptor new_target =>
                  watch_and_reset env target new_target no_reset tail;;
                  ret (Next new_target)
              end
          end);;
       match reached with
       | Return code => ret code
       | Next new_target => verify_flash env target new_target tail
       end)
      copy_handlers (snd (pre_reset env target no_reset w)).
Proof.
  unfold flash_copy, flash_prelude, write_phase, try_except, bind.
  rewrite pre_reset_run. cbn [fst snd].
  destruct (write_image env source destination _) as [[written|e] w2]; reflexivity.
Qed.









(** ** The scans of the by-id listings (lines 115-132) *)

Section Scans.

Variable target : gmap string string.
Variables target_id serial_port : string.
Hypothesis has_target_id : target !! "target_id" = Some target_id.
Hypothesis has_serial_port : target !! "serial_port" = Some serial_port.

(** Once [new_target] has a serial port, the next moved entry is one too
    many. *)
Lemma scan_serial_by_id_again lines new_target w :
  is_Some (new_target !! "serial_port") ->
  match List.filter (moved_serial target_id serial_port) lines with
  | [] => scan_serial_by_id target lines new_target w = (Ret (Next new_target), w)
  | _ :: _ => exists w', scan_serial_by_id target lines new_target w = (Ret (Return (-10)), w')
  end.
Proof.
  intros Hk. revert w. induction lines as [|line rest IH]; intros w; [reflexivity |].
  cbn [scan_serial_by_id List.filter].
  step ltac:(apply getitem_some; exact has_target_id).
  unfold moved_serial at 1. fold (device_of line). fold (device_of serial_port).
  destruct (PyStr.found line target_id); cbn [andb]; [| apply IH].
  step ltac:(apply getitem_some; exact has_serial_port).
  fold (device_of line). fold (device_of serial_port).
  destruct (String.eqb (device_of serial_port) (device_of line)); cbn [negb]; [apply IH |].
  rewrite (proj2 (has_key_true _ _) Hk). cbn [negb].
  eexists. reflexivity.
Qed.

Lemma scan_serial_by_id_run lines new_target w :
  new_target !! "serial_port" = None ->
  match List.filter (moved_serial target_id serial_port) lines with
  | [] => scan_serial_by_id target lines new_target w = (Ret (Next new_target), w)
  | [line] =>
      scan_serial_by_id target lines new_target w
      = (Ret (Next (<["serial_port" := "/dev/" ++ device_of line]> new_target)), w)
  | _ :: _ :: _ =>
      exists w', scan_serial_by_id target lines new_target w = (Ret (Return (-10)), w')
  end.
Proof.
  intros Hk. revert w. induction lines as [|line rest IH]; intros w; [reflexivity |].
  cbn [scan_serial_by_id List.filter].
  step ltac:(apply getitem_some; exact has_target_id).
  unfold moved_serial at 1. fold (device_of line). fold (device_of serial_port).
  destruct (PyStr.found line target_id); cbn [andb]; [| apply IH].
  step ltac:(apply getitem_some; exact has_serial_port).
  fold (device_of line). fold (device_of serial_port).
  destruct (String.eqb (device_of serial_port) (device_of line)); cbn [negb]; [apply IH |].
  rewrite (proj2 (has_key_false _ _) Hk). cbn [negb].
  pose proof (scan_serial_by_id_again rest
                (<["serial_port" := "/dev/" ++ device_of line]> new_target) w) as H.
  destruct (List.filter (moved_serial target_id serial_port) rest); apply H;
    rewrite lookup_insert_eq; eauto.
Qed.

Lemma scan_disk_by_id_again lines new_target w :
  is_Some (new_target !! "dev_point") ->
  match List.filter (fun line => PyStr.found line target_id) lines with
  | [] => scan_disk_by_id target lines new_target w = (Ret (Next new_target), w)
  | _ :: _ => exists w', scan_disk_by_id target lines new_target w = (Ret (Return (-11)), w')
  end.
Proof.
  intros Hk. revert w. induction lines as [|line rest IH]; intros w; [reflexivity |].
  cbn [scan_disk_by_id List.filter].
  step ltac:(apply getitem_some; exact has_target_id).
  destruct (PyStr.found line target_id); [| apply IH].
  rewrite (proj2 (has_key_true _ _) Hk). cbn [negb].
  eexists. reflexivity.
Qed.

Lemma scan_disk_by_id_run lines new_target w :
  new_target !! "dev_point" = None ->
  match List.filter (fun line => PyStr.found line target_id) lines with
  | [] => scan_disk_by_id target lines new_target w = (Ret (Next new_target), w)
  | [line] =>
      scan_disk_by_id target lines new_target w
      = (Ret (Next (<["dev_point" := "/dev/" ++ device_of line]> new_target)), w)
  | _ :: _ :: _ =>
      exists w', scan_disk_by_id target lines new_target w = (Ret (Return (-11)), w')
  end.
Proof.
  intros Hk. revert w. induction lines as [|line rest IH]; intros w; [reflexivity |].
  cbn [scan_disk_by_id List.filter].
  step ltac:(apply getitem_some; exact has_target_id).
  destruct (PyStr.found line target_id); [| apply IH].
  rewrite (proj2 (has_key_false _ _) Hk). cbn [negb].
  pose proof (scan_disk_by_id_again rest
                (<["dev_point" := "/dev/" ++ device_of line]> new_target) w) as H.
  destruct (List.filter (fun line => PyStr.found line target_id) rest); apply H;
    rewrite lookup_insert_eq; eauto.
Qed.

End Scans.

(** ** The identity resolution on the by-id platform family *)

Lemma command_run env cmd w :
  command env cmd w
  = (Ret (stdout_of (sys_at env (now w)) cmd),
     {| now := now w; trace := Command cmd :: trace w |}).
Proof. reflexivity. Qed.

Section ByIdResolution.

Variable env : Env.
Variable target : gmap string string.
Variables target_id serial_port : string.
Hypothesis has_target_id : target !! "target_id" = Some target_id.
Hypothesis has_serial_port : target !! "serial_port" = Some serial_port.

Lemma by_id_resolution_two_serial w :
  (2 <= length (List.filter (moved_serial target_id serial_port) (serial_lines env w)))%nat ->
  exists w', by_id_resolution env target w = (Ret (Return (-10)), w').
Proof.
  intros Hlen. unfold by_id_resolution.
  step ltac:(apply command_run).
  pose proof (scan_serial_by_id_run target target_id serial_port has_target_id has_serial_port
                (serial_lines env w) ∅
                {| now := now w; trace := Command "ls -oA /dev/serial/by-id/" :: trace w |}
                (lookup_empty _)) as H.
  destruct (List.filter _ (serial_lines env w)) as [|l1 [|l2 ls]];
    [cbn in Hlen; lia | cbn in Hlen; lia |].
  destruct H as [w' H].
  step ltac:(exact H). eexists. reflexivity.
Qed.

Lemma by_id_resolution_two_disk w :
  (length (List.filter (moved_serial target_id serial_port) (serial_lines env w)) <= 1)%nat ->
  (2 <= length (List.filter (fun line => PyStr.found line target_id) (disk_lines env w)))%nat ->
  exists w', by_id_resolution env target w = (Ret (Return (-11)), w').
Proof.
  intros Hs Hd. unfold by_id_resolution.
  step ltac:(apply command_run).
  pose proof (scan_serial_by_id_run target target_id serial_port has_target_id has_serial_port
                (serial_lines env w) ∅
                {| now := now w; trace := Command "ls -oA /dev/serial/by-id/" :: trace w |}
                (lookup_empty _)) as H.
  destruct (List.filter _ (serial_lines env w)) as [|l1 [|l2 ls]];
    [| | cbn in Hs; lia].
  all: step ltac:(exact H).
  all: step ltac:(apply command_run).
  all: match goal with
       | |- context [bind (scan_disk_by_id _ _ ?nt) _ ?w1] =>
           pose proof (scan_disk_by_id_run target target_id has_target_id
                         (disk_lines env w) nt w1) as H'
       end.
  all: destruct (List.filter _ (disk_lines env w)) as [|d1 [|d2 ds]];
    [cbn in Hd; lia | cbn in Hd; lia |].
  all: destruct H' as [w' H']; [try apply lookup_empty; now rewrite lookup_insert_ne |].
  all: step ltac:(exact H'); eexists; reflexivity.
Qed.

End ByIdResolution.

Lemma flash_prelude_code env source target no_reset tail destination w0 w code w' :
  write_phase env source target no_reset destination w0 = (Ret (Next tt), w) ->
  check_points_unchanged env target w = (Ret (Code code), w') ->
  flash_prelude env source target no_reset tail destination w0 = (Ret (Return code), w').
Proof.
  intros Hw Hc. unfold flash_prelude.
  step ltac:(exact Hw). step ltac:(exact Hc). reflexivity.
Qed.

(** C6, corrected.  On the by-id platform family the resolution returns
    -10 when more than one serial-by-id entry of the board points to another
    device than the descriptor's serial port, and -11 when (no such case
    arising) more than one disk-by-id entry matches the target_id; a flash
    whose resolution returns an error code returns that code at once, and
    never reaches the verification. *)
Theorem ambiguous_identity env target target_id serial_port w :
  by_id_platform env ->
  target !! "target_id" = Some target_id ->
  target !! "serial_port" = Some serial_port ->
  let moved := List.filter (moved_serial target_id serial_port) (serial_lines env w) in
  let disks := List.filter (fun line => PyStr.found line target_id) (disk_lines env w) in
  ((2 <= length moved)%nat ->
   fst (check_points_unchanged env target w) = Ret (Code (-10))) /\
  ((length moved <= 1)%nat -> (2 <= length disks)%nat ->
   fst (check_points_unchanged env target w) = Ret (Code (-11))) /\
  (forall source method no_reset w0 mount_point code w',
      direct_copy method ->
      target !! "mount_point" = Some mount_point ->
      write_phase env source target no_reset (destination_of env mount_point source) w0
      = (Ret (Next tt), w) ->
      check_points_unchanged env target w = (Ret (Code code), w') ->
      flash env source target method no_reset w0 = (Ret code, w') /\
      forall new_target wv,
        ~ reaches_verification env source target method no_reset w0 new_target wv).
Proof.
  intros [Hnw Hnd] Hid Hsp moved disks.
  split; [| split].
  - intros Hlen.
    destruct (by_id_resolution_two_serial env target _ _ Hid Hsp w Hlen) as [w' H].
    unfold check_points_unchanged. rewrite Hnw, Hnd.
    now step ltac:(exact H).
  - intros Hs Hd.
    destruct (by_id_resolution_two_disk env target _ _ Hid Hsp w Hs Hd) as [w' H].
    unfold check_points_unchanged. rewrite Hnw, Hnd.
    now step ltac:(exact H).
  - intros source method no_reset w0 mount_point code w' Hdc Hm Hw Hc.
    pose proof (flash_prelude_code env source target no_reset (tail_of env source) _ _ _ _ _
                  Hw Hc) as Hp.
    split.
    + rewrite (flash_direct_copy _ _ _ _ _ _ _ Hdc Hm).
      unfold flash_copy, try_except. now step ltac:(exact Hp).
    + intros new_target wv (_ & mp & Hm' & Hp').
      rewrite Hm in Hm'. injection Hm' as <-. rewrite Hp in Hp'. discriminate.
Qed.

Lemma ambiguous_identity_witness :
  fst (flash two_moved_serial "/home/user/fw/image.bin" board "" false (boot 0)) = Ret (-10).
Proof.
  pose (w := snd (write_phase two_moved_serial "/home/user/fw/image.bin" board false
                    "/media/MBED/image.bin" (boot 0))).
  destruct (ambiguous_identity two_moved_serial board "0240" "/dev/ttyACM0" w)
    as (Hserial & _ & Hflash).
  - split; reflexivity.
  - reflexivity.
  - reflexivity.
  - destruct (Hflash "/home/user/fw/image.bin" "" false (boot 0) "/media/MBED" (-10)
                (snd (check_points_unchanged two_moved_serial board w))) as [Hrun _].
    + split; discriminate.
    + reflexivity.
    + vm_compute. reflexivity.
    + rewrite (surjective_pairing (check_points_unchanged two_moved_serial board w)).
      rewrite Hserial; [reflexivity | vm_compute; lia].
    + now rewrite Hrun.
Defined.

(** C6 as worded fails: two serial-by-id entries match the target_id, one
    of them the board's current line; the resolution returns no error but a
    descriptor with the other line. *)
Lemma twin_serial_not_ambiguous :
  length (List.filter (fun line => PyStr.found line "0240") (serial_lines twin_serial (boot 0)))
  = 2%nat /\
  fst (check_points_unchanged twin_serial board (boot 0))
  = Ret (Descriptor {[ "serial_port" := "/dev/ttyACM1"; "dev_point" := "/dev/sdb";
                       "target_id" := "0240" ]}) /\
  fst (check_points_unchanged twin_serial board (boot 0)) <> Ret (Code (-10)).
Proof.
  split; [| split].
  - reflexivity.
  - vm_compute. reflexivity.
  - vm_compute. discriminate.
Qed.

(** ** The device name of a by-id entry *)

Lemma prefix_slash c s : String.prefix "/" (String c s) = Ascii.eqb c "/"%char.
Proof.
  change (String.prefix "/" (String c s))
    with (if ascii_dec "/" c then String.prefix "" s else false).
  destruct (ascii_dec "/" c) as [<-|Hne].
  - now destruct s.
  - symmetry. apply Ascii.eqb_neq. congruence.
Qed.

Lemma append_cons a (s t : string) : String a s ++ t = String a (s ++ t).
Proof. reflexivity. Qed.

Lemma append_nil_r (s : string) : s ++ "" = s.
Proof. induction s as [|a s IH]; [reflexivity | now rewrite append_cons, IH]. Qed.

Lemma append_assoc_char (cur : string) c s : (cur ++ String c "") ++ s = cur ++ String c s.
Proof.
  induction cur as [|a cur IH]; [reflexivity |].
  now rewrite !append_cons, IH.
Qed.

Lemma split_go_slash_free s cur :
  slash_free s = true -> PyStr.split_go "/" s O cur = [cur ++ s].
Proof.
  revert cur. induction s as [|c s IH]; intros cur H.
  - cbn [PyStr.split_go]. now rewrite append_nil_r.
  - cbn [slash_free] in H. apply andb_true_iff in H as [Hc Hs].
    cbn [PyStr.split_go]. rewrite prefix_slash.
    apply negb_true_iff in Hc. rewrite Hc.
    rewrite (IH _ Hs). now rewrite append_assoc_char.
Qed.

Lemma split_go_not_nil sep s skip cur : PyStr.split_go sep s skip cur <> [].
Proof.
  revert skip cur. induction s as [|c s IH]; intros skip cur; cbn [PyStr.split_go]; [easy |].
  destruct skip; [| apply IH].
  destruct (String.prefix sep (String c s)); [easy | apply IH].
Qed.

Lemma last_cons_not_nil (x : string) (l : list string) :
  l <> [] -> List.last (x :: l) "" = List.last l "".
Proof. destruct l; [congruence | reflexivity]. Qed.

Lemma last_split_go_app p x cur :
  slash_free x = true ->
  List.last (PyStr.split_go "/" (p ++ x) O cur) ""
  = List.last (PyStr.split_go "/" p O cur) "" ++ x.
Proof.
  intros Hx. revert cur. induction p as [|c p IH]; intros cur.
  - change ("" ++ x) with x. rewrite (split_go_slash_free _ _ Hx). reflexivity.
  - change (String c p ++ x) with (String c (p ++ x)).
    cbn [PyStr.split_go]. rewrite !prefix_slash.
    destruct (Ascii.eqb c "/"); cbn [String.length Nat.sub].
    + rewrite !last_cons_not_nil by apply split_go_not_nil. apply IH.
    + apply IH.
Qed.

Lemma slash_free_app a b : slash_free a = true -> slash_free b = true -> slash_free (a ++ b) = true.
Proof.
  intros Ha Hb. induction a as [|c a IH]; [exact Hb |].
  rewrite append_cons. cbn [slash_free] in *.
  apply andb_true_iff in Ha as [Hc Ha]. now rewrite Hc, IH.
Qed.

Lemma last_split_go_slash_free s cur :
  slash_free cur = true ->
  slash_free (List.last (PyStr.split_go "/" s O cur) "") = true.
Proof.
  revert cur. induction s as [|c s IH]; intros cur Hc; [exact Hc |].
  cbn [PyStr.split_go]. rewrite prefix_slash.
  destruct (Ascii.eqb c "/") eqn:E; cbn [String.length Nat.sub].
  - rewrite last_cons_not_nil by apply split_go_not_nil. now apply IH.
  - apply IH. apply slash_free_app; [exact Hc |]. cbn. now rewrite E.
Qed.

Lemma device_of_slash_free line : slash_free (device_of line) = true.
Proof. now apply last_split_go_slash_free. Qed.

Lemma device_of_dev line : device_of ("/dev/" ++ device_of line) = device_of line.
Proof.
  unfold device_of at 1. unfold PyStr.last_piece, PyStr.split.
  rewrite last_split_go_app by apply device_of_slash_free. reflexivity.
Qed.

(** The path that the resolution puts in [new_target] is not the old one. *)
Lemma moved_port_differs old line :
  device_of old <> device_of line -> "/dev/" ++ device_of line <> old.
Proof. intros H Heq. apply H. rewrite <- Heq. apply device_of_dev. Qed.

(** ** What the resolution collects (lines 107-152) *)

Lemma scan_serial_by_id_kept target lines new_target w changes w' :
  is_Some (new_target !! "serial_port") ->
  scan_serial_by_id target lines new_target w = (Ret (Next changes), w') ->
  changes = new_target.
Proof.
  intros Hk. revert w. induction lines as [|line rest IH]; intros w H.
  - now inversion H.
  - cbn [scan_serial_by_id] in H. unfold bind, getitem in H.
    destruct (target !! "target_id") as [tid|]; [| discriminate]. cbn in H.
    destruct (PyStr.found line tid); [| now apply (IH w)].
    destruct (target !! "serial_port") as [old|]; [| discriminate]. cbn in H.
    destruct (String.eqb _ _); cbn in H; [now apply (IH w) |].
    rewrite (proj2 (has_key_true _ _) Hk) in H. discriminate.
Qed.

Lemma scan_serial_by_id_next target lines new_target w changes w' :
  new_target !! "serial_port" = None ->
  scan_serial_by_id target lines new_target w = (Ret (Next changes), w') ->
  changes = new_target \/
  exists line old,
    target !! "serial_port" = Some old /\
    device_of old <> device_of line /\
    changes = <["serial_port" := "/dev/" ++ device_of line]> new_target.
Proof.
  intros Hk. revert w. induction lines as [|line rest IH]; intros w H.
  - left. now inversion H.
  - cbn [scan_serial_by_id] in H. unfold bind, getitem in H.
    destruct (target !! "target_id") as [tid|]; [| discriminate]. cbn in H.
    destruct (PyStr.found line tid); [| now apply (IH w)].
    destruct (target !! "serial_port") as [old|] eqn:Eold; [| discriminate]. cbn in H.
    fold (device_of old) in H. fold (device_of line) in H.
    destruct (String.eqb (device_of old) (device_of line)) eqn:E; cbn in H;
      [now apply (IH w) |].
    rewrite (proj2 (has_key_false _ _) Hk) in H. cbn in H.
    apply scan_serial_by_id_kept in H; [| rewrite lookup_insert_eq; eauto].
    right. exists line, old. split; [reflexivity | split; [| exact H]].
    now apply String.eqb_neq.
Qed.

Lemma scan_disk_by_id_kept target lines new_target w changes w' :
  is_Some (new_target !! "dev_point") ->
  scan_disk_by_id target lines new_target w = (Ret (Next changes), w') ->
  changes = new_target.
Proof.
  intros Hk. revert w. induction lines as [|line rest IH]; intros w H.
  - now inversion H.
  - cbn [scan_disk_by_id] in H. unfold bind, getitem in H.
    destruct (target !! "target_id") as [tid|]; [| discriminate]. cbn in H.
    destruct (PyStr.found line tid); [| now apply (IH w)].
    rewrite (proj2 (has_key_true _ _) Hk) in H. discriminate.
Qed.

Lemma scan_disk_by_id_next target lines new_target w changes w' :
  new_target !! "dev_point" = None ->
  scan_disk_by_id target lines new_target w = (Ret (Next changes), w') ->
  changes = new_target \/
  exists line, changes = <["dev_point" := "/dev/" ++ device_of line]> new_target.
Proof.
  intros Hk. revert w. induction lines as [|line rest IH]; intros w H.
  - left. now inversion H.
  - cbn [scan_disk_by_id] in H. unfold bind, getitem in H.
    destruct (target !! "target_id") as [tid|]; [| discriminate]. cbn in H.
    destruct (PyStr.found line tid); [| now apply (IH w)].
    rewrite (proj2 (has_key_false _ _) Hk) in H. cbn in H.
    apply scan_disk_by_id_kept in H; [| rewrite lookup_insert_eq; eauto].
    right. now exists line.
Qed.

Lemma only_changes_empty target : only_changes target ∅.
Proof. split; intros key v; [| intros _]; rewrite lookup_empty; discriminate. Qed.

Lemma only_changes_serial target changes old v :
  only_changes target changes ->
  target !! "serial_port" = Some old ->
  v <> old ->
  only_changes target (<["serial_port" := v]> changes).
Proof.
  intros [Hkeys Hnew] Hold Hne. split; intros key v'.
  - destruct (decide (key = "serial_port")) as [->|Hk]; [auto |].
    rewrite lookup_insert_ne by congruence. apply Hkeys.
  - intros Hkey. destruct (decide (key = "serial_port")) as [->|Hk].
    + rewrite lookup_insert_eq, Hold. congruence.
    + rewrite lookup_insert_ne by congruence. now apply Hnew.
Qed.

Lemma only_changes_dev target changes v :
  only_changes target changes ->
  only_changes target (<["dev_point" := v]> changes).
Proof.
  intros [Hkeys Hnew]. split; intros key v'.
  - destruct (decide (key = "dev_point")) as [->|Hk]; [auto |].
    rewrite lookup_insert_ne by congruence. apply Hkeys.
  - intros Hkey. rewrite lookup_insert_ne by (destruct Hkey; congruence).
    now apply Hnew.
Qed.

Lemma by_id_resolution_next env target w changes w' :
  by_id_resolution env target w = (Ret (Next changes), w') ->
  only_changes target changes.
Proof.
  unfold by_id_resolution. intros H.
  rewrite (bind_ret _ _ _ _ _ (command_run _ _ _)) in H.
  unfold bind at 1 in H.
  destruct (scan_serial_by_id _ _ _ _) as [[[code|changes1]|e] w1] eqn:E1;
    [discriminate | | discriminate].
  rewrite (bind_ret _ _ _ _ _ (command_run _ _ _)) in H.
  unfold bind at 1 in H.
  destruct (scan_disk_by_id _ _ _ _) as [[[code|changes2]|e] w2] eqn:E2;
    [discriminate | | discriminate].
  change (negb (bool_decide (@nil string = []))) with false in H. cbv iota in H.
  injection H as -> ->.
  assert (only_changes target changes1) as H1.
  { apply scan_serial_by_id_next in E1 as [->|(line & old & Hold & Hne & ->)];
      [apply only_changes_empty | | apply lookup_empty].
    eapply only_changes_serial; [apply only_changes_empty | exact Hold |].
    now apply moved_port_differs. }
  assert (changes1 !! "dev_point" = None) as Hdev.
  { destruct (changes1 !! "dev_point") as [v|] eqn:Ev; [| reflexivity].
    destruct H1 as [_ _]. apply scan_serial_by_id_next in E1
      as [->|(line & old & _ & _ & ->)]; [| | apply lookup_empty].
    - now rewrite lookup_empty in Ev.
    - rewrite lookup_insert_ne, lookup_empty in Ev by discriminate. discriminate. }
  apply scan_disk_by_id_next in E2 as [->|(line & ->)]; [exact H1 | | exact Hdev].
  now apply only_changes_dev.
Qed.

Lemma com_port_resolution_next env target w changes w' :
  com_port_resolution env target w = (Ret (Next changes), w') ->
  only_changes target changes.
Proof.
  unfold com_port_resolution, bind, getitem, emit, observe. intros H.
  destruct (target !! "serial_port") as [old|] eqn:Eold; [| discriminate]. cbn in H.
  destruct (target !! "target_id") as [tid|]; [| discriminate]. cbn in H.
  destruct (String.eqb old _) eqn:E; cbn in H; injection H as <- <-.
  - apply only_changes_empty.
  - eapply only_changes_serial; [apply only_changes_empty | exact Eold |].
    apply String.eqb_neq in E. congruence.
Qed.

Lemma report_points_descriptor (target changes : gmap string string) w d w' :
  report_points target changes w = (Ret (Descriptor d), w') ->
  (changes = ∅ /\ d = target) \/
  (changes <> ∅ /\
   exists target_id,
     target !! "target_id" = Some target_id /\ d = <["target_id" := target_id]> changes).
Proof.
  unfold report_points. intros H.
  destruct (bool_decide (changes = ∅)) eqn:E; cbn [negb] in H.
  - apply bool_decide_eq_true in E. left. now inversion H.
  - apply bool_decide_eq_false in E. right. split; [exact E |].
    unfold bind, getitem, log, emit in H.
    repeat match type of H with
      | context [if ?b then _ else _] => destruct b; cbn in H
      | context [match ?x !! ?k with _ => _ end] => destruct (x !! k) eqn:?; cbn in H
      end; try discriminate.
    all: injection H as <- _; eauto.
Qed.

Lemma check_points_unchanged_changes env target w d w' :
  check_points_unchanged env target w = (Ret (Descriptor d), w') ->
  exists changes w1,
    only_changes target changes /\
    report_points target changes w1 = (Ret (Descriptor d), w').
Proof.
  unfold check_points_unchanged. intros H. unfold bind at 1 in H.
  destruct (on_windows env).
  - destruct (com_port_resolution env target w) as [[[code|changes]|e] w1] eqn:E;
      try discriminate.
    exists changes, w1. split; [| exact H]. now apply com_port_resolution_next in E.
  - destruct (on_darwin env).
    + exists ∅, w. split; [apply only_changes_empty | exact H].
    + destruct (by_id_resolution env target w) as [[[code|changes]|e] w1] eqn:E;
        try discriminate.
      exists changes, w1. split; [| exact H]. now apply by_id_resolution_next in E.
Qed.

Lemma check_points_unchanged_by_id env target w d w' :
  by_id_platform env ->
  check_points_unchanged env target w = (Ret (Descriptor d), w') ->
  exists changes w1,
    by_id_resolution env target w = (Ret (Next changes), w1) /\
    report_points target changes w1 = (Ret (Descriptor d), w').
Proof.
  intros [Hw Hd]. unfold check_points_unchanged. rewrite Hw, Hd. intros H.
  unfold bind at 1 in H.
  destruct (by_id_resolution env target w) as [[[code|changes]|e] w1]; try discriminate.
  now exists changes, w1.
Qed.

Lemma check_points_unchanged_com_port env target w d w' :
  on_windows env = true ->
  check_points_unchanged env target w = (Ret (Descriptor d), w') ->
  exists changes w1,
    com_port_resolution env target w = (Ret (Next changes), w1) /\
    report_points target changes w1 = (Ret (Descriptor d), w').
Proof.
  intros Hw. unfold check_points_unchanged. rewrite Hw. intros H.
  unfold bind at 1 in H.
  destruct (com_port_resolution env target w) as [[[code|changes]|e] w1]; try discriminate.
  now exists changes, w1.
Qed.

Lemma report_points_serial_port (target changes : gmap string string) w d w' port :
  report_points target changes w = (Ret (Descriptor d), w') ->
  changes !! "serial_port" = Some port ->
  d !! "serial_port" = Some port.
Proof.
  intros H Hp.
  apply report_points_descriptor in H as [[-> _]|(_ & tid & _ & ->)].
  - now rewrite lookup_empty in Hp.
  - now rewrite lookup_insert_ne.
Qed.

(** A single moved serial-by-id entry ends up in the descriptor. *)
Lemma by_id_resolution_moved env target target_id serial_port w changes w1 line :
  target !! "target_id" = Some target_id ->
  target !! "serial_port" = Some serial_port ->
  List.filter (moved_serial target_id serial_port) (serial_lines env w) = [line] ->
  by_id_resolution env target w = (Ret (Next changes), w1) ->
  changes !! "serial_port" = Some ("/dev/" ++ device_of line).
Proof.
  intros Hid Hsp Hmoved H. unfold by_id_resolution in H.
  rewrite (bind_ret _ _ _ _ _ (command_run _ _ _)) in H.
  pose proof (scan_serial_by_id_run target target_id serial_port Hid Hsp
                (serial_lines env w) ∅
                {| now := now w; trace := Command "ls -oA /dev/serial/by-id/" :: trace w |}
                (lookup_empty _)) as Hs.
  rewrite Hmoved in Hs.
  rewrite (bind_ret _ _ _ _ _ Hs) in H.
  rewrite (bind_ret _ _ _ _ _ (command_run _ _ _)) in H.
  unfold bind at 1 in H.
  destruct (scan_disk_by_id _ _ _ _) as [[[code|changes2]|e] w2] eqn:E2;
    [discriminate | | discriminate].
  change (negb (bool_decide (@nil string = []))) with false in H. cbv iota in H.
  injection H as -> ->.
  apply scan_disk_by_id_next in E2 as [->|(dev & ->)].
  - now rewrite lookup_insert_eq.
  - now rewrite lookup_insert_ne, lookup_insert_eq.
  - now rewrite lookup_insert_ne, lookup_empty.
Qed.

(** A COM port other than the descriptor's ends up in the descriptor. *)
Lemma com_port_resolution_moved env target target_id serial_port w changes w1 :
  target !! "target_id" = Some target_id ->
  target !! "serial_port" = Some serial_port ->
  mbed_com_port (sys_at env (now w)) target_id <> serial_port ->
  com_port_resolution env target w = (Ret (Next changes), w1) ->
  changes !! "serial_port" = Some (mbed_com_port (sys_at env (now w)) target_id).
Proof.
  intros Hid Hsp Hne. unfold com_port_resolution, bind, getitem, emit, observe.
  rewrite Hsp, Hid. cbn.
  rewrite (eqb_neq serial_port _ (not_eq_sym Hne)). cbn.
  intros [= <- _]. now rewrite lookup_insert_eq.
Qed.

(** C8, corrected.  A successful resolution returns either the input
    descriptor itself (nothing was found changed) or a descriptor made of
    the fields it found and the [target_id] of the input: a [serial_port] or
    [mount_point] is in it only with a value that differs from the input's,
    so a field that did not change is not carried over.  The [target_id] of
    the result is that of the input, and a serial port found changed (the
    one moved by-id entry, or the COM port on Windows) is in the result. *)
Theorem resolution_returns_changes env target w d w' :
  check_points_unchanged env target w = (Ret (Descriptor d), w') ->
  d !! "target_id" = target !! "target_id" /\
  (d = target \/
   exists changes target_id,
     changes <> ∅ /\
     only_changes target changes /\
     target !! "target_id" = Some target_id /\
     d = <["target_id" := target_id]> changes) /\
  (forall target_id serial_port,
      target !! "target_id" = Some target_id ->
      target !! "serial_port" = Some serial_port ->
      (by_id_platform env ->
       forall line,
         List.filter (moved_serial target_id serial_port) (serial_lines env w) = [line] ->
         d !! "serial_port" = Some ("/dev/" ++ device_of line)) /\
      (on_windows env = true ->
       mbed_com_port (sys_at env (now w)) target_id <> serial_port ->
       d !! "serial_port" = Some (mbed_com_port (sys_at env (now w)) target_id))).
Proof.
  intros Hcheck. split; [| split].
  - apply check_points_unchanged_changes in Hcheck as (changes & w1 & Hc & H).
    apply report_points_descriptor in H as [[_ ->]|(Hne & tid & Hid & ->)];
      [reflexivity | now rewrite lookup_insert_eq].
  - apply check_points_unchanged_changes in Hcheck as (changes & w1 & Hc & H).
    apply report_points_descriptor in H as [[_ ->]|(Hne & tid & Hid & ->)];
      [now left | right; now exists changes, tid].
  - intros target_id serial_port Hid Hsp. split.
    + intros Hp line Hmoved.
      apply (check_points_unchanged_by_id _ _ _ _ _ Hp) in Hcheck
        as (changes & w1 & Hres & Hrep).
      eapply report_points_serial_port; [exact Hrep |].
      eapply by_id_resolution_moved; eauto.
    + intros Hw Hne.
      apply (check_points_unchanged_com_port _ _ _ _ _ Hw) in Hcheck
        as (changes & w1 & Hres & Hrep).
      eapply report_points_serial_port; [exact Hrep |].
      eapply com_port_resolution_moved; eauto.
Qed.

Lemma resolution_returns_changes_witness :
  let d : gmap string string :=
    {[ "serial_port" := "/dev/ttyACM1"; "dev_point" := "/dev/sdb"; "target_id" := "0240" ]} in
  d !! "target_id" = board !! "target_id" /\
  (d = board \/
   exists changes target_id,
     changes <> ∅ /\
     only_changes board changes /\
     board !! "target_id" = Some target_id /\
     d = <["target_id" := target_id]> changes) /\
  d !! "serial_port" = Some ("/dev/" ++ device_of (serial_line "ttyACM1")).
Proof.
  destruct (resolution_returns_changes moved_board board (boot 0)
              {[ "serial_port" := "/dev/ttyACM1"; "dev_point" := "/dev/sdb";
                 "target_id" := "0240" ]}
              (snd (check_points_unchanged moved_board board (boot 0))))
    as (Hid & Hdelta & Hmoved).
  - vm_compute. reflexivity.
  - split; [exact Hid | split; [exact Hdelta |]].
    apply (Hmoved "0240" "/dev/ttyACM0"); [reflexivity | reflexivity | | reflexivity].
    split; reflexivity.
Defined.

(** C8 as worded fails: the board came back on another serial line and on
    the same mount point; the descriptor returned has the new serial port
    and no mount point at all. *)
Lemma unchanged_field_not_carried :
  fst (check_points_unchanged moved_board board (boot 0))
  = Ret (Descriptor {[ "serial_port" := "/dev/ttyACM1"; "dev_point" := "/dev/sdb";
                       "target_id" := "0240" ]}) /\
  board !! "mount_point" = Some "/media/MBED" /\
  PyStr.found (stdout_of (sys_at moved_board 0) "mount |grep vfat") "/dev/sdb on /media/MBED type"
  = true /\
  ({[ "serial_port" := "/dev/ttyACM1"; "dev_point" := "/dev/sdb"; "target_id" := "0240" ]}
   : gmap string string) !! "mount_point" = None.
Proof.
  repeat split; vm_compute; reflexivity.
Qed.

(** ** The mount table (lines 133-152) *)

Lemma scan_serial_by_id_code target lines new_target w code w' :
  scan_serial_by_id target lines new_target w = (Ret (Return code), w') -> code = -10.
Proof.
  revert new_target w. induction lines as [|line rest IH]; intros new_target w H.
  - discriminate.
  - cbn [scan_serial_by_id] in H. unfold bind, getitem, log, emit in H.
    destruct (target !! "target_id") as [tid|]; [| discriminate]. cbn in H.
    destruct (PyStr.found line tid); [| now apply IH in H].
    destruct (target !! "serial_port") as [old|]; [| discriminate]. cbn in H.
    destruct (String.eqb _ _); cbn in H; [now apply IH in H |].
    destruct (has_key new_target "serial_port"); cbn in H; [| now apply IH in H].
    now inversion H.
Qed.

Lemma scan_disk_by_id_code target lines new_target w code w' :
  scan_disk_by_id target lines new_target w = (Ret (Return code), w') -> code = -11.
Proof.
  revert new_target w. induction lines as [|line rest IH]; intros new_target w H.
  - discriminate.
  - cbn [scan_disk_by_id] in H. unfold bind, getitem, log, emit in H.
    destruct (target !! "target_id") as [tid|]; [| discriminate]. cbn in H.
    destruct (PyStr.found line tid); [| now apply IH in H].
    destruct (has_key new_target "dev_point"); cbn in H; [| now apply IH in H].
    now inversion H.
Qed.

(** The resolution gives up with -10 or -11 only: the test of line 133 is
    on a list that stays empty, so lines 134-152 never run and -12 is never
    returned. *)
Lemma check_points_unchanged_codes env target w code w' :
  check_points_unchanged env target w = (Ret (Code code), w') -> code = -10 \/ code = -11.
Proof.
  unfold check_points_unchanged. intros H. unfold bind at 1 in H.
  assert (forall changes w1, report_points target changes w1 <> (Ret (Code code), w')) as Hr.
  { intros changes w1 Hc. unfold report_points, bind, getitem, log, emit in Hc.
    repeat match type of Hc with
      | context [if ?b then _ else _] => destruct b; cbn in Hc
      | context [match ?x !! ?k with _ => _ end] => destruct (x !! k) eqn:?; cbn in Hc
      end; discriminate. }
  destruct (on_windows env).
  - destruct (com_port_resolution env target w) as [[[c|changes]|e] w1] eqn:E;
      [| now apply Hr in H | discriminate].
    unfold com_port_resolution, bind, getitem, emit, observe in E.
    repeat match type of E with
      | context [if ?b then _ else _] => destruct b; cbn in E
      | context [match ?x !! ?k with _ => _ end] => destruct (x !! k) eqn:?; cbn in E
      end; discriminate.
  - destruct (on_darwin env); [now apply Hr in H |].
    destruct (by_id_resolution env target w) as [[[c|changes]|e] w1] eqn:E;
      [| now apply Hr in H | discriminate].
    injection H as <- <-.
    unfold by_id_resolution in E.
    rewrite (bind_ret _ _ _ _ _ (command_run _ _ _)) in E.
    unfold bind at 1 in E.
    destruct (scan_serial_by_id _ _ _ _) as [[[c1|changes1]|e] w2] eqn:E1; [| | discriminate].
    + left. apply scan_serial_by_id_code in E1. unfold ret in E. congruence.
    + rewrite (bind_ret _ _ _ _ _ (command_run _ _ _)) in E.
      unfold bind at 1 in E.
      change (negb (bool_decide (@nil string = []))) with false in E.
      destruct (scan_disk_by_id _ _ _ _) as [[[c2|changes2]|e] w3] eqn:E2;
        [| discriminate | discriminate].
      right. apply scan_disk_by_id_code in E2. unfold ret in E. congruence.
Qed.

(** C7, a defect of the code.  The board's block device is listed under
    disk/by-id and no vfat mount ever shows up: the resolution does not
    look at the mount table once, waits for nothing and returns a
    descriptor, where -12 after a ten-second wait was meant. *)
Theorem mount_table_never_polled :
  PyStr.found (stdout_of (sys_at never_remounted 0) "ls -oA /dev/disk/by-id/") "0240" = true /\
  (forall t, stdout_of (sys_at never_remounted t) "mount |grep vfat" = "") /\
  check_points_unchanged never_remounted board (boot 0)
  = (Ret (Descriptor {[ "dev_point" := "/dev/sdb"; "target_id" := "0240" ]}),
     {| now := 0;
        trace := [ Log DEBUG "mount point %s has not changed" [AStr "/media/MBED"];
                   Log DEBUG "serial port %s has not changed" [AStr "/dev/ttyACM0"];
                   Command "ls -oA /dev/disk/by-id/";
                   Command "ls -oA /dev/serial/by-id/" ] |}).
Proof.
  split; [| split].
  - reflexivity.
  - intros t. reflexivity.
  - vm_compute. reflexivity.
Qed.

(** ** The remount watch (lines 85-104) *)

Lemma runner_poll_clock env drive w :
  now (snd (runner_poll env drive w))
  = now w + 2000 + Z.of_N (latency (sys_at env (now w))).
Proof.
  unfold runner_poll, bind, sleep, command, emit, observe, auxiliary_drive_check, ret, raise.
  cbn.
  repeat match goal with
    | |- context [if ?b then _ else _] => destruct b; cbn
    | |- context [match ?x with Some _ => _ | None => _ end] => destruct x; cbn
    end; reflexivity.
Qed.

Lemma runner_poll_takes_time env drive w :
  now w + 2000 <= now (snd (runner_poll env drive w)).
Proof. rewrite runner_poll_clock. lia. Qed.

Lemma after_polls_shift env drive k w :
  after_polls env drive k (snd (runner_poll env drive w)) = after_polls env drive (S k) w.
Proof.
  induction k as [|k IH]; [reflexivity |].
  cbn [after_polls] in *. now rewrite IH.
Qed.

Lemma poll_result_shift env drive k w :
  poll_result env drive k (snd (runner_poll env drive w)) = poll_result env drive (S k) w.
Proof. unfold poll_result. now rewrite after_polls_shift. Qed.

Lemma runner_loop_step env fuel drive start_time w :
  runner_loop env (S fuel) drive start_time w
  = match runner_poll env drive w with
    | (Ret true, w1) => (Ret (Some Settled), w1)
    | (Ret false, w1) =>
        if now w1 - start_time >? FLASHING_VERIFICATION_TIMEOUT * 1000
        then (Ret (Some TimedOut), timed_out_log drive w1)
        else runner_loop env fuel drive start_time w1
    | (Raise e, w1) => (Raise e, w1)
    end.
Proof.
  cbn [runner_loop]. unfold bind at 1.
  destruct (runner_poll env drive w) as [[[|]|e] w1]; try reflexivity.
  unfold bind, time. cbn [fst snd].
  destruct (now w1 - start_time >? FLASHING_VERIFICATION_TIMEOUT * 1000); reflexivity.
Qed.

(** With enough fuel for the time that is left, the loop leaves: at the
    first poll that meets a success condition, or else at the first poll
    that ends after the timeout. *)
Lemma runner_loop_leaves env drive start_time fuel w :
  FLASHING_VERIFICATION_TIMEOUT * 1000 < now w - start_time + 2000 * Z.of_nat (S fuel) ->
  exists n,
    (n <= fuel)%nat /\
    (forall j, (j < n)%nat -> poll_goes_on env drive start_time w j) /\
    loop_leaves_at env drive (S fuel) start_time w n.
Proof.
  revert w. induction fuel as [|fuel IH]; intros w Hfuel.
  - exists O. split; [lia | split; [intros j Hj; lia |]].
    unfold loop_leaves_at, poll_result. cbn [after_polls].
    rewrite runner_loop_step.
    pose proof (runner_poll_takes_time env drive w) as Ht.
    destruct (runner_poll env drive w) as [[[|]|e] w1]; cbn [fst snd] in *.
    + left. now split.
    + right; left. unfold FLASHING_VERIFICATION_TIMEOUT in *.
      destruct (Z.gtb_spec (now w1 - start_time) (100 * 1000)); [| lia].
      split; [reflexivity | split; [lia | reflexivity]].
    + right; right. exists e. now split.
  - pose proof (runner_poll_takes_time env drive w) as Ht.
    destruct (runner_poll env drive w) as [[[|]|e] w1] eqn:E; cbn [fst snd] in *.
    + exists O. split; [lia | split; [intros j Hj; lia |]].
      left. unfold poll_result. cbn [after_polls]. rewrite runner_loop_step, E. now split.
    + destruct (Z.gtb_spec (now w1 - start_time) (FLASHING_VERIFICATION_TIMEOUT * 1000))
        as [Hout|Hin].
      * exists O. split; [lia | split; [intros j Hj; lia |]].
        right; left. unfold poll_result. cbn [after_polls]. rewrite runner_loop_step, E.
        cbn [fst snd].
        destruct (Z.gtb_spec (now w1 - start_time) (FLASHING_VERIFICATION_TIMEOUT * 1000));
          [| lia].
        split; [reflexivity | split; [lia | reflexivity]].
      * destruct (IH w1) as (n & Hn & Hgo & Hleave); [lia |].
        assert (w1 = snd (runner_poll env drive w)) as Hw1 by now rewrite E.
        exists (S n). split; [lia | split].
        -- intros [|j] Hj.
           ++ unfold poll_goes_on, poll_result. cbn [after_polls]. rewrite E. now split.
           ++ destruct (Hgo j ltac:(lia)) as [Hr Hel]. unfold poll_goes_on.
              rewrite Hw1, poll_result_shift, after_polls_shift in *. now split.
        -- unfold loop_leaves_at in *.
           rewrite (runner_loop_step env (S fuel)), E.
           destruct (Z.gtb_spec (now w1 - start_time) (FLASHING_VERIFICATION_TIMEOUT * 1000));
             [lia |].
           rewrite Hw1 in Hleave.
           rewrite !poll_result_shift, !after_polls_shift in Hleave.
           rewrite <- Hw1 in Hleave. exact Hleave.
    + exists O. split; [lia | split; [intros j Hj; lia |]].
      right; right. exists e. unfold poll_result. cbn [after_polls].
      rewrite runner_loop_step, E. now split.
Qed.


Lemma loop_leaves_not_running env drive fuel start_time w n :
  loop_leaves_at env drive fuel start_time w n ->
  fst (runner_loop env fuel drive start_time w) <> Ret None.
Proof.
  intros [[_ ->]|[(_ & _ & ->)|(e & _ & ->)]]; discriminate.
Qed.


Lemma runner_start env drive w :
  runner env drive w = runner_loop env max_polls drive (now w) w.
Proof. reflexivity. Qed.

(** The watch is over after 51 polls at most. *)
Lemma runner_leaves env drive w :
  exists n,
    (n < max_polls)%nat /\
    (forall j, (j < n)%nat -> poll_goes_on env drive (now w) w j) /\
    loop_leaves_at env drive max_polls (now w) w n.
Proof.
  destruct (runner_loop_leaves env drive (now w) 50 w) as (n & Hn & Hgo & Hleave).
  - unfold FLASHING_VERIFICATION_TIMEOUT. lia.
  - exists n. split; [| now split].
    change max_polls with 51%nat. lia.
Qed.

Lemma run_thread_run env drive w :
  run_thread env drive w = (Ret tt, snd (runner env drive (thread_started drive w))).
Proof. reflexivity. Qed.

(** The direct copy from the resolver's descriptor on: the watch, then the
    reset and the verification, whatever the watch came to. *)
Lemma flash_after_watch env source target method no_reset w0 mount_point wr new_target w1 :
  direct_copy method ->
  target !! "mount_point" = Some mount_point ->
  write_phase env source target no_reset (destination_of env mount_point source) w0
  = (Ret (Next tt), wr) ->
  check_points_unchanged env target wr = (Ret (Descriptor new_target), w1) ->
  flash env source target method no_reset w0
  = try_except
      (post_reset env target new_target no_reset;;
       verify_flash env target new_target (tail_of env source))
      copy_handlers
      (snd (runner env (mount_point, tail_of env source)
              (thread_started (mount_point, tail_of env source) w1))).
Proof.
  intros Hd Hm Hw Hc.
  rewrite (flash_direct_copy _ _ _ _ _ _ _ Hd Hm).
  unfold flash_copy, flash_prelude, try_except.
  unfold bind at 1 2. rewrite Hw. cbv beta iota.
  unfold bind at 1. rewrite Hc. cbv beta iota.
  unfold watch_and_reset.
  unfold bind at 1 2. rewrite (getitem_some _ _ _ _ Hm). cbv beta iota.
  unfold bind at 1. unfold run_thread at 1. unfold bind at 1, emit at 1. cbv beta iota.
  fold (thread_started (mount_point, tail_of env source) w1).
  set (w2 := snd (runner env _ _)).
  unfold bind.
  destruct (post_reset env target new_target no_reset w2) as [[[]|e] w3]; reflexivity.
Qed.



(** A poll that raises meets no success condition. *)
Lemma second_look_raises_unsettled env drive t :
  second_look_raises env drive t = true -> success_condition env drive t = false.
Proof.
  unfold second_look_raises, success_condition, empty_listing_settled.
  destruct (page_without_image env drive t); cbn; [discriminate |].
  destruct (on_windows env); cbn; [| discriminate].
  destruct (String.eqb _ ""); cbn; [| discriminate].
  now destruct (listdir _ _).
Qed.





(** ** A descriptor without [serial_port] *)

Section WithoutSerialPort.

Variable env : Env.
Variable target : gmap string string.
Hypothesis no_serial_port : target !! "serial_port" = None.

Lemma report_points_without_port changes w d w' :
  report_points target changes w = (Ret (Descriptor d), w') -> d = target.
Proof.
  unfold report_points. intros H.
  destruct (bool_decide (changes = ∅)); cbn [negb] in H; [now inversion H |].
  unfold bind, getitem in H. rewrite no_serial_port in H.
  destruct (has_key changes "serial_port"); discriminate.
Qed.

(** The resolver has nothing to report but the input itself. *)
Lemma check_points_unchanged_without_port w d w' :
  check_points_unchanged env target w = (Ret (Descriptor d), w') -> d = target.
Proof.
  intros H. apply check_points_unchanged_changes in H as (changes & w1 & _ & H).
  now apply report_points_without_port in H.
Qed.

(** Line 255: [target['serial_port']] without the key. *)
Lemma post_reset_without_port w :
  post_reset env target target false w = (Raise (KeyError "serial_port"), w).
Proof.
  unfold post_reset. cbn [negb].
  rewrite (proj2 (has_key_false _ _) no_serial_port).
  unfold bind, getitem. now rewrite no_serial_port.
Qed.

Lemma watch_and_reset_without_port tail w :
  exists w', watch_and_reset env target target false tail w = (Raise (KeyError "serial_port"), w')
             \/ watch_and_reset env target target false tail w = (Raise (KeyError "mount_point"), w').
Proof.
  unfold watch_and_reset.
  destruct (target !! "mount_point") as [mp|] eqn:Hm.
  - step ltac:(apply getitem_some; exact Hm).
    step ltac:(apply run_thread_run).
    rewrite post_reset_without_port. eexists. left. reflexivity.
  - stop ltac:(apply getitem_none; exact Hm). eexists. right. reflexivity.
Qed.

Lemma watch_and_reset_unreset tail : emits_only unreset (watch_and_reset env target target false tail).
Proof.
  unfold watch_and_reset. emits.
  - apply run_thread_emits, not_reset_passive.
  - intros w. exists []. split; [| constructor]. now rewrite post_reset_without_port.
Qed.

Lemma write_phase_unreset source no_reset destination :
  emits_only unreset (write_phase env source target no_reset destination).
Proof.
  unfold write_phase. rewrite (pre_reset_without_port _ _ _ no_serial_port).
  unfold write_image, read_binary, read_file, write_file. emits; reflexivity.
Qed.

Lemma verify_flash_unreset (nt : gmap string string) tail :
  emits_only unreset (verify_flash env target nt tail).
Proof. unfold verify_flash, isfile, read_text, read_file. emits; reflexivity. Qed.

Lemma flash_prelude_without_port source tail destination w :
  (forall nt wv, flash_prelude env source target false tail destination w <> (Ret (Next nt), wv)) /\
  emits_only_from unreset (flash_prelude env source target false tail destination) w.
Proof.
  unfold flash_prelude. split.
  - intros nt wv H. unfold bind at 1 in H.
    destruct (write_phase env source target false destination w) as [[[code|[]]|e] w1];
      try discriminate.
    unfold bind at 1 in H.
    destruct (check_points_unchanged env target w1) as [[[code|d]|e] w2] eqn:E;
      try discriminate.
    apply check_points_unchanged_without_port in E as ->.
    unfold bind at 1 in H.
    destruct (watch_and_reset_without_port tail w2) as (w3 & [Hw|Hw]); rewrite Hw in H;
      discriminate.
  - apply emits_from_bind; [apply write_phase_unreset |].
    intros [code|[]] w1 _; [apply emits_ret |].
    apply emits_from_bind; [apply check_points_unchanged_emits, not_reset_passive |].
    intros [code|d] w2 E; [apply emits_ret |].
    apply check_points_unchanged_without_port in E as ->.
    apply emits_bind; [apply watch_and_reset_unreset | intros []; apply emits_ret].
Qed.

Lemma flash_without_port_unreset source method w :
  direct_copy method ->
  emits_only_from unreset (flash env source target method false) w.
Proof.
  intros Hd. destruct (target !! "mount_point") as [mp|] eqn:Hm.
  - unfold emits_only_from. rewrite (flash_direct_copy _ _ _ _ _ _ _ Hd Hm).
    apply emits_from_try_except.
    + apply emits_from_bind; [apply flash_prelude_without_port |].
      intros [code|nt] w1 _; [apply emits_ret | apply verify_flash_unreset].
    + intros e h H. apply (copy_handlers_emit _ _ _ (fun _ _ => eq_refl) H).
  - exists []. split; [| constructor].
    destruct Hd as [Hp He]. unfold flash.
    rewrite (eqb_neq _ _ Hp), (eqb_neq _ _ He).
    change (bind (ret (Next tt)) ?k w) with (k (Next tt) w). cbv beta iota.
    now rewrite (bind_raise _ _ _ _ _ (getitem_none _ _ w Hm)).
Qed.

End WithoutSerialPort.

(** C10, corrected.  A direct-copy flash with [no_reset] false of a
    descriptor without [serial_port] never calls [reset_board] (the reset
    before the write is skipped in silence) and never reaches the
    verification; when it gets as far as the resolver's descriptor, which
    then is the input itself, it ends with the unhandled [KeyError] of
    [target['serial_port']] in the reset after the watch. *)
Theorem missing_serial_port env source target method w :
  direct_copy method ->
  target !! "serial_port" = None ->
  reset_calls (trace (snd (flash env source target method false w))) = reset_calls (trace w) /\
  (forall new_target wv,
      ~ reaches_verification env source target method false w new_target wv) /\
  (forall mount_point wr new_target w1,
      target !! "mount_point" = Some mount_point ->
      write_phase env source target false (destination_of env mount_point source) w
      = (Ret (Next tt), wr) ->
      check_points_unchanged env target wr = (Ret (Descriptor new_target), w1) ->
      new_target = target /\
      fst (flash env source target method false w) = Raise (KeyError "serial_port")).
Proof.
  intros Hd Hs. split; [| split].
  - destruct (flash_without_port_unreset env target Hs source method w Hd) as (evs & -> & H).
    now apply reset_calls_unchanged.
  - intros new_target wv (_ & mp & Hm & Hp).
    now apply (flash_prelude_without_port env target Hs) in Hp.
  - intros mount_point wr new_target w1 Hm Hw Hc.
    pose proof (check_points_unchanged_without_port env target Hs _ _ _ Hc) as ->.
    split; [reflexivity |].
    rewrite (flash_after_watch _ _ _ _ _ _ _ _ _ _ Hd Hm Hw Hc).
    unfold try_except.
    now rewrite (bind_raise _ _ _ _ _ (post_reset_without_port env target Hs _)).
Qed.

Lemma missing_serial_port_witness :
  fst (flash bare_host "/home/user/fw/image.bin" headless_board "" false (boot 0))
  = Raise (KeyError "serial_port").
Proof.
  destruct (missing_serial_port bare_host "/home/user/fw/image.bin" headless_board "" (boot 0))
    as (_ & _ & Hraise).
  - split; discriminate.
  - reflexivity.
  - apply (Hraise "/media/MBED"
             (snd (write_phase bare_host "/home/user/fw/image.bin" headless_board false
                     "/media/MBED/image.bin" (boot 0)))
             headless_board
             (snd (check_points_unchanged bare_host headless_board
                     (snd (write_phase bare_host "/home/user/fw/image.bin" headless_board false
                             "/media/MBED/image.bin" (boot 0)))))).
    + reflexivity.
    + vm_compute. reflexivity.
    + vm_compute. reflexivity.
Defined.

(** C10 as worded fails: with an empty image the flash of a descriptor
    without [serial_port] returns -7, a value of the outcome type, and
    raises nothing. *)
Lemma missing_serial_port_may_return :
  headless_board !! "serial_port" = None /\
  fst (flash empty_image "/home/user/fw/image.bin" headless_board "" false (boot 0)) = Ret (-7).
Proof. split; vm_compute; reflexivity. Qed.

(** ** Reaching the verification is what the log says *)

Lemma is_verifying_log_true (ev : Event) : is_verifying_log ev = true -> ev = verifying_log.
Proof.
  destruct ev as [lvl fmt args| | | | | | | | | | | | | | | | ]; try discriminate.
  destruct lvl, args; try discriminate.
  cbn. intros H. apply String.eqb_eq in H. now subst.
Qed.

Lemma not_verifying_passive (ev : Event) :
  passive_event ev = true -> is_verifying_log ev = false.
Proof.
  destruct ev; try reflexivity. cbn [passive_event]. now rewrite negb_true_iff.
Qed.

Lemma reset_board_not_verifying env serial_port :
  emits_only (fun ev => is_verifying_log ev = false) (reset_board env serial_port).
Proof. unfold reset_board. emits; reflexivity. Qed.

Lemma flash_prelude_not_verifying env source target no_reset tail destination :
  emits_only (fun ev => is_verifying_log ev = false)
    (flash_prelude env source target no_reset tail destination).
Proof.
  unfold flash_prelude, write_phase, watch_and_reset, pre_reset, post_reset, write_image,
    read_binary, read_file, write_file.
  emits; try reflexivity.
  all: first [ apply reset_board_not_verifying
             | apply check_points_unchanged_emits, not_verifying_passive
             | apply run_thread_emits, not_verifying_passive ].
Qed.

Lemma trace_kept {A} (P : Event -> Prop) (m : M A) (w : World) (ev : Event) :
  emits_only_from P m w -> In ev (trace w) -> In ev (trace (snd (m w))).
Proof. intros (evs & -> & _) H. apply in_or_app. now right. Qed.

Lemma trace_spared {A} (m : M A) (w : World) :
  emits_only_from (fun ev => is_verifying_log ev = false) m w ->
  ~ In verifying_log (trace w) ->
  ~ In verifying_log (trace (snd (m w))).
Proof.
  intros (evs & -> & Hf) Hw Hin. apply in_app_or in Hin as [Hin|Hin]; [| now apply Hw].
  rewrite List.Forall_forall in Hf. specialize (Hf verifying_log Hin). discriminate.
Qed.

(** A direct-copy flash reaches the verification exactly when it writes
    the log line of line 259. *)
Lemma verification_is_logged env source target method no_reset w :
  direct_copy method ->
  ~ In verifying_log (trace w) ->
  In verifying_log (trace (snd (flash env source target method no_reset w))) <->
  exists new_target wv, reaches_verification env source target method no_reset w new_target wv.
Proof.
  intros Hd Hw. split.
  - intros Hin. destruct (target !! "mount_point") as [mp|] eqn:Hm.
    + destruct (flash_prelude env source target no_reset (tail_of env source)
                  (destination_of env mp source) w) as [[[code|nt]|e] w1] eqn:E.
      * exfalso. revert Hin. apply trace_spared; [| exact Hw].
        unfold emits_only_from. rewrite (flash_direct_copy _ _ _ _ _ _ _ Hd Hm).
        apply emits_from_try_except.
        -- apply emits_from_bind; [apply flash_prelude_not_verifying |].
           intros a w' Ha. rewrite E in Ha. injection Ha as <- <-. apply emits_ret.
        -- intros e h H. apply (copy_handlers_emit _ _ _ (fun _ _ => eq_refl) H).
      * exists nt, w1. split; [exact Hd |]. now exists mp.
      * exfalso. revert Hin. apply trace_spared; [| exact Hw].
        unfold emits_only_from. rewrite (flash_direct_copy _ _ _ _ _ _ _ Hd Hm).
        apply emits_from_try_except.
        -- apply emits_from_bind; [apply flash_prelude_not_verifying |].
           intros a w' Ha. rewrite E in Ha. discriminate.
        -- intros e' h H. apply (copy_handlers_emit _ _ _ (fun _ _ => eq_refl) H).
    + exfalso. apply Hw. revert Hin.
      destruct Hd as [Hp He]. unfold flash.
      rewrite (eqb_neq _ _ Hp), (eqb_neq _ _ He).
      change (bind (ret (Next tt)) ?k w) with (k (Next tt) w). cbv beta iota.
      now rewrite (bind_raise _ _ _ _ _ (getitem_none _ _ w Hm)).
  - intros (nt & wv & Hr). rewrite (flash_reached _ _ _ _ _ _ _ _ Hr).
    unfold verify_flash.
    match goal with
    | |- In _ (trace (snd (try_except (bind (log DEBUG "verifying flash" []) ?k) ?h wv))) =>
        change (In verifying_log (trace (snd (try_except (k tt) h (verifying wv)))))
    end.
    apply (trace_kept (fun _ => True)); [| now left].
    apply emits_from_try_except.
    + apply emits_from_any. unfold isfile, read_text, read_file. emits; exact I.
    + intros e h H. apply (copy_handlers_emit _ _ _ (fun _ _ => I) H).
Qed.

(** * Further properties of the flasher *)

(** ** Steps that do not sleep *)

Section Timeless.

Variable env : Env.

Lemma timeless_ret {A} (a : A) : timeless (ret a).
Proof. intros w. reflexivity. Qed.

Lemma timeless_raise {A} (e : Exn) : timeless (@raise A e).
Proof. intros w. reflexivity. Qed.

Lemma timeless_observe {A} (f : Sys -> A) : timeless (observe env f).
Proof. intros w. reflexivity. Qed.

Lemma timeless_time : timeless time.
Proof. intros w. reflexivity. Qed.

Lemma timeless_getitem d key : timeless (getitem d key).
Proof. intros w. unfold getitem. now destruct (d !! key). Qed.

Lemma timeless_getindex l i : timeless (getindex l i).
Proof. intros w. unfold getindex. now destruct (l !! i). Qed.

Lemma timeless_emit ev : timeless (emit ev).
Proof. intros w. reflexivity. Qed.

Lemma timeless_log lvl fmt args : timeless (log lvl fmt args).
Proof. intros w. reflexivity. Qed.

Lemma timeless_bind {A B} (m : M A) (k : A -> M B) :
  timeless m -> (forall a, timeless (k a)) -> timeless (bind m k).
Proof.
  intros Hm Hk w. unfold bind. specialize (Hm w).
  destruct (m w) as [[a|e] w1]; cbn in *; [| exact Hm].
  now rewrite Hk.
Qed.

Lemma timeless_try_except {A} (body : M A) handler :
  timeless body ->
  (forall e h, handler e = Some h -> timeless h) ->
  timeless (try_except body handler).
Proof.
  intros Hm Hh w. unfold try_except. specialize (Hm w).
  destruct (body w) as [[a|e] w1]; cbn in *; [exact Hm |].
  destruct (handler e) as [h|] eqn:E; [| exact Hm].
  now rewrite (Hh e h E).
Qed.

End Timeless.

Ltac no_time :=
  repeat match goal with
    | |- timeless (ret _) => apply timeless_ret
    | |- timeless (raise _) => apply timeless_raise
    | |- timeless (observe _ _) => apply timeless_observe
    | |- timeless time => apply timeless_time
    | |- timeless (getitem _ _) => apply timeless_getitem
    | |- timeless (getindex _ _) => apply timeless_getindex
    | |- timeless (emit _) => apply timeless_emit
    | |- timeless (log _ _ _) => apply timeless_log
    | |- timeless (bind _ _) => apply timeless_bind; [| intros ?]
    | |- timeless (command _ _) => unfold command
    | |- timeless (if ?b then _ else _) => destruct b
    | |- timeless (match ?x with _ => _ end) => destruct x
    end.

Lemma reset_board_timeless env serial_port : timeless (reset_board env serial_port).
Proof. unfold reset_board. no_time. Qed.

Lemma auxiliary_drive_check_timeless env drive : timeless (auxiliary_drive_check env drive).
Proof. unfold auxiliary_drive_check. no_time. Qed.

Lemma scan_serial_by_id_timeless target lines new_target :
  timeless (scan_serial_by_id target lines new_target).
Proof.
  revert new_target. induction lines as [|line rest IH]; intros new_target;
    cbn [scan_serial_by_id]; no_time; apply IH.
Qed.

Lemma scan_disk_by_id_timeless target lines new_target :
  timeless (scan_disk_by_id target lines new_target).
Proof.
  revert new_target. induction lines as [|line rest IH]; intros new_target;
    cbn [scan_disk_by_id]; no_time; apply IH.
Qed.

(** The resolution does not wait: the only [sleep] of
    [check_points_unchanged] is in the loop that never runs. *)
Lemma check_points_unchanged_timeless env target :
  timeless (check_points_unchanged env target).
Proof.
  unfold check_points_unchanged, com_port_resolution, by_id_resolution, report_points.
  change (negb (bool_decide (@nil string = []))) with false. cbv iota.
  no_time.
  all: first [apply scan_serial_by_id_timeless | apply scan_disk_by_id_timeless].
Qed.

Lemma write_image_timeless env source destination :
  timeless (write_image env source destination).
Proof. unfold write_image, read_binary, read_file, write_file. no_time. Qed.

Lemma verify_flash_timeless env target new_target tail :
  timeless (verify_flash env target new_target tail).
Proof. unfold verify_flash, isfile, read_text, read_file. no_time. Qed.

Lemma copy_handlers_timeless e h : copy_handlers e = Some h -> timeless h.
Proof. intros H. destruct e; cbn in H; inversion H; subst; no_time. Qed.

(** ** How long the watch lasts *)

Lemma after_polls_clock env drive k w :
  now w + 2000 * Z.of_nat k <= now (after_polls env drive k w).
Proof.
  induction k as [|k IH]; [cbn; lia |].
  cbn [after_polls].
  pose proof (runner_poll_takes_time env drive (after_polls env drive k w)). lia.
Qed.

Lemma loop_leaves_world env drive fuel start_time w n :
  loop_leaves_at env drive fuel start_time w n ->
  now (snd (runner_loop env fuel drive start_time w)) = now (after_polls env drive (S n) w).
Proof. intros [[_ ->]|[(_ & _ & ->)|(e & _ & ->)]]; reflexivity. Qed.

Lemma sleeps_app evs1 evs2 : sleeps (evs1 ++ evs2) = (sleeps evs1 + sleeps evs2)%nat.
Proof. unfold sleeps. now rewrite List.filter_app, List.length_app. Qed.

(** A poll sleeps once. *)
Lemma runner_poll_sleeps env drive w :
  exists evs,
    trace (snd (runner_poll env drive w)) = (evs ++ trace w)%list /\ sleeps evs = 1%nat.
Proof.
  unfold runner_poll.
  erewrite bind_ret by reflexivity.
  erewrite bind_ret by apply command_run.
  set (cmd := ((if on_windows env then "dir " else "ls ") ++ fst drive)%string).
  assert (forall (b : bool) w',
             trace w' = ([Command cmd; Sleep 2000] ++ trace w)%list ->
             exists evs,
               trace (snd (ret b w')) = (evs ++ trace w)%list /\ sleeps evs = 1%nat) as Hret.
  { intros b w' H. exists [Command cmd; Sleep 2000]. now split. }
  destruct (PyStr.found _ ".HTM" && negb (PyStr.found _ (snd drive)));
    [now apply Hret |].
  destruct (on_windows env && String.eqb _ ""); [| now apply Hret].
  exists [ListDir (fst drive); Command cmd; Sleep 2000]. split; [| reflexivity].
  unfold auxiliary_drive_check, bind, emit, observe. cbn [fst snd now trace].
  destruct (listdir _ (fst drive)) as [entries|]; [| reflexivity].
  destruct (existsb _ entries); [| reflexivity].
  destruct (negb (bool_decide (snd drive ∈ entries))); reflexivity.
Qed.

Lemma after_polls_sleeps env drive k w :
  exists evs,
    trace (after_polls env drive k w) = (evs ++ trace w)%list /\ sleeps evs = k.
Proof.
  induction k as [|k (evs & Ht & Hs)]; [now exists [] |].
  cbn [after_polls].
  destruct (runner_poll_sleeps env drive (after_polls env drive k w)) as (evs' & Ht' & Hs').
  exists (evs' ++ evs)%list. split.
  - now rewrite Ht', Ht, List.app_assoc.
  - rewrite sleeps_app. lia.
Qed.

(** X1.  The remount watch sleeps at least once and at most 51 times, two
    seconds each time, so it lasts at least two seconds for every sleep it
    made; when it ends by the timeout, more than 100 seconds have passed;
    and it is over by the 51st poll. *)
Theorem runner_duration env drive w :
  let run := runner env drive w in
  2000 <= now (snd run) - now w /\
  (fst run = Ret (Some TimedOut) -> 100000 < now (snd run) - now w) /\
  fst run <> Ret None /\
  exists evs,
    trace (snd run) = (evs ++ trace w)%list /\
    (1 <= sleeps evs <= 51)%nat /\
    2000 * Z.of_nat (sleeps evs) <= now (snd run) - now w.
Proof.
  cbv zeta.
  destruct (runner_leaves env drive w) as (n & Hn & Hgo & Hleave).
  change max_polls with 51%nat in Hn.
  rewrite runner_start.
  pose proof (after_polls_clock env drive (S n) w) as Hlow.
  destruct (after_polls_sleeps env drive (S n) w) as (evs & Ht & Hs).
  pose proof (loop_leaves_world _ _ _ _ _ _ Hleave) as Hw.
  split; [lia |]. split; [| split].
  - destruct Hleave as [[_ H]|[(_ & Hout & _)|(e & _ & H)]].
    + rewrite H. discriminate.
    + unfold FLASHING_VERIFICATION_TIMEOUT in Hout. lia.
    + rewrite H. discriminate.
  - now apply loop_leaves_not_running in Hleave.
  - destruct Hleave as [[_ H]|[(_ & _ & H)|(e & _ & H)]]; rewrite H in *; cbn [snd] in *.
    + exists evs. split; [exact Ht |]. split; lia.
    + exists (Log DEBUG "re-mount check timed out for %s" [AStr (fst drive)] :: evs).
      split; [unfold timed_out_log; cbn [trace]; now rewrite Ht |].
      change (sleeps (_ :: evs)) with (sleeps evs). cbn [timed_out_log now] in *.
      split; lia.
    + exists evs. split; [exact Ht |]. split; lia.
Qed.

(** ** How long a flash lasts *)

Lemma reset_board_run env serial_port w :
  exists v w1, reset_board env serial_port w = (Ret v, w1) /\ now w1 = now w.
Proof.
  destruct (reset_board_returns env serial_port w) as [v Hv].
  pose proof (reset_board_timeless env serial_port w) as Ht.
  destruct (reset_board env serial_port w) as [r w1]. cbn in *. subst. eauto.
Qed.

Lemma pre_reset_clock env target no_reset w :
  now (snd (pre_reset env target no_reset w))
  = if has_key target "serial_port" && negb no_reset
    then now w + 100 + Z.of_N (latency (sys_at env (now w)))
    else now w.
Proof.
  unfold pre_reset.
  destruct (has_key target "serial_port") eqn:E; [| reflexivity].
  destruct no_reset; [reflexivity |]. cbn [andb negb].
  apply has_key_true in E as [port E].
  step ltac:(apply getitem_some; exact E).
  destruct (reset_board_run env port w) as (v & w1 & Hr & Hn).
  step ltac:(exact Hr). unfold sleep. cbn. now rewrite Hn.
Qed.

Lemma post_reset_clock env target new_target no_reset w wv :
  post_reset env target new_target no_reset w = (Ret tt, wv) ->
  now wv = if no_reset then now w else now w + 400 + Z.of_N (latency (sys_at env (now w))).
Proof.
  unfold post_reset. destruct no_reset; cbn [negb]; [now intros [= <-] |].
  intros H. unfold bind at 1 in H.
  assert (forall (d : gmap string string),
             forall r w1,
               (serial_port <- getitem d "serial_port";; reset_board env serial_port;; ret tt) w
               = (r, w1) -> now w1 = now w) as Hreset.
  { intros d r w1 Hd. unfold bind at 1 in Hd. unfold getitem in Hd.
    destruct (d !! "serial_port") as [port|]; [| now inversion Hd].
    cbn in Hd. destruct (reset_board_run env port w) as (v & w2 & Hr & Hn).
    rewrite (bind_ret _ _ _ _ _ Hr) in Hd. inversion Hd. now subst. }
  destruct (has_key new_target "serial_port").
  - destruct ((serial_port <- getitem new_target "serial_port";;
               reset_board env serial_port;; ret tt) w) as [[[]|e] w1] eqn:E;
      [| discriminate].
    apply Hreset in E. unfold sleep in H. inversion H. cbn. now rewrite E.
  - destruct ((serial_port <- getitem target "serial_port";;
               reset_board env serial_port;; ret tt) w) as [[[]|e] w1] eqn:E;
      [| discriminate].
    apply Hreset in E. unfold sleep in H. inversion H. cbn. now rewrite E.
Qed.

Lemma write_phase_clock env source target no_reset destination w w2 :
  write_phase env source target no_reset destination w = (Ret (Next tt), w2) ->
  now w2 = now (snd (pre_reset env target no_reset w)) + 4000
           + Z.of_N (latency (sys_at env (now (snd (pre_reset env target no_reset w))))).
Proof.
  unfold write_phase. rewrite (bind_ret _ _ _ _ _ (pre_reset_run _ _ _ _)).
  set (w1 := snd (pre_reset env target no_reset w)).
  intros H. unfold bind at 1 in H.
  pose proof (write_image_timeless env source destination w1) as Ht.
  destruct (write_image env source destination w1) as [[[code|[]]|e] w1']; cbn in Ht;
    try discriminate.
  unfold bind, sleep, ret in H. inversion H. cbn. now rewrite Ht.
Qed.

Lemma flash_prelude_reached env source target no_reset tail destination w new_target wv :
  flash_prelude env source target no_reset tail destination w = (Ret (Next new_target), wv) ->
  exists w2 w3,
    write_phase env source target no_reset destination w = (Ret (Next tt), w2) /\
    check_points_unchanged env target w2 = (Ret (Descriptor new_target), w3) /\
    watch_and_reset env target new_target no_reset tail w3 = (Ret tt, wv).
Proof.
  unfold flash_prelude. intros H. unfold bind at 1 in H.
  destruct (write_phase env source target no_reset destination w) as [[[code|[]]|e] w2] eqn:E1;
    try discriminate.
  unfold bind at 1 in H.
  destruct (check_points_unchanged env target w2) as [[[code|d]|e] w3] eqn:E2;
    try discriminate.
  unfold bind at 1 in H.
  destruct (watch_and_reset env target d no_reset tail w3) as [[[]|e] w4] eqn:E3;
    try discriminate.
  inversion H; subst. now exists w2, w3.
Qed.

Lemma watch_and_reset_run env target new_target no_reset tail w wv :
  watch_and_reset env target new_target no_reset tail w = (Ret tt, wv) ->
  exists mount_point,
    target !! "mount_point" = Some mount_point /\
    post_reset env target new_target no_reset
      (snd (runner env (mount_point, tail) (thread_started (mount_point, tail) w)))
    = (Ret tt, wv).
Proof.
  unfold watch_and_reset. intros H.
  destruct (target !! "mount_point") as [mp|] eqn:Hm.
  - rewrite (bind_ret _ _ _ _ _ (getitem_some _ _ _ w Hm)) in H.
    rewrite (bind_ret _ _ _ _ _ (run_thread_run _ _ _)) in H.
    now exists mp.
  - rewrite (bind_raise _ _ _ _ _ (getitem_none _ _ w Hm)) in H. discriminate.
Qed.

(** X2.  A direct-copy flash that reaches the verification has lasted at
    least six seconds (the settle delay and one poll of the watch), and at
    least 6.5 seconds when it resets the board (the two waits after the
    resets come on top). *)
Theorem flash_duration env source target method no_reset w new_target wv :
  reaches_verification env source target method no_reset w new_target wv ->
  6000 <= now wv - now w /\
  (no_reset = false -> 6500 <= now wv - now w).
Proof.
  intros (_ & mp & Hm & Hp).
  pose proof Hp as Hreach.
  apply flash_prelude_reached in Hp as (w2 & w3 & Hwrite & Hcheck & Hwatch).
  apply write_phase_clock in Hwrite.
  pose proof (pre_reset_clock env target no_reset w) as Hpre.
  pose proof (check_points_unchanged_timeless env target w2) as Hres.
  rewrite Hcheck in Hres. cbn [snd] in Hres.
  apply watch_and_reset_run in Hwatch as (mp' & Hm' & Hpost).
  apply post_reset_clock in Hpost.
  set (w1 := snd (pre_reset env target no_reset w)) in *.
  set (w4 := snd (runner env (mp', tail_of env source)
                    (thread_started (mp', tail_of env source) w3))) in *.
  assert (now w <= now w1) as Hpre_low.
  { rewrite Hpre. destruct (_ && _); lia. }
  assert (2000 <= now w4 - now w3) as Hrun_low.
  { pose proof (runner_leaves env (mp', tail_of env source)
                  (thread_started (mp', tail_of env source) w3)) as (n & _ & _ & Hleave).
    unfold w4. rewrite runner_start, (loop_leaves_world _ _ _ _ _ _ Hleave).
    pose proof (after_polls_clock env (mp', tail_of env source) (S n)
                  (thread_started (mp', tail_of env source) w3)) as H.
    cbn [thread_started now] in H. lia. }
  split.
  - destruct no_reset; lia.
  - intros Hno. destruct (target !! "serial_port") as [port|] eqn:Esp.
    + rewrite (proj2 (has_key_true target "serial_port")), Hno in Hpre by eauto.
      cbn [andb negb] in Hpre. rewrite Hno in Hpost. lia.
    + exfalso. rewrite Hno in Hreach.
      exact (proj1 (flash_prelude_without_port env target Esp source _ _ w) _ _ Hreach).
Qed.

Lemma flash_duration_witness :
  6500 <= now (snd (flash_prelude slow_host "/home/user/fw/image.bin" board false "image.bin"
                      "/media/MBED/image.bin" (boot 0))) - 0.
Proof.
  pose (pre := flash_prelude slow_host "/home/user/fw/image.bin" board false "image.bin"
                 "/media/MBED/image.bin" (boot 0)).
  destruct (flash_duration slow_host "/home/user/fw/image.bin" board "" false (boot 0)
              {[ "dev_point" := "/dev/sdb"; "target_id" := "0240" ]} (snd pre))
    as (_ & Hlow).
  - split; [split; discriminate |].
    exists "/media/MBED". split; [reflexivity | vm_compute; reflexivity].
  - now apply Hlow.
Defined.

(** ** What a step can return and raise *)

Lemma returns_only_ret {A} (Q : A -> Prop) (a : A) : Q a -> returns_only Q (ret a).
Proof. intros H w a' w' [= <- _]. exact H. Qed.

Lemma returns_only_raise {A} (Q : A -> Prop) (e : Exn) : returns_only Q (raise e).
Proof. intros w a w' H. discriminate. Qed.

Lemma returns_only_bind {A B} (Qa : A -> Prop) (Q : B -> Prop) (m : M A) (k : A -> M B) :
  returns_only Qa m ->
  (forall a, Qa a -> returns_only Q (k a)) ->
  returns_only Q (bind m k).
Proof.
  intros Hm Hk w b w' H. unfold bind in H.
  destruct (m w) as [[a|e] w1] eqn:E; [| discriminate].
  exact (Hk a (Hm _ _ _ E) _ _ _ H).
Qed.

Lemma returns_only_any {A} (m : M A) : returns_only (fun _ => True) m.
Proof. intros w a w' _. exact I. Qed.

Lemma returns_only_try_except {A} (Q : A -> Prop) (body : M A) handler :
  returns_only Q body ->
  (forall e h, handler e = Some h -> returns_only Q h) ->
  returns_only Q (try_except body handler).
Proof.
  intros Hm Hh w a w' H. unfold try_except in H.
  destruct (body w) as [[a'|e] w1] eqn:E.
  - inversion H; subst. exact (Hm _ _ _ E).
  - destruct (handler e) as [h|] eqn:Eh; [| discriminate].
    exact (Hh e h Eh _ _ _ H).
Qed.

Lemma raises_only_ret {A} (E : Exn -> Prop) (a : A) : raises_only E (ret a).
Proof. intros w e w' H. discriminate. Qed.

Lemma raises_only_raise {A} (E : Exn -> Prop) (e : Exn) : E e -> raises_only E (@raise A e).
Proof. intros H w e' w' [= <- _]. exact H. Qed.

Lemma raises_only_observe {A} env (E : Exn -> Prop) (f : Sys -> A) :
  raises_only E (observe env f).
Proof. intros w e w' H. discriminate. Qed.

Lemma raises_only_time (E : Exn -> Prop) : raises_only E time.
Proof. intros w e w' H. discriminate. Qed.

Lemma raises_only_emit (E : Exn -> Prop) ev : raises_only E (emit ev).
Proof. intros w e w' H. discriminate. Qed.

Lemma raises_only_log (E : Exn -> Prop) lvl fmt args : raises_only E (log lvl fmt args).
Proof. intros w e w' H. discriminate. Qed.

Lemma raises_only_sleep env (E : Exn -> Prop) ms : raises_only E (sleep env ms).
Proof. intros w e w' H. discriminate. Qed.

Lemma raises_only_getitem (E : Exn -> Prop) d key :
  E (KeyError key) -> raises_only E (getitem d key).
Proof.
  intros H w e w' Hr. unfold getitem in Hr.
  destruct (d !! key); [discriminate |]. now inversion Hr.
Qed.

Lemma raises_only_bind {A B} (E : Exn -> Prop) (m : M A) (k : A -> M B) :
  raises_only E m -> (forall a, raises_only E (k a)) -> raises_only E (bind m k).
Proof.
  intros Hm Hk w e w' H. unfold bind in H.
  destruct (m w) as [[a|e'] w1] eqn:Em.
  - exact (Hk a _ _ _ H).
  - inversion H; subst. exact (Hm _ _ _ Em).
Qed.

Lemma raises_only_try_except {A} (E' E : Exn -> Prop) (body : M A) handler :
  raises_only E' body ->
  (forall e, E' e ->
             match handler e with
             | Some h => raises_only E h
             | None => E e
             end) ->
  raises_only E (try_except body handler).
Proof.
  intros Hm Hh w e w' H. unfold try_except in H.
  destruct (body w) as [[a|e'] w1] eqn:Em; [discriminate |].
  specialize (Hh e' (Hm _ _ _ Em)).
  destruct (handler e') as [h|].
  - exact (Hh _ _ _ H).
  - now inversion H; subst.
Qed.

Ltac may_raise :=
  repeat match goal with
    | |- raises_only _ (ret _) => apply raises_only_ret
    | |- raises_only _ (raise _) => apply raises_only_raise
    | |- raises_only _ (observe _ _) => apply raises_only_observe
    | |- raises_only _ time => apply raises_only_time
    | |- raises_only _ (getitem _ _) => apply raises_only_getitem
    | |- raises_only _ (emit _) => apply raises_only_emit
    | |- raises_only _ (log _ _ _) => apply raises_only_log
    | |- raises_only _ (sleep _ _) => apply raises_only_sleep
    | |- raises_only _ (bind _ _) => apply raises_only_bind; [| intros ?]
    | |- raises_only _ (command _ _) => unfold command
    | |- raises_only _ (if ?b then _ else _) => destruct b
    | |- raises_only _ (match ?x with _ => _ end) => destruct x
    end.

Lemma key_error_allowed key : key_or_io_error (KeyError key).
Proof. left. now exists key. Qed.

Lemma io_error_allowed path : key_or_io_error (IOError path).
Proof. right. now exists path. Qed.

Lemma reset_board_never_raises env (E : Exn -> Prop) serial_port :
  raises_only E (reset_board env serial_port).
Proof. unfold reset_board. may_raise. Qed.

Lemma run_thread_never_raises env (E : Exn -> Prop) drive :
  raises_only E (run_thread env drive).
Proof. intros w e w' H. rewrite run_thread_run in H. discriminate. Qed.

Lemma scan_serial_by_id_raises target lines new_target :
  raises_only is_key_error (scan_serial_by_id target lines new_target).
Proof.
  revert new_target. induction lines as [|line rest IH]; intros new_target;
    cbn [scan_serial_by_id]; may_raise; first [apply IH | eexists; reflexivity].
Qed.

Lemma scan_disk_by_id_raises target lines new_target :
  raises_only is_key_error (scan_disk_by_id target lines new_target).
Proof.
  revert new_target. induction lines as [|line rest IH]; intros new_target;
    cbn [scan_disk_by_id]; may_raise; first [apply IH | eexists; reflexivity].
Qed.

(** The resolution raises nothing but the [KeyError] of a missing
    descriptor field. *)
Lemma check_points_unchanged_raises env target :
  raises_only is_key_error (check_points_unchanged env target).
Proof.
  unfold check_points_unchanged, com_port_resolution, by_id_resolution, report_points.
  change (negb (bool_decide (@nil string = []))) with false. cbv iota.
  may_raise.
  all: first [ apply scan_serial_by_id_raises | apply scan_disk_by_id_raises
             | eexists; reflexivity ].
Qed.

Lemma raises_only_weaken {A} (E E' : Exn -> Prop) (m : M A) :
  (forall e, E e -> E' e) -> raises_only E m -> raises_only E' m.
Proof. intros H Hm w e w' Hr. exact (H e (Hm _ _ _ Hr)). Qed.

Ltac may_return :=
  repeat match goal with
    | |- returns_only _ (ret _) => apply returns_only_ret
    | |- returns_only _ (raise _) => apply returns_only_raise
    | |- returns_only _ (bind _ _) =>
        eapply returns_only_bind; [apply returns_only_any | intros ? _]
    | |- returns_only _ (if ?b then _ else _) => destruct b
    | |- returns_only _ (match ?x with _ => _ end) => destruct x
    end.

Lemma returns_only_weaken {A} (Q Q' : A -> Prop) (m : M A) :
  (forall a, Q a -> Q' a) -> returns_only Q m -> returns_only Q' m.
Proof. intros H Hm w a w' Hr. exact (H a (Hm _ _ _ Hr)). Qed.

Lemma returns_only_try_raised {A} (Q : A -> Prop) (E : Exn -> Prop) (body : M A) handler :
  returns_only Q body ->
  raises_only E body ->
  (forall e h, E e -> handler e = Some h -> returns_only Q h) ->
  returns_only Q (try_except body handler).
Proof.
  intros Hm He Hh w a w' H. unfold try_except in H.
  destruct (body w) as [[a'|e] w1] eqn:Eb.
  - inversion H; subst. exact (Hm _ _ _ Eb).
  - destruct (handler e) as [h|] eqn:Eh; [| discriminate].
    exact (Hh e h (He _ _ _ Eb) Eh _ _ _ H).
Qed.

Lemma darwin_not_windows env : on_darwin env = true -> on_windows env = false.
Proof.
  unfold on_darwin, on_windows. intros H. apply String.eqb_eq in H. now rewrite H.
Qed.

(** *** The parts of the direct copy *)

Lemma verify_flash_returns env target new_target tail :
  returns_only (fun code => In code [0; -4; -15]) (verify_flash env target new_target tail).
Proof. unfold verify_flash. may_return; cbn [In]; lia. Qed.

Lemma write_phase_returns env source target no_reset destination :
  returns_only (fun written => written = Next tt \/
                               (written = Return (-7) /\ on_windows env = false))
    (write_phase env source target no_reset destination).
Proof.
  unfold write_phase. eapply returns_only_bind; [apply returns_only_any | intros _ _].
  eapply returns_only_bind with
    (Qa := fun written => written = Next tt \/
                          (written = Return (-7) /\ on_windows env = false)).
  - unfold write_image. destruct (on_windows env); may_return; auto.
  - intros written [->|[-> Hw]]; may_return; auto.
Qed.

Lemma check_points_unchanged_returns env target :
  returns_only (fun resolved =>
                  match resolved with
                  | Code code => (code = -10 \/ code = -11) /\
                                 on_windows env = false /\ on_darwin env = false
                  | Descriptor _ => True
                  end)
    (check_points_unchanged env target).
Proof.
  intros w [code|d] w' H; [| exact I].
  split; [now apply check_points_unchanged_codes in H |].
  unfold check_points_unchanged in H. unfold bind at 1 in H.
  assert (forall changes w1, report_points target changes w1 <> (Ret (Code code), w')) as Hr.
  { intros changes w1 Hc. unfold report_points, bind, getitem, log, emit in Hc.
    repeat match type of Hc with
      | context [if ?b then _ else _] => destruct b; cbn in Hc
      | context [match ?x !! ?k with _ => _ end] => destruct (x !! k) eqn:?; cbn in Hc
      end; discriminate. }
  destruct (on_windows env).
  - exfalso.
    destruct (com_port_resolution env target w) as [[[c|changes]|e] w1] eqn:E;
      [| now apply Hr in H | discriminate].
    unfold com_port_resolution, bind, getitem, emit, observe in E.
    repeat match type of E with
      | context [if ?b then _ else _] => destruct b; cbn in E
      | context [match ?x !! ?k with _ => _ end] => destruct (x !! k) eqn:?; cbn in E
      end; discriminate.
  - destruct (on_darwin env); [exfalso; now apply Hr in H | now split].
Qed.

Lemma flash_prelude_returns env source target no_reset tail destination :
  returns_only (fun reached =>
                  match reached with
                  | Return code =>
                      (code = -7 /\ on_windows env = false) \/
                      ((code = -10 \/ code = -11) /\
                       on_windows env = false /\ on_darwin env = false)
                  | Next _ => True
                  end)
    (flash_prelude env source target no_reset tail destination).
Proof.
  unfold flash_prelude.
  eapply returns_only_bind; [apply write_phase_returns |].
  intros written [->|[-> Hw]]; [| apply returns_only_ret; auto].
  eapply returns_only_bind; [apply check_points_unchanged_returns |].
  intros [code|d] H; [apply returns_only_ret; auto |].
  may_return. exact I.
Qed.

(** Inside the [try] block of the direct copy. *)
Lemma flash_body_raises env source target no_reset tail destination :
  raises_only (fun e => key_or_io_error e \/
                        ((exists path, e = OSError path) /\ on_windows env = false))
    (reached <- flash_prelude env source target no_reset tail destination;;
     match reached with
     | Return code => ret code
     | Next new_target => verify_flash env target new_target tail
     end).
Proof.
  unfold flash_prelude, write_phase, watch_and_reset, pre_reset, post_reset, write_image,
    verify_flash, read_binary, read_text, read_file, write_file, isfile.
  destruct (on_windows env) eqn:Hw; may_raise.
  all: try (left; first [apply key_error_allowed | apply io_error_allowed]).
  all: try apply reset_board_never_raises.
  all: try apply run_thread_never_raises.
  all: try (eapply raises_only_weaken; [| apply check_points_unchanged_raises];
            intros e [key ->]; left; apply key_error_allowed).
  all: right; split; [eexists; reflexivity | reflexivity].
Qed.

Example windows_flash :
  fst (flash windows_host "C:\fw\image.bin" windows_board "" false (boot 0)) = Ret 0 /\
  In (SystemCmd "copy C:\fw\image.bin E:\image.bin")
     (trace (snd (flash windows_host "C:\fw\image.bin" windows_board "" false (boot 0)))).
Proof. split; [vm_compute; reflexivity |]. vm_compute. tauto. Qed.

Example mac_flash :
  fst (flash mac_host "/Users/user/fw/image.bin" mac_board "" false (boot 0)) = Ret 0 /\
  In (WriteFile "/Volumes/MBED/image.bin" ["O_CREAT"; "O_TRUNC"; "O_RDWR"; "O_SYNC"] "FIRMWARE")
     (trace (snd (flash mac_host "/Users/user/fw/image.bin" mac_board "" false (boot 0)))).
Proof. split; [vm_compute; reflexivity |]. vm_compute. tauto. Qed.

(** ** The outcomes of a flash *)

Lemma flash_copy_returns env source target no_reset tail destination :
  returns_only (fun code =>
                  In code [0; -4; -15] \/
                  ((code = -7 \/ code = -14) /\ on_windows env = false) \/
                  ((code = -10 \/ code = -11) /\
                   on_windows env = false /\ on_darwin env = false))
    (flash_copy env source target no_reset tail destination).
Proof.
  unfold flash_copy.
  eapply returns_only_try_raised; [| apply flash_body_raises |].
  - eapply returns_only_bind; [apply flash_prelude_returns |].
    intros [code|d] H.
    + apply returns_only_ret. destruct H as [[-> Hw]|H]; auto.
    + eapply returns_only_weaken; [| apply verify_flash_returns]. auto.
  - intros e h He H. destruct e; cbn in H; inversion H; subst h; clear H.
    + may_return.
    + may_return. right; left. split; [auto |].
      destruct He as [[[key Hk]|[p Hp]]|[_ Hw]]; [discriminate | discriminate | exact Hw].
Qed.

Lemma flash_pyocd_returns env source target :
  returns_only (fun code => code = 0 \/ code = -4) (flash_pyocd env source target).
Proof.
  unfold flash_pyocd. apply returns_only_try_except.
  - may_return. auto.
  - intros e h H. destruct e; inversion H; subst. may_return. auto.
Qed.

(** X3.  Whatever the board, the host and the method, a flash that returns
    returns one of 0, -4, -7, -8, -10, -11, -13, -14 and -15: never the -6 of
    a failed reset, never -12. *)
Theorem flash_return_codes env source target method no_reset w code w' :
  flash env source target method no_reset w = (Ret code, w') ->
  In code flash_codes /\ code <> -6 /\ code <> -12.
Proof.
  intros H.
  assert (In code flash_codes) as Hin.
  { revert w code w' H.
    change (returns_only (fun code => In code flash_codes)
              (flash env source target method no_reset)).
    unfold flash.
    eapply returns_only_bind with (Qa := fun ready => ready = Next tt \/ ready = Return (-8)).
    { may_return; auto. }
    intros ready [-> | ->].
    - destruct (String.eqb method "edbg"); [may_return; cbn; lia |].
      eapply returns_only_bind; [apply returns_only_any | intros mp _].
      destruct (String.eqb method "pyocd").
      + eapply returns_only_weaken; [| apply flash_pyocd_returns].
        intros c [->| ->]; cbn; lia.
      + eapply returns_only_weaken; [| apply flash_copy_returns].
        unfold flash_codes. cbn [In]. intros c. lia.
    - may_return. cbn. lia. }
  split; [exact Hin |].
  unfold flash_codes in Hin. cbn [In] in Hin. lia.
Qed.

Lemma flash_return_codes_witness :
  In (-15) flash_codes /\ -15 <> -6 /\ -15 <> -12.
Proof.
  apply (flash_return_codes idle_board "/home/user/fw/image.bin" board "" false (boot 0) (-15)
           (snd (flash idle_board "/home/user/fw/image.bin" board "" false (boot 0)))).
  vm_compute. reflexivity.
Defined.

Lemma flash_without_mount_point env source target method no_reset w :
  direct_copy method ->
  target !! "mount_point" = None ->
  flash env source target method no_reset w = (Raise (KeyError "mount_point"), w).
Proof.
  intros [Hp He] Hm. unfold flash.
  rewrite (eqb_neq _ _ Hp), (eqb_neq _ _ He).
  change (bind (ret (Next tt)) ?k w) with (k (Next tt) w). cbv beta iota.
  now rewrite (bind_raise _ _ _ _ _ (getitem_none _ _ w Hm)).
Qed.

(** X4.  The codes of a direct copy depend on the platform: on Windows
    it returns 0, -4 or -15 only (no test for an empty image, no failed
    write, no ambiguous identity); on Darwin also -7 and -14; -10 and -11
    come from the by-id platform family alone. *)
Theorem direct_copy_codes env source target method no_reset w code w' :
  direct_copy method ->
  flash env source target method no_reset w = (Ret code, w') ->
  In code [0; -4; -7; -10; -11; -14; -15] /\
  (on_windows env = true -> In code [0; -4; -15]) /\
  (on_darwin env = true -> In code [0; -4; -7; -14; -15]).
Proof.
  intros Hd H.
  destruct (target !! "mount_point") as [mp|] eqn:Hm;
    [| rewrite (flash_without_mount_point _ _ _ _ _ _ Hd Hm) in H; discriminate].
  rewrite (flash_direct_copy _ _ _ _ _ _ _ Hd Hm) in H.
  apply flash_copy_returns in H. cbn [In] in *.
  split; [lia | split].
  - intros Hw. rewrite Hw in H. intuition (try discriminate; lia).
  - intros Hmac. pose proof (darwin_not_windows env Hmac) as Hw.
    rewrite Hmac in H. intuition (try discriminate; lia).
Qed.

Lemma direct_copy_codes_witness : In 0 [0; -4; -15].
Proof.
  apply (direct_copy_codes windows_host "C:\fw\image.bin" windows_board "" false (boot 0) 0
           (snd (flash windows_host "C:\fw\image.bin" windows_board "" false (boot 0)))).
  - split; discriminate.
  - vm_compute. reflexivity.
  - reflexivity.
Defined.

(** X5.  A direct copy lets two kinds of exception through: the
    [KeyError] of a missing descriptor field and the [IOError] of a file
    that cannot be read; the [OSError] of a failed write never leaves
    [flash]. *)
Theorem direct_copy_raises env source target method no_reset w e w' :
  direct_copy method ->
  flash env source target method no_reset w = (Raise e, w') ->
  key_or_io_error e.
Proof.
  intros Hd H.
  destruct (target !! "mount_point") as [mp|] eqn:Hm.
  - rewrite (flash_direct_copy _ _ _ _ _ _ _ Hd Hm) in H.
    revert w e w' H.
    change (raises_only key_or_io_error
              (flash_copy env source target no_reset (tail_of env source)
                 (destination_of env mp source))).
    unfold flash_copy.
    eapply raises_only_try_except; [apply flash_body_raises |].
    intros e [[[key ->]|[path ->]]|[[path ->] _]]; cbn.
    + apply key_error_allowed.
    + may_raise. apply io_error_allowed.
    + may_raise.
  - rewrite (flash_without_mount_point _ _ _ _ _ _ Hd Hm) in H.
    inversion H. apply key_error_allowed.
Qed.

Lemma direct_copy_raises_witness : key_or_io_error (IOError "/home/user/fw/image.bin").
Proof.
  apply (direct_copy_raises lost_image "/home/user/fw/image.bin" board "" false (boot 0) _
           (snd (flash lost_image "/home/user/fw/image.bin" board "" false (boot 0)))).
  - split; discriminate.
  - vm_compute. reflexivity.
Defined.

(** ** A write that fails (lines 236-238, 283-286) *)

(** X6.  Off Windows, when the image is read and [os.write] fails, the
    flash returns -14 at once: the error is logged, and there is no settle
    delay, no resolution, no watch, no second reset and no verification. *)
Theorem failed_write env source target method no_reset w mount_point text :
  direct_copy method ->
  target !! "mount_point" = Some mount_point ->
  on_windows env = false ->
  let w1 := snd (pre_reset env target no_reset w) in
  let destination := destination_of env mount_point source in
  file_at env w1 source = Some (plain text) ->
  text <> "" ->
  writable (sys_at env (now w1)) destination = false ->
  flash env source target method no_reset w
  = (Ret (-14),
     {| now := now w1;
        trace := Log ERROR "%s" [AExn (OSError destination)]
                 :: Log ERROR "Write failed due to OSError" []
                 :: WriteFile destination (open_flags env) text
                 :: Log DEBUG "writing binary: %s (size=%i bytes)"
                      [AStr destination; AInt (Z.of_nat (String.length text))]
                 :: Log DEBUG "SHA1: %s" [ASha1 text]
                 :: ReadBinary source
                 :: Log DEBUG "read source file" []
                 :: trace w1 |}).
Proof.
  intros Hd Hm Hw w1 destination Hf Ht Hwr.
  rewrite (flash_direct_copy _ _ _ _ _ _ _ Hd Hm), flash_copy_sequence.
  fold w1. fold destination. unfold try_except.
  assert (write_image env source destination w1
          = (Raise (OSError destination),
             {| now := now w1;
                trace := WriteFile destination (open_flags env) text
                         :: Log DEBUG "writing binary: %s (size=%i bytes)"
                              [AStr destination; AInt (Z.of_nat (String.length text))]
                         :: Log DEBUG "SHA1: %s" [ASha1 text]
                         :: ReadBinary source
                         :: Log DEBUG "read source file" []
                         :: trace w1 |})) as Hwi.
  { unfold file_at in Hf.
    unfold write_image, read_binary, read_file, write_file, bind, emit, observe, log.
    rewrite Hw. cbn. rewrite Hf. cbn. rewrite (eqb_neq _ _ Ht). cbn. now rewrite Hwr. }
  now rewrite (bind_raise _ _ _ _ _ Hwi).
Qed.

Lemma failed_write_witness :
  fst (flash readonly_drive "/home/user/fw/image.bin" board "" false (boot 0)) = Ret (-14).
Proof.
  rewrite (failed_write readonly_drive "/home/user/fw/image.bin" board "" false (boot 0)
             "/media/MBED" "FIRMWARE").
  - reflexivity.
  - split; discriminate.
  - reflexivity.
  - reflexivity.
  - reflexivity.
  - discriminate.
  - reflexivity.
Defined.

(** ** The other ends of the verification (lines 264-273) *)

(** X7.  A direct-copy flash that reaches the verification and finds no
    [FAIL.TXT] but a readable [ASSERT.TXT] returns -4 and logs the stripped
    contents with the whole descriptor; it needs no [target_id] for that,
    and does not look for the image. *)
Theorem flash_device_assert env source target method no_reset w new_target wv mount text :
  reaches_verification env source target method no_reset w new_target wv ->
  resolved_mount target new_target = Some mount ->
  file_at env wv (in_mount env mount "FAIL.TXT") = None ->
  file_at env wv (in_mount env mount "ASSERT.TXT") = Some (plain text) ->
  flash env source target method no_reset w
  = (Ret (-4),
     {| now := now wv;
        trace := Log ERROR "Flashing failed: %s. tid=%s" [AStr (PyStr.strip text); ADict target]
                 :: ReadText (in_mount env mount "ASSERT.TXT")
                 :: IsFile (in_mount env mount "ASSERT.TXT")
                 :: IsFile (in_mount env mount "FAIL.TXT")
                 :: verifying_log
                 :: trace wv |}).
Proof.
  intros Hr Hm Hf Ha.
  rewrite (flash_reached _ _ _ _ _ _ _ _ Hr). unfold try_except.
  rewrite (verify_flash_start _ _ _ _ _ _ Hm).
  step ltac:(now apply isfile_absent with (wv := wv)).
  step ltac:(apply isfile_present with (wv := wv); [reflexivity | rewrite Ha; eauto]).
  step ltac:(apply read_text_run with (wv := wv); [reflexivity | exact Ha]).
  reflexivity.
Qed.

Lemma flash_device_assert_witness :
  fst (flash asserting_board "/home/user/fw/image.bin" board "" false (boot 0)) = Ret (-4).
Proof.
  pose (pre := flash_prelude asserting_board "/home/user/fw/image.bin" board false
                 "image.bin" "/media/MBED/image.bin" (boot 0)).
  rewrite (flash_device_assert asserting_board "/home/user/fw/image.bin" board "" false (boot 0)
             {[ "dev_point" := "/dev/sdb"; "target_id" := "0240" ]} (snd pre)
             "/media/MBED" ("hard fault" ++ LF)).
  - reflexivity.
  - split; [split; discriminate |].
    exists "/media/MBED". split; [reflexivity | vm_compute; reflexivity].
  - reflexivity.
  - reflexivity.
  - reflexivity.
Defined.

(** X8.  With [FAIL.TXT] on the drive and a descriptor without
    [target_id], the flash does not return -4: composing the log line
    raises the [KeyError] of [target["target_id"]]. *)
Theorem failure_without_target_id env source target method no_reset w new_target wv mount
    text :
  reaches_verification env source target method no_reset w new_target wv ->
  resolved_mount target new_target = Some mount ->
  file_at env wv (in_mount env mount "FAIL.TXT") = Some (plain text) ->
  target !! "target_id" = None ->
  fst (flash env source target method no_reset w) = Raise (KeyError "target_id").
Proof.
  intros Hr Hm Hf Hid.
  rewrite (flash_reached _ _ _ _ _ _ _ _ Hr). unfold try_except.
  rewrite (verify_flash_start _ _ _ _ _ _ Hm).
  step ltac:(apply isfile_present with (wv := wv); [reflexivity | rewrite Hf; eauto]).
  step ltac:(apply read_text_run with (wv := wv); [reflexivity | exact Hf]).
  stop ltac:(apply getitem_none; exact Hid).
  reflexivity.
Qed.

Lemma failure_without_target_id_witness :
  fst (flash mac_failing "/Users/user/fw/image.bin" nameless_board "" false (boot 0))
  = Raise (KeyError "target_id").
Proof.
  pose (pre := flash_prelude mac_failing "/Users/user/fw/image.bin" nameless_board false
                 "image.bin" "/Volumes/MBED/image.bin" (boot 0)).
  apply (failure_without_target_id mac_failing "/Users/user/fw/image.bin" nameless_board ""
           false (boot 0) nameless_board (snd pre) "/Volumes/MBED" "bad crc").
  - split; [split; discriminate |].
    exists "/Volumes/MBED". split; [reflexivity | vm_compute; reflexivity].
  - reflexivity.
  - reflexivity.
  - reflexivity.
Defined.

(** X9.  A marker file that is there and cannot be read makes the flash
    raise the [IOError] again, whichever of the two markers it is; the
    outcome is neither -4 nor any other code. *)
Theorem unreadable_marker env source target method no_reset w new_target wv mount text :
  reaches_verification env source target method no_reset w new_target wv ->
  resolved_mount target new_target = Some mount ->
  let locked := Some {| contents := text; readable := false |} in
  (file_at env wv (in_mount env mount "FAIL.TXT") = locked ->
   fst (flash env source target method no_reset w)
   = Raise (IOError (in_mount env mount "FAIL.TXT"))) /\
  (file_at env wv (in_mount env mount "FAIL.TXT") = None ->
   file_at env wv (in_mount env mount "ASSERT.TXT") = locked ->
   fst (flash env source target method no_reset w)
   = Raise (IOError (in_mount env mount "ASSERT.TXT"))).
Proof.
  intros Hr Hm locked.
  assert (forall path w1,
             now w1 = now wv ->
             file_at env wv path = locked ->
             read_text env path w1
             = (Raise (IOError path),
                {| now := now w1; trace := ReadText path :: trace w1 |})) as Hread.
  { intros path w1 Hn Hf. unfold file_at in Hf.
    unfold read_text, read_file, bind, emit, observe. cbn. now rewrite Hn, Hf. }
  rewrite (flash_reached _ _ _ _ _ _ _ _ Hr). unfold try_except.
  rewrite (verify_flash_start _ _ _ _ _ _ Hm).
  split.
  - intros Hf.
    step ltac:(apply isfile_present with (wv := wv); [reflexivity | rewrite Hf; eauto]).
    stop ltac:(apply Hread; [reflexivity | exact Hf]). reflexivity.
  - intros Hf Ha.
    step ltac:(now apply isfile_absent with (wv := wv)).
    step ltac:(apply isfile_present with (wv := wv); [reflexivity | rewrite Ha; eauto]).
    stop ltac:(apply Hread; [reflexivity | exact Ha]). reflexivity.
Qed.

Lemma unreadable_marker_witness :
  fst (flash locked_marker "/home/user/fw/image.bin" board "" false (boot 0))
  = Raise (IOError "/media/MBED/FAIL.TXT").
Proof.
  pose (pre := flash_prelude locked_marker "/home/user/fw/image.bin" board false
                 "image.bin" "/media/MBED/image.bin" (boot 0)).
  apply (unreadable_marker locked_marker "/home/user/fw/image.bin" board "" false (boot 0)
           {[ "dev_point" := "/dev/sdb"; "target_id" := "0240" ]} (snd pre)
           "/media/MBED" "bad crc").
  - split; [split; discriminate |].
    exists "/media/MBED". split; [reflexivity | vm_compute; reflexivity].
  - reflexivity.
  - reflexivity.
Defined.

(** ** The debug probe and the descriptor (lines 177-209) *)

(** X10.  With pyOCD installed and a descriptor that has a mount point
    and a target id, the flash by the debug probe returns 0, returns -4
    when the session raises an [AttributeError], and lets any other
    exception of the session through; it writes nothing to the mount point
    and never calls [reset_board], whatever [no_reset] is. *)
Theorem probe_flash env source target no_reset w mount_point target_id :
  pyocd_installed env = true ->
  target !! "mount_point" = Some mount_point ->
  target !! "target_id" = Some target_id ->
  let run := flash env source target "pyocd" no_reset w in
  fst run = match probe (sys_at env (now w)) target_id source with
            | ProbeDone => Ret 0
            | ProbeAttributeError => Ret (-4)
            | ProbeOtherError => Raise ProbeFailure
            end /\
  writes (trace (snd run)) = writes (trace w) /\
  reset_calls (trace (snd run)) = reset_calls (trace w).
Proof.
  intros Hp Hm Hid run. subst run.
  unfold flash. cbn [String.eqb Ascii.eqb Bool.eqb].
  unfold flash_pyocd, try_except, bind, log, emit, observe, getitem.
  rewrite Hp. cbn. rewrite Hm. cbn. rewrite Hid. cbn.
  destruct (probe (sys_at env (now w)) target_id source); cbn; rewrite ?Hid; cbn;
    repeat split; reflexivity.
Qed.

Lemma probe_flash_witness :
  fst (flash broken_probe "/Users/user/fw/image.bin" mac_board "pyocd" false (boot 0))
  = Ret (-4).
Proof.
  apply (probe_flash broken_probe "/Users/user/fw/image.bin" mac_board false (boot 0)
           "/Volumes/MBED" "0240"); reflexivity.
Defined.

(** X11.  Every supported method reads [target['mount_point']] first: a
    descriptor without it makes the flash raise [KeyError], the debug probe
    included, which has no use for the mount point; nothing has been
    written and no reset sent by then. *)
Theorem missing_mount_point env source target method no_reset w :
  method <> "edbg" ->
  (method = "pyocd" -> pyocd_installed env = true) ->
  target !! "mount_point" = None ->
  let run := flash env source target method no_reset w in
  fst run = Raise (KeyError "mount_point") /\
  now (snd run) = now w /\
  writes (trace (snd run)) = writes (trace w) /\
  reset_calls (trace (snd run)) = reset_calls (trace w).
Proof.
  intros He Hp Hm run. subst run. unfold flash.
  rewrite (eqb_neq _ _ He).
  destruct (String.eqb method "pyocd") eqn:E.
  - apply String.eqb_eq in E. rewrite (Hp E).
    unfold bind, log, emit, getitem. cbn. rewrite Hm. cbn. repeat split; reflexivity.
  - unfold bind, getitem. cbn. rewrite Hm. cbn. repeat split; reflexivity.
Qed.

Lemma missing_mount_point_witness :
  fst (flash broken_probe "/Users/user/fw/image.bin" {[ "target_id" := "0240" ]} "pyocd" false
         (boot 0))
  = Raise (KeyError "mount_point").
Proof.
  apply (missing_mount_point broken_probe "/Users/user/fw/image.bin" {[ "target_id" := "0240" ]}
           "pyocd" false (boot 0)).
  - discriminate.
  - reflexivity.
  - reflexivity.
Defined.

(** ** Which line is reset, and when (lines 212-214, 251-256) *)









Example refreshed_port_moved :
  refreshed_port "/dev/ttyACM0"
    {[ "serial_port" := "/dev/ttyACM1"; "dev_point" := "/dev/sdb"; "target_id" := "0240" ]}
  = "/dev/ttyACM1".
Proof. reflexivity. Qed.

(** ** What the watch does to the outside (lines 85-104) *)

Lemma runner_poll_events env drive : emits_only (watch_event env drive) (runner_poll env drive).
Proof.
  unfold runner_poll, auxiliary_drive_check.
  fold (listing_command env drive).
  destruct (on_windows env) eqn:Hw; cbn [andb]; emits.
  all: unfold watch_event; rewrite ?Hw; auto.
Qed.

Lemma runner_loop_events env fuel drive start_time :
  emits_only (watch_event env drive) (runner_loop env fuel drive start_time).
Proof.
  induction fuel as [|fuel IH]; cbn [runner_loop]; emits.
  all: first [apply runner_poll_events | apply IH | unfold watch_event; auto].
Qed.

(** X13.  The watch only sleeps two seconds at a time and lists the drive
    (on Windows it may look at the drive a second time), and logs one line
    at the timeout: it opens no serial line, writes nothing and reads no
    file. *)
Theorem runner_only_lists env drive w :
  exists evs,
    trace (snd (runner env drive w)) = (evs ++ trace w)%list /\
    Forall (watch_event env drive) evs.
Proof.
  assert (emits_only (watch_event env drive) (runner env drive)) as H.
  { unfold runner. emits. apply runner_loop_events. }
  apply H.
Qed.

(** ** [reset_board] and [auxiliary_drive_check] on every input *)

(** X14.  A reset returns -6 exactly
    when the serial line cannot be opened, and then sends no break and
    closes nothing, and prints the hint exactly when the message says
    "could not open port"; when the line opens it sends the break, closes
    the line and returns [None], also when the break failed. *)
Theorem reset_board_outcome env serial_port w :
  let failure := serial_error (sys_at env (now w)) serial_port in
  let run := reset_board env serial_port w in
  fst run = (if failure is Some _ then Ret (Some (-6)) else Ret None) /\
  exists evs,
    trace (snd run) = (evs ++ trace w)%list /\
    (In (SendBreak serial_port) evs <-> failure = None) /\
    (In (SerialClose serial_port) evs <-> failure = None) /\
    (In close_hint evs <->
     exists message, failure = Some message /\
                     PyStr.found message "could not open port" = true).
Proof.
  intros failure run. subst failure run.
  unfold reset_board, bind, emit, observe, log, close_hint. cbn.
  destruct (serial_error _ serial_port) as [message|]; cbn.
  - destruct (PyStr.found message "could not open port") eqn:E; cbn.
    + split; [reflexivity |].
      exists [Print "Reset could not be given. Close your Serial connection to device.";
              Log ERROR "%s" [AStr message]; Log INFO "reset could not be sent" [];
              SerialOpen serial_port; ResetBoard serial_port].
      split; [reflexivity |]. cbn.
      repeat split; try (intros H; intuition discriminate); try discriminate.
      intros _. exists message. now split.
    + split; [reflexivity |].
      exists [Log ERROR "%s" [AStr message]; Log INFO "reset could not be sent" [];
              SerialOpen serial_port; ResetBoard serial_port].
      split; [reflexivity |]. cbn.
      repeat split; try (intros H; intuition discriminate); try discriminate.
      intros (m & [= <-] & Hm). congruence.
  - destruct (break_sent _ serial_port); cbn.
    + split; [reflexivity |].
      exists [SerialClose serial_port; Log INFO "reset completed" []; SendBreak serial_port;
              Log INFO "sendBreak to device to reboot" []; SerialOpen serial_port;
              ResetBoard serial_port].
      split; [reflexivity |]. cbn.
      repeat split; try (intros H; intuition discriminate); try tauto.
      intros (m & Hm & _). discriminate.
    + split; [reflexivity |].
      exists [SerialClose serial_port; Log INFO "reset failed" []; SendBreak serial_port;
              Log INFO "sendBreak to device to reboot" []; SerialOpen serial_port;
              ResetBoard serial_port].
      split; [reflexivity |]. cbn.
      repeat split; try (intros H; intuition discriminate); try tauto.
      intros (m & Hm & _). discriminate.
Qed.

(** X15.  The second look at the drive raises when the drive cannot be
    listed; otherwise its answer is true exactly when some entry of the
    drive has ".HTM" in its name and the image is no entry of the drive, it
    is [False] exactly when no entry has ".HTM" in its name, and [None]
    (no answer) when the status page and the image are both there. *)
Theorem auxiliary_drive_check_outcome env drive w :
  let run := auxiliary_drive_check env drive w in
  now (snd run) = now w /\
  match listdir (sys_at env (now w)) (fst drive) with
  | None => fst run = Raise (OSError (fst drive))
  | Some out =>
      exists answer,
        fst run = Ret answer /\
        (truthy answer = true <-> status_page out /\ ~ In (snd drive) out) /\
        (answer = Some false <-> ~ status_page out) /\
        (answer = None <-> status_page out /\ In (snd drive) out)
  end.
Proof.
  intros run. subst run. split; [apply auxiliary_drive_check_timeless |].
  unfold auxiliary_drive_check, bind, emit, observe. cbn.
  destruct (listdir _ (fst drive)) as [out|]; [| reflexivity]. cbn.
  assert (existsb (fun item => PyStr.found item ".HTM") out = true <-> status_page out) as Hpage.
  { unfold status_page. rewrite existsb_exists. reflexivity. }
  assert (bool_decide (snd drive ∈ out) = true <-> In (snd drive) out) as Hin.
  { rewrite bool_decide_eq_true. apply list_elem_of_In. }
  destruct (existsb _ out) eqn:Ep.
  - assert (status_page out) as Hp by now apply Hpage.
    destruct (bool_decide (snd drive ∈ out)) eqn:Ei; cbn.
    + assert (In (snd drive) out) as Hl by now apply Hin.
      exists None. repeat split; try discriminate; try tauto.
    + assert (~ In (snd drive) out) as Hl by (intros Hl; apply Hin in Hl; discriminate).
      exists (Some true). repeat split; try discriminate; try tauto.
  - assert (~ status_page out) as Hp by (intros Hp; apply Hpage in Hp; discriminate).
    exists (Some false). repeat split; try discriminate; try tauto.
Qed.

(** ** The resolution on every input (lines 106-168) *)

Lemma scan_serial_by_id_absent target target_id lines new_target w :
  target !! "target_id" = Some target_id ->
  List.filter (fun line => PyStr.found line target_id) lines = [] ->
  scan_serial_by_id target lines new_target w = (Ret (Next new_target), w).
Proof.
  intros Hid. induction lines as [|line rest IH]; intros Hf; [reflexivity |].
  cbn [scan_serial_by_id List.filter] in *.
  step ltac:(apply getitem_some; exact Hid).
  destruct (PyStr.found line target_id); [discriminate | now apply IH].
Qed.

Lemma scan_disk_by_id_absent target target_id lines new_target w :
  target !! "target_id" = Some target_id ->
  List.filter (fun line => PyStr.found line target_id) lines = [] ->
  scan_disk_by_id target lines new_target w = (Ret (Next new_target), w).
Proof.
  intros Hid. induction lines as [|line rest IH]; intros Hf; [reflexivity |].
  cbn [scan_disk_by_id List.filter] in *.
  step ltac:(apply getitem_some; exact Hid).
  destruct (PyStr.found line target_id); [discriminate | now apply IH].
Qed.

(** X16.  On the by-id platforms, a board that neither listing names is
    reported as unchanged: the resolution runs the two listings and returns
    the input descriptor itself, whatever its serial port and mount point
    are, and also when it has none. *)
Theorem board_not_listed env target target_id w :
  by_id_platform env ->
  target !! "target_id" = Some target_id ->
  List.filter (fun line => PyStr.found line target_id) (serial_lines env w) = [] ->
  List.filter (fun line => PyStr.found line target_id) (disk_lines env w) = [] ->
  check_points_unchanged env target w = (Ret (Descriptor target), listed w).
Proof.
  intros [Hw Hd] Hid Hs Hk.
  assert (by_id_resolution env target w = (Ret (Next ∅), listed w)) as Hby.
  { unfold by_id_resolution.
    step ltac:(apply command_run).
    step ltac:(apply scan_serial_by_id_absent with target_id; [exact Hid | exact Hs]).
    step ltac:(apply command_run).
    step ltac:(apply scan_disk_by_id_absent with target_id; [exact Hid | exact Hk]).
    reflexivity. }
  unfold check_points_unchanged. rewrite Hw, Hd.
  step ltac:(exact Hby).
  reflexivity.
Qed.

Lemma board_not_listed_witness :
  check_points_unchanged good_board other_board (boot 0)
  = (Ret (Descriptor other_board), listed (boot 0)).
Proof.
  apply (board_not_listed good_board other_board "0777" (boot 0)).
  - split; reflexivity.
  - reflexivity.
  - vm_compute. reflexivity.
  - vm_compute. reflexivity.
Defined.

Section ResolutionLogs.

Variable P : Event -> Prop.
Hypothesis logs : forall lvl fmt args, P (Log lvl fmt args).

Lemma scan_serial_by_id_logs target lines new_target :
  emits_only P (scan_serial_by_id target lines new_target).
Proof.
  revert new_target. induction lines as [|line rest IH]; intros new_target;
    cbn [scan_serial_by_id]; emits; try apply IH; try apply logs.
Qed.

Lemma scan_disk_by_id_logs target lines new_target :
  emits_only P (scan_disk_by_id target lines new_target).
Proof.
  revert new_target. induction lines as [|line rest IH]; intros new_target;
    cbn [scan_disk_by_id]; emits; try apply IH; try apply logs.
Qed.

End ResolutionLogs.

Lemma check_points_unchanged_events env target :
  emits_only resolution_event (check_points_unchanged env target).
Proof.
  unfold check_points_unchanged, com_port_resolution, by_id_resolution, report_points.
  change (negb (bool_decide (@nil string = []))) with false. cbv iota.
  emits.
  all: first [ apply scan_serial_by_id_logs; intros; exact I
             | apply scan_disk_by_id_logs; intros; exact I
             | cbn; auto ].
Qed.

Lemma by_id_resolution_no_mount env target w changes w' :
  by_id_resolution env target w = (Ret (Next changes), w') ->
  changes !! "mount_point" = None.
Proof.
  unfold by_id_resolution. intros H.
  rewrite (bind_ret _ _ _ _ _ (command_run _ _ _)) in H.
  unfold bind at 1 in H.
  destruct (scan_serial_by_id _ _ _ _) as [[[code|changes1]|e] w1] eqn:E1;
    [discriminate | | discriminate].
  rewrite (bind_ret _ _ _ _ _ (command_run _ _ _)) in H.
  unfold bind at 1 in H.
  destruct (scan_disk_by_id _ _ _ _) as [[[code|changes2]|e] w2] eqn:E2;
    [discriminate | | discriminate].
  change (negb (bool_decide (@nil string = []))) with false in H. cbv iota in H.
  injection H as -> ->.
  assert (changes1 !! "dev_point" = None /\ changes1 !! "mount_point" = None) as [Hdev Hm].
  { apply scan_serial_by_id_next in E1 as [->|(line & old & _ & _ & ->)];
      [| | apply lookup_empty].
    - split; apply lookup_empty.
    - split; (rewrite lookup_insert_ne by discriminate; apply lookup_empty). }
  apply scan_disk_by_id_next in E2 as [->|(line & ->)]; [exact Hm | | exact Hdev].
  rewrite lookup_insert_ne by discriminate. exact Hm.
Qed.

Lemma com_port_resolution_no_mount env target w changes w' :
  com_port_resolution env target w = (Ret (Next changes), w') ->
  changes !! "mount_point" = None.
Proof.
  unfold com_port_resolution, bind, getitem, emit, observe. intros H.
  destruct (target !! "serial_port") as [old|]; [| discriminate]. cbn in H.
  destruct (target !! "target_id") as [tid|]; [| discriminate]. cbn in H.
  destruct (String.eqb old _); cbn in H; injection H as <- <-.
  - apply lookup_empty.
  - rewrite lookup_insert_ne by discriminate. apply lookup_empty.
Qed.

Lemma check_points_unchanged_no_mount env target w d w' :
  check_points_unchanged env target w = (Ret (Descriptor d), w') ->
  d = target \/ d !! "mount_point" = None.
Proof.
  unfold check_points_unchanged. intros H. unfold bind at 1 in H.
  assert (forall changes w1,
             changes !! "mount_point" = None ->
             report_points target changes w1 = (Ret (Descriptor d), w') ->
             d = target \/ d !! "mount_point" = None) as Hr.
  { intros changes w1 Hm Hrep.
    apply report_points_descriptor in Hrep as [[_ ->]|(_ & tid & _ & ->)]; [now left |].
    right. rewrite lookup_insert_ne by discriminate. exact Hm. }
  destruct (on_windows env).
  - destruct (com_port_resolution env target w) as [[[code|changes]|e] w1] eqn:E;
      try discriminate.
    apply (Hr changes w1); [| exact H]. now apply com_port_resolution_no_mount in E.
  - destruct (on_darwin env).
    + apply (Hr ∅ w); [apply lookup_empty | exact H].
    + destruct (by_id_resolution env target w) as [[[code|changes]|e] w1] eqn:E;
        try discriminate.
      apply (Hr changes w1); [| exact H]. now apply by_id_resolution_no_mount in E.
Qed.

(** X17.  On every platform and for every descriptor, the resolution takes
    no time and only runs the two by-id listings, asks for the COM port and
    logs: it never reads the mount table and never sleeps.  The only codes it
    returns are -10 and -11 (never -12), and a descriptor it returns never
    moves the mount point: the verification looks at the mount point of the
    input. *)
Theorem resolution_never_polls env target w :
  let run := check_points_unchanged env target w in
  now (snd run) = now w /\
  (exists evs, trace (snd run) = (evs ++ trace w)%list /\ Forall resolution_event evs) /\
  (forall code, fst run = Ret (Code code) -> code = -10 \/ code = -11) /\
  (forall d, fst run = Ret (Descriptor d) ->
             resolved_mount target d = target !! "mount_point").
Proof.
  cbn zeta. split; [apply check_points_unchanged_timeless |].
  split; [apply check_points_unchanged_events |].
  destruct (check_points_unchanged env target w) as [r w'] eqn:E. cbn [fst].
  split.
  - intros code ->. now apply check_points_unchanged_codes in E.
  - intros d ->. apply check_points_unchanged_no_mount in E as [->|Hm];
      unfold resolved_mount.
    + now destruct (target !! "mount_point").
    + now rewrite Hm.
Qed.

(** ** The resolution on Windows (lines 107-111, 154-168) *)

(** X18.  On Windows the resolution needs [serial_port] and [target_id]:
    without one of them it raises [KeyError] before it asks anything.  It
    asks for the COM port of the board once; when that is the descriptor's
    port it returns the input descriptor itself; otherwise it asks a second
    time and returns a descriptor of the new port and the [target_id] alone,
    or raises [KeyError] when the input has no [mount_point]. *)
Theorem com_port_outcome env target w :
  on_windows env = true ->
  let run := check_points_unchanged env target w in
  match target !! "serial_port", target !! "target_id" with
  | None, _ => run = (Raise (KeyError "serial_port"), w)
  | Some _, None => run = (Raise (KeyError "target_id"), w)
  | Some serial_port, Some target_id =>
      let port := mbed_com_port (sys_at env (now w)) target_id in
      let asked := ComPortQuery target_id in
      if String.eqb serial_port port
      then run = (Ret (Descriptor target), {| now := now w; trace := asked :: trace w |})
      else
        let changed :=
          Log DEBUG "serial port %s has changed to %s" [AStr serial_port; AStr port] in
        match target !! "mount_point" with
        | Some mount_point =>
            run = (Ret (Descriptor (<["target_id" := target_id]> {[ "serial_port" := port ]})),
                   {| now := now w;
                      trace := Log DEBUG "mount point %s has not changed" [AStr mount_point]
                               :: changed :: asked :: asked :: trace w |})
        | None =>
            run = (Raise (KeyError "mount_point"),
                   {| now := now w; trace := changed :: asked :: asked :: trace w |})
        end
  end.
Proof.
  intros Hw. cbn zeta. unfold check_points_unchanged. rewrite Hw.
  destruct (target !! "serial_port") as [serial_port|] eqn:Esp.
  2:{ apply bind_raise. unfold com_port_resolution.
      apply bind_raise. now apply getitem_none. }
  destruct (target !! "target_id") as [target_id|] eqn:Eid.
  2:{ apply bind_raise. unfold com_port_resolution.
      step ltac:(apply getitem_some; exact Esp).
      apply bind_raise. now apply getitem_none. }
  destruct (String.eqb serial_port _) eqn:E.
  - erewrite bind_ret.
    2:{ unfold com_port_resolution.
        step ltac:(apply getitem_some; exact Esp).
        step ltac:(apply getitem_some; exact Eid).
        unfold bind, emit, observe. cbn. rewrite E. reflexivity. }
    reflexivity.
  - erewrite bind_ret.
    2:{ unfold com_port_resolution.
        step ltac:(apply getitem_some; exact Esp).
        step ltac:(apply getitem_some; exact Eid).
        unfold bind, emit, observe. cbn. rewrite E. reflexivity. }
    cbv beta iota. unfold report_points.
    rewrite bool_decide_eq_false_2 by apply insert_non_empty. cbn [negb].
    rewrite (proj2 (has_key_true _ "serial_port")) by (rewrite lookup_insert_eq; eauto).
    rewrite (proj2 (has_key_false _ "mount_point"))
      by (rewrite lookup_insert_ne by discriminate; apply lookup_empty).
    rewrite insert_empty.
    unfold bind, getitem, log, emit. rewrite Esp, Eid, lookup_singleton_eq. cbn.
    destruct (target !! "mount_point"); reflexivity.
Qed.

Lemma com_port_outcome_witness :
  check_points_unchanged windows_moved windows_board (boot 0)
  = (Ret (Descriptor (<["target_id" := "0240"]> {[ "serial_port" := "COM7" ]})),
     {| now := 0;
        trace := [ Log DEBUG "mount point %s has not changed" [AStr "E:"];
                   Log DEBUG "serial port %s has changed to %s" [AStr "COM3"; AStr "COM7"];
                   ComPortQuery "0240"; ComPortQuery "0240" ] |}).
Proof.
  exact (com_port_outcome windows_moved windows_board (boot 0) eq_refl).
Defined.

(** ** Resolving twice in a row (lines 115-123, 154-168) *)

Lemma filter_both {A} (f g : A -> bool) (l : list A) :
  List.filter (fun x => f x && g x) l = List.filter g (List.filter f l).
Proof.
  induction l as [|x l IH]; [reflexivity |]. cbn [List.filter].
  destruct (f x); cbn [andb List.filter]; [| exact IH].
  destruct (g x); now rewrite IH.
Qed.

Lemma moved_serial_filter target_id serial_port lines :
  List.filter (moved_serial target_id serial_port) lines
  = List.filter (fun line => negb (String.eqb (device_of serial_port) (device_of line)))
      (List.filter (fun line => PyStr.found line target_id) lines).
Proof. unfold moved_serial. apply filter_both. Qed.

Lemma by_id_resolution_unmoved env target target_id serial_port w changes w1 :
  target !! "target_id" = Some target_id ->
  target !! "serial_port" = Some serial_port ->
  List.filter (moved_serial target_id serial_port) (serial_lines env w) = [] ->
  by_id_resolution env target w = (Ret (Next changes), w1) ->
  changes !! "serial_port" = None.
Proof.
  intros Hid Hsp Hmoved H. unfold by_id_resolution in H.
  rewrite (bind_ret _ _ _ _ _ (command_run _ _ _)) in H.
  pose proof (scan_serial_by_id_run target target_id serial_port Hid Hsp
                (serial_lines env w) ∅
                {| now := now w; trace := Command "ls -oA /dev/serial/by-id/" :: trace w |}
                (lookup_empty _)) as Hs.
  rewrite Hmoved in Hs.
  rewrite (bind_ret _ _ _ _ _ Hs) in H.
  rewrite (bind_ret _ _ _ _ _ (command_run _ _ _)) in H.
  unfold bind at 1 in H.
  destruct (scan_disk_by_id _ _ _ _) as [[[code|changes2]|e] w2] eqn:E2;
    [discriminate | | discriminate].
  change (negb (bool_decide (@nil string = []))) with false in H. cbv iota in H.
  injection H as -> ->.
  apply scan_disk_by_id_next in E2 as [->|(dev & ->)].
  - apply lookup_empty.
  - rewrite lookup_insert_ne by discriminate. apply lookup_empty.
  - apply lookup_empty.
Qed.

(** No by-id entry of the board points to another device than the
    descriptor's: the resolution leaves the serial port alone. *)
Lemma unmoved_port env target target_id serial_port w d w' :
  by_id_platform env ->
  target !! "target_id" = Some target_id ->
  target !! "serial_port" = Some serial_port ->
  List.filter (moved_serial target_id serial_port) (serial_lines env w) = [] ->
  check_points_unchanged env target w = (Ret (Descriptor d), w') ->
  refreshed_port serial_port d = serial_port.
Proof.
  intros Hp Hid Hsp Hmoved H.
  apply check_points_unchanged_by_id in H as (changes & w1 & Hby & Hrep); [| exact Hp].
  eapply by_id_resolution_unmoved in Hby; [| exact Hid | exact Hsp | exact Hmoved].
  unfold refreshed_port.
  apply report_points_descriptor in Hrep as [[_ ->]|(_ & tid & _ & ->)].
  - now rewrite Hsp.
  - rewrite lookup_insert_ne by discriminate. now rewrite Hby.
Qed.

(** X19.  On the by-id platforms, with one serial-by-id entry of the board,
    the resolution settles: when its result is put back into the descriptor
    (the serial port the reset after the watch would use) and the resolution
    runs again right away, it finds the serial port unchanged. *)
Theorem resolution_settles env target target_id serial_port w line d1 w1 d2 w2 :
  by_id_platform env ->
  target !! "target_id" = Some target_id ->
  target !! "serial_port" = Some serial_port ->
  List.filter (fun l => PyStr.found l target_id) (serial_lines env w) = [line] ->
  check_points_unchanged env target w = (Ret (Descriptor d1), w1) ->
  check_points_unchanged env (<["serial_port" := refreshed_port serial_port d1]> target) w1
  = (Ret (Descriptor d2), w2) ->
  refreshed_port (refreshed_port serial_port d1) d2 = refreshed_port serial_port d1.
Proof.
  intros Hp Hid Hsp Hone H1 H2.
  assert (now w1 = now w) as Hnow.
  { pose proof (check_points_unchanged_timeless env target w) as Ht.
    now rewrite H1 in Ht. }
  assert (device_of (refreshed_port serial_port d1) = device_of line) as Hdev.
  { destruct (String.eqb (device_of serial_port) (device_of line)) eqn:E.
    - apply String.eqb_eq in E.
      rewrite (unmoved_port env target target_id serial_port w d1 w1 Hp Hid Hsp);
        [exact E | | exact H1].
      rewrite moved_serial_filter, Hone. cbn [List.filter].
      apply String.eqb_eq in E. now rewrite E.
    - apply check_points_unchanged_by_id in H1 as (changes & w0 & Hby & Hrep);
        [| exact Hp].
      eapply by_id_resolution_moved in Hby; [| exact Hid | exact Hsp |].
      + unfold refreshed_port.
        rewrite (report_points_serial_port _ _ _ _ _ _ Hrep Hby). apply device_of_dev.
      + rewrite moved_serial_filter, Hone. cbn [List.filter]. now rewrite E. }
  eapply unmoved_port; [exact Hp | | | | exact H2].
  - rewrite lookup_insert_ne by discriminate. exact Hid.
  - apply lookup_insert_eq.
  - unfold serial_lines. rewrite Hnow. fold (serial_lines env w).
    rewrite moved_serial_filter, Hone. cbn [List.filter].
    rewrite Hdev, String.eqb_refl. reflexivity.
Qed.

Lemma resolution_settles_witness :
  refreshed_port
    (refreshed_port "/dev/ttyACM0"
       {[ "serial_port" := "/dev/ttyACM1"; "dev_point" := "/dev/sdb"; "target_id" := "0240" ]})
    {[ "dev_point" := "/dev/sdb"; "target_id" := "0240" ]}
  = refreshed_port "/dev/ttyACM0"
      {[ "serial_port" := "/dev/ttyACM1"; "dev_point" := "/dev/sdb"; "target_id" := "0240" ]}.
Proof.
  apply (resolution_settles moved_board board "0240" "/dev/ttyACM0" (boot 0)
           (serial_line "ttyACM1") _
           (snd (check_points_unchanged moved_board board (boot 0))) _
           (snd (check_points_unchanged moved_board
                   (<["serial_port" := "/dev/ttyACM1"]> board)
                   (snd (check_points_unchanged moved_board board (boot 0)))))).
  - split; reflexivity.
  - reflexivity.
  - reflexivity.
  - vm_compute. reflexivity.
  - vm_compute. reflexivity.
  - vm_compute. reflexivity.
Defined.

(** ** [get_supported_targets] (lines 39-43) *)

Lemma str_le_total : Total str_le.
Proof. intros a b. apply String.leb_total. Qed.

Lemma str_le_lt a b : str_le a b <-> OrdersEx.String_as_OT.lt a b \/ a = b.
Proof.
  unfold str_le, String.leb, OrdersEx.String_as_OT.lt.
  change (String.compare a b) with (OrdersEx.String_as_OT.compare a b).
  destruct (OrdersEx.String_as_OT.compare_spec a b) as [H|H|H].
  - intuition.
  - intuition.
  - split; [discriminate |]. intros [Hc| ->]; [discriminate |].
    exfalso. exact (StrictOrder_Irreflexive _ H).
Qed.

Lemma str_le_trans : Transitive str_le.
Proof.
  intros a b c Hab Hbc. apply str_le_lt in Hab, Hbc. apply str_le_lt.
  destruct Hab as [Hab| ->]; [| exact Hbc].
  destruct Hbc as [Hbc| <-]; [| now left].
  left. exact (StrictOrder_Transitive _ _ _ Hab Hbc).
Qed.

Example get_supported_targets_some_ids :
  get_supported_targets some_ids = ["FRDM_K22F"; "K64F"; "LPC1768"].
Proof. vm_compute. reflexivity. Qed.

(** X20.  The supported targets are the platform names of the table, each
    one once, in ascending order: every name of the list is the name of some
    id, every name of the table is in the list, no name is there twice, and
    each name is [<=] all the names after it. *)
Theorem supported_targets_sorted (manufacture_ids : gmap string string) :
  let names := get_supported_targets manufacture_ids in
  StronglySorted str_le names /\
  NoDup names /\
  forall name, name ∈ names <-> exists id, manufacture_ids !! id = Some name.
Proof.
  cbn zeta. unfold get_supported_targets. split; [| split].
  - apply StronglySorted_merge_sort; [apply str_le_trans | apply str_le_total].
  - rewrite merge_sort_Permutation. apply NoDup_remove_dups.
  - intros name. rewrite merge_sort_Permutation, elem_of_remove_dups, list_elem_of_fmap.
    split.
    + intros ([id v] & -> & Hin). exists id. now apply elem_of_map_to_list in Hin.
    + intros (id & Hid). exists (id, name). split; [reflexivity |].
      now apply elem_of_map_to_list.
Qed.

(** ** A descriptor without [serial_port] and [no_reset] (lines 107-117, 241-243) *)

Lemma scan_serial_by_id_needs_port target target_id lines new_target w :
  target !! "serial_port" = None ->
  target !! "target_id" = Some target_id ->
  List.filter (fun line => PyStr.found line target_id) lines <> [] ->
  scan_serial_by_id target lines new_target w = (Raise (KeyError "serial_port"), w).
Proof.
  intros Hsp Hid. induction lines as [|line rest IH]; intros Hf; [now destruct Hf |].
  cbn [scan_serial_by_id List.filter] in *.
  step ltac:(apply getitem_some; exact Hid).
  destruct (PyStr.found line target_id); [| now apply IH].
  apply bind_raise. now apply getitem_none.
Qed.

Lemma check_points_unchanged_needs_port env target target_id w :
  target !! "serial_port" = None ->
  target !! "target_id" = Some target_id ->
  on_windows env = true \/
  (by_id_platform env /\
   List.filter (fun line => PyStr.found line target_id) (serial_lines env w) <> []) ->
  exists w', check_points_unchanged env target w = (Raise (KeyError "serial_port"), w').
Proof.
  intros Hsp Hid [Hw|[[Hw Hd] Hf]]; unfold check_points_unchanged; rewrite Hw.
  - exists w. apply bind_raise. unfold com_port_resolution.
    apply bind_raise. now apply getitem_none.
  - rewrite Hd. eexists. apply bind_raise. unfold by_id_resolution.
    step ltac:(apply command_run).
    apply bind_raise. now apply scan_serial_by_id_needs_port with target_id.
Qed.

(** X21.  With [no_reset] true no reset needs the serial port, and still a
    descriptor without [serial_port] does not get through the resolution on
    Windows, nor on a by-id platform when the serial listing names the
    board: the flash ends with the unhandled [KeyError] of
    [target['serial_port']], after the image has been written and the
    settle delay has passed. *)
Theorem no_reset_needs_serial_port env source target target_id mount_point method w wr :
  direct_copy method ->
  target !! "serial_port" = None ->
  target !! "target_id" = Some target_id ->
  target !! "mount_point" = Some mount_point ->
  write_phase env source target true (destination_of env mount_point source) w
  = (Ret (Next tt), wr) ->
  on_windows env = true \/
  (by_id_platform env /\
   List.filter (fun line => PyStr.found line target_id) (serial_lines env wr) <> []) ->
  fst (flash env source target method true w) = Raise (KeyError "serial_port").
Proof.
  intros Hd Hsp Hid Hm Hw Hos.
  destruct (check_points_unchanged_needs_port env target target_id wr Hsp Hid Hos)
    as (w' & Hc).
  rewrite (flash_direct_copy env source target method true mount_point w Hd Hm).
  unfold flash_copy, try_except.
  erewrite bind_raise.
  2:{ unfold flash_prelude. step ltac:(exact Hw). apply bind_raise. exact Hc. }
  reflexivity.
Qed.

Lemma no_reset_needs_serial_port_witness :
  fst (flash good_board "/home/user/fw/image.bin" headless_board "simple" true (boot 0))
  = Raise (KeyError "serial_port").
Proof.
  apply (no_reset_needs_serial_port good_board "/home/user/fw/image.bin" headless_board
           "0240" "/media/MBED" "simple" (boot 0)
           (snd (write_phase good_board "/home/user/fw/image.bin" headless_board true
                   (destination_of good_board "/media/MBED" "/home/user/fw/image.bin")
                   (boot 0)))).
  - split; discriminate.
  - reflexivity.
  - reflexivity.
  - reflexivity.
  - vm_compute. reflexivity.
  - right. split; [split; reflexivity |]. vm_compute. discriminate.
Defined.
